(** * Verification of the repository's own logic in the LangChain example scripts

    The scripts under [chains/], [models/], [prompts/], [runnables/] and
    [structured_output/] mostly call an external framework, but they also
    contain code written by the repository's authors: predicates and field
    selectors passed to the framework, generators, custom [Runnable] classes
    with their own state, Pydantic validators, and the [main] driver of every
    script.  This development embeds that code and proves what it does.

    Python data is modelled as follows.
    - [str] is [string]; a character is a code point below 256.
    - [int] is [Z].
    - a [dict] with string keys is an association list in insertion order
      (Python dicts keep insertion order and the code observes it).
    - an instance attribute that is a dict used as a map is a [gmap].
    - a [float] is a rational number, an infinity or [nan] ([PyFloat.t]);
      the arithmetic of numpy is not modelled, the comparisons are.
    - a function that may raise returns a [result]; an exception is its
      class and its message.
    - what the interpreter refuses to do is a parameter ([interpreter]):
      the [str] of an [int] beyond the digit limit or of a value nested too
      deeply, and a delay [time.sleep] cannot take.  [cpython] is the
      interpreter with the limits of CPython 3.11.
    - a printed line is kept without the blanks and the pictograph it
      starts with in the source.  In [ManualRetry], [CachingRunnable] and
      [Script] a [print] can raise, as the terminal ([console]) decides;
      in the other modules the printed lines are events of the run, and
      the statements about them are about runs in which the terminal takes
      every line. *)

From Stdlib Require Import ZArith QArith List Bool Ascii String Lia.
From Stdlib Require OrderedTypeEx.
From stdpp Require Import base gmap strings list pretty sorting.

Set Warnings "-register-all".

Local Open Scope string_scope.
Local Open Scope Z_scope.
Local Open Scope list_scope.

(** ** Exceptions *)

Module Py.

(** The exception classes that occur in the sources, those the interpreter
    raises for what the sources do ([str] of a value it refuses, a delay
    [time.sleep] cannot take, a line the terminal cannot take), plus the
    two [BaseException] classes a running script can receive from
    outside. *)
Inductive exc_class : Type :=
  | ValueError
  | TypeError
  | KeyError
  | AttributeError
  | ImportError
  | EOFError
  | ConnectionError
  | RecursionError
  | OverflowError
  | UnicodeEncodeError
  | OSError
  | OtherException      (* any other subclass of [Exception] *)
  | KeyboardInterrupt   (* [BaseException], not [Exception] *)
  | SystemExit.         (* [BaseException], not [Exception] *)

Record exception : Type := mkExc { exc_cls : exc_class; exc_msg : string }.

(** [isinstance(e, Exception)]. *)
Definition is_Exception (c : exc_class) : bool :=
  match c with
  | KeyboardInterrupt | SystemExit => false
  | _ => true
  end.

(** [isinstance(e, ConnectionError)], for the classes above (the
    subclasses of [ConnectionError] do not occur). *)
Definition is_ConnectionError (c : exc_class) : bool :=
  match c with
  | ConnectionError => true
  | _ => false
  end.

#[global] Instance exc_class_eq_dec : EqDecision exc_class.
Proof. solve_decision. Defined.

(** The outcome of a call: a value, or a raised exception. *)
Inductive result (A : Type) : Type :=
  | Ok (a : A)
  | Raise (e : exception).
Arguments Ok {A} a.
Arguments Raise {A} e.

Definition bind {A B} (r : result A) (k : A -> result B) : result B :=
  match r with
  | Ok a => k a
  | Raise e => Raise e
  end.

Definition raise {A} (c : exc_class) (msg : string) : result A :=
  Raise (mkExc c msg).

Definition is_ok {A} (r : result A) : bool :=
  match r with Ok _ => true | Raise _ => false end.

End Py.
Import Py.

Notation "x <- c1 ;; c2" := (Py.bind c1 (fun x => c2))
  (at level 100, c1 at next level, right associativity).

(** ** Values *)

(** The values the scripts put in their dicts. *)
Inductive pyval : Type :=
  | VNone
  | VBool (b : bool)
  | VInt (z : Z)
  | VStr (s : string)
  | VList (l : list pyval)
  | VDict (d : list (string * pyval)).

(** A dict with string keys, in insertion order. *)
Abbreviation pydict := (list (string * pyval)).

(** [key in d]. *)
Fixpoint dict_contains (d : pydict) (k : string) : bool :=
  match d with
  | [] => false
  | (k', _) :: d' => if String.eqb k k' then true else dict_contains d' k
  end.

(** [d.get(k)], [None] of the option standing for an absent key. *)
Fixpoint dict_lookup (d : pydict) (k : string) : option pyval :=
  match d with
  | [] => None
  | (k', v) :: d' => if String.eqb k k' then Some v else dict_lookup d' k
  end.

(** [d.get(k, default)]. *)
Definition dict_get (d : pydict) (k : string) (default : pyval) : pyval :=
  match dict_lookup d k with
  | Some v => v
  | None => default
  end.

(** [d.get(k)], whose default is [None]. *)
Definition dict_get_none (d : pydict) (k : string) : pyval :=
  dict_get d k VNone.

(** The name [type(v).__name__] of a value's type. *)
Definition type_name (v : pyval) : string :=
  match v with
  | VNone => "NoneType"
  | VBool _ => "bool"
  | VInt _ => "int"
  | VStr _ => "str"
  | VList _ => "list"
  | VDict _ => "dict"
  end.

(** [len(v)]: defined on strings, lists and dicts, [TypeError] otherwise. *)
Definition py_len (v : pyval) : result Z :=
  match v with
  | VStr s => Ok (Z.of_nat (String.length s))
  | VList l => Ok (Z.of_nat (List.length l))
  | VDict d => Ok (Z.of_nat (List.length d))
  | _ => raise TypeError ("object of type '" +:+ type_name v +:+ "' has no len()")
  end.

(** ** Strings *)

Module PyStr.

Definition code (c : ascii) : N := Ascii.N_of_ascii c.

Definition in_range (lo hi : N) (c : ascii) : bool :=
  ((lo <=? code c) && (code c <=? hi))%N.

(** [c.isspace()], which is also what [str.split()] splits on. *)
Definition is_space (c : ascii) : bool :=
  in_range 9 13 c || in_range 28 32 c || in_range 133 133 c || in_range 160 160 c.

(** [c.isalnum()]. *)
Definition is_alnum (c : ascii) : bool :=
  in_range 48 57 c || in_range 65 90 c || in_range 97 122 c
  || in_range 170 170 c || in_range 178 179 c || in_range 181 181 c
  || in_range 185 186 c || in_range 188 190 c
  || in_range 192 214 c || in_range 216 246 c || in_range 248 255 c.

(** [c.isupper()]. *)
Definition is_upper (c : ascii) : bool :=
  in_range 65 90 c || in_range 192 214 c || in_range 216 222 c.

(** [c.isprintable()]. *)
Definition is_printable (c : ascii) : bool :=
  in_range 32 126 c || in_range 161 172 c || in_range 174 255 c.

(** [c.lower()]: every upper-case letter below 256 has its lower-case
    partner 32 places further. *)
Definition lower_char (c : ascii) : ascii :=
  if is_upper c then Ascii.ascii_of_N (code c + 32) else c.

Fixpoint forallb_str (p : ascii -> bool) (s : string) : bool :=
  match s with
  | EmptyString => true
  | String c s' => p c && forallb_str p s'
  end.

Fixpoint existsb_str (p : ascii -> bool) (s : string) : bool :=
  match s with
  | EmptyString => false
  | String c s' => p c || existsb_str p s'
  end.

Fixpoint map_str (f : ascii -> ascii) (s : string) : string :=
  match s with
  | EmptyString => EmptyString
  | String c s' => String (f c) (map_str f s')
  end.

(** [s.isalnum()]: false on the empty string. *)
Definition isalnum (s : string) : bool :=
  match s with
  | EmptyString => false
  | _ => forallb_str is_alnum s
  end.

(** [s.lower()]. *)
Definition lower (s : string) : string := map_str lower_char s.

(** [s.upper()] is only used on model output and is not modelled. *)

(** [c in s] for a one-character string [c]. *)
Definition contains_char (c : ascii) (s : string) : bool :=
  existsb_str (Ascii.eqb c) s.

(** [s.replace(c, '')] for a one-character string [c]. *)
Fixpoint remove_char (c : ascii) (s : string) : string :=
  match s with
  | EmptyString => EmptyString
  | String c' s' =>
      if Ascii.eqb c c' then remove_char c s' else String c' (remove_char c s')
  end.

(** [s.split()]: the maximal runs of non-space characters, in order.
    [cur] holds the characters of the current run, last one first. *)
Definition flush (cur : list ascii) : list string :=
  match cur with
  | [] => []
  | _ => [string_of_list_ascii (rev cur)]
  end.

Fixpoint split_from (cur : list ascii) (s : string) : list string :=
  match s with
  | EmptyString => flush cur
  | String c s' =>
      if is_space c then flush cur ++ split_from [] s'
      else split_from (c :: cur) s'
  end.

Definition split (s : string) : list string := split_from [] s.

(** A word: not empty, no white space in it. *)
Definition is_word (s : string) : Prop :=
    s <> "" /\ forallb_str (fun c => negb (is_space c)) s = true.

(** Lower-case hexadecimal digit. *)
Definition hex_digit (n : N) : ascii :=
  if (n <? 10)%N then Ascii.ascii_of_N (48 + n) else Ascii.ascii_of_N (87 + n).

(** One character of [repr(s)], [q] being the quote chosen for the string. *)
Definition repr_char (q : ascii) (c : ascii) : string :=
  if Ascii.eqb c "\" then "\\"
  else if Ascii.eqb c q then String "\" (String q EmptyString)
  else if Ascii.eqb c "009" then "\t"
  else if Ascii.eqb c "010" then "\n"
  else if Ascii.eqb c "013" then "\r"
  else if is_printable c then String c EmptyString
  else String "\" (String "x" (String (hex_digit (code c / 16))
                                 (String (hex_digit (code c mod 16)) EmptyString))).

Fixpoint repr_body (q : ascii) (s : string) : string :=
  match s with
  | EmptyString => EmptyString
  | String c s' => repr_char q c +:+ repr_body q s'
  end.

(** The double quote character. *)
Definition dquote : ascii := "034"%char.

(** [repr(s)]: single quotes, unless the string has a single quote and no
    double quote. *)
Definition repr (s : string) : string :=
  let q : ascii :=
    if contains_char "'" s && negb (contains_char dquote s) then dquote
    else "'"%char in
  String q (repr_body q s +:+ String q EmptyString).

End PyStr.

(** ** [repr] and [str] of values *)

(** [repr(v)]. *)
Fixpoint py_repr (v : pyval) : string :=
  match v with
  | VNone => "None"
  | VBool true => "True"
  | VBool false => "False"
  | VInt z => pretty z
  | VStr s => PyStr.repr s
  | VList l => "[" +:+ String.concat ", " (map py_repr l) +:+ "]"
  | VDict d =>
      "{" +:+ String.concat ", "
                (map (fun kv => match kv with
                                | (k, x) => PyStr.repr k +:+ ": " +:+ py_repr x
                                end) d)
          +:+ "}"
  end.

(** [str(v)], which is also what an f-string field [{v}] inserts. *)
Definition py_str (v : pyval) : string :=
  match v with
  | VStr s => s
  | _ => py_repr v
  end.

(** ** What the interpreter can refuse *)

(** [str] of a value fails where the interpreter sets a limit: an [int]
    with more digits than the limit for conversions (4300 unless it is
    configured otherwise) raises [ValueError], a value nested deeper than
    the stack has room for raises [RecursionError]. *)
Inductive str_failure : Type :=
  | DigitLimit (msg : string)
  | RecursionLimit (msg : string).

Definition str_exception (f : str_failure) : exception :=
  match f with
  | DigitLimit msg => mkExc ValueError msg
  | RecursionLimit msg => mkExc RecursionError msg
  end.

(** Where the limits lie is decided by the interpreter, its settings and
    the stack at the call, not by the scripts: [str_fails v] is how [str(v)]
    fails for a value that is not a string, [items_str_fails items] how
    [str] of a list of [(key, value)] tuples fails, and [sleep_fails ms] the
    message of the [OverflowError] of [time.sleep] for a delay of [ms]
    milliseconds; [None] where the call returns. *)
Record interpreter : Type := mkInterpreter {
  str_fails : pyval -> option str_failure;
  items_str_fails : list (string * pyval) -> option str_failure;
  sleep_fails : Z -> option string
}.

(** [str(v)] where it can fail; this is also what an f-string field [{v}]
    evaluates.  A string is returned as it is. *)
Definition py_format (I : interpreter) (v : pyval) : result string :=
  match v with
  | VStr s => Ok s
  | _ =>
      match str_fails I v with
      | Some f => Raise (str_exception f)
      | None => Ok (py_str v)
      end
  end.

(** CPython 3.11 as it is started without options, with room on the stack
    for the values at hand: [int]s of more than 4300 digits are not
    converted, and [time.sleep] takes no delay of [2 ** 63] nanoseconds or
    more (a delay [0.1 * (2 ** attempt)] from [attempt = 37] on; from
    [attempt = 1024] on the product itself overflows). *)
Definition digit_limit : str_failure :=
  DigitLimit ("Exceeds the limit (4300 digits) for integer string conversion; "
              +:+ "use sys.set_int_max_str_digits() to increase the limit").

Fixpoint beyond_digit_limit (v : pyval) : bool :=
  match v with
  | VInt z => (10 ^ 4300 <=? Z.abs z)%Z
  | VList l => existsb beyond_digit_limit l
  | VDict d => existsb (fun kv => beyond_digit_limit kv.2) d
  | _ => false
  end.

Definition cpython : interpreter :=
  mkInterpreter
    (fun v => if beyond_digit_limit v then Some digit_limit else None)
    (fun items =>
       if existsb (fun kv => beyond_digit_limit kv.2) items
       then Some digit_limit else None)
    (fun ms =>
       if (100 * 2 ^ 1024 <=? ms)%Z then Some "int too large to convert to float"
       else if (100 * 2 ^ 37 <=? ms)%Z
            then Some "timestamp too large to convert to C _PyTime_t"
            else None).

(** How the [k]-th [print] of a piece of code ends: [None] when the
    terminal takes the line, the exception otherwise (a
    [UnicodeEncodeError] where the encoding of the terminal has no code for
    a pictograph of the line, an [OSError] where the terminal is gone). *)
Definition console : Type := nat -> option exception.

(** A terminal that takes every line. *)
Definition reliable : console := fun _ => None.

(** [repr] of the tuple [(k, v)]. *)
Definition repr_item (kv : string * pyval) : string :=
  "(" +:+ PyStr.repr kv.1 +:+ ", " +:+ py_repr kv.2 +:+ ")".

(** [str] of a list of [(key, value)] tuples. *)
Definition str_items (items : pydict) : string :=
  "[" +:+ String.concat ", " (map repr_item items) +:+ "]".

(** The order [sorted] uses on the items of a dict.  The keys of a dict are
    distinct, so two different items are always ordered by their keys, and
    keys are compared code point by code point. *)
Definition item_le (a b : string * pyval) : Prop :=
  String.leb a.1 b.1 = true.

#[global] Instance item_le_dec : RelDecision item_le.
Proof. intros a b. unfold item_le. apply _. Defined.

(** [sorted(d.items())]. *)
Definition sorted_items (d : pydict) : pydict := merge_sort item_le d.

(** [d[k]]: [KeyError] when the key is absent. *)
Definition dict_getitem (d : pydict) (k : string) : result pyval :=
  match dict_lookup d k with
  | Some v => Ok v
  | None => raise KeyError (PyStr.repr k)
  end.

(** ** Functions handed to the framework *)

(** [chains/04_conditional_chains.py], [basic_conditional]:
    [return len(x.get("text", "")) > 50]. *)
Definition is_long (x : pydict) : result bool :=
  n <- py_len (dict_get x "text" (VStr "")) ;;
  Ok (50 <? n)%Z.

(** [runnables/04_advanced_runnables.py], [runnable_pick_example]:
    [lambda x: {"user": x["user"], "text": x["text"]}]. *)
Definition pick_user_text (x : pydict) : result pydict :=
  u <- dict_getitem x "user" ;;
  t <- dict_getitem x "text" ;;
  Ok [("user", u); ("text", t)].

(** [runnables/02_runnable_sequence.py], [error_propagation]. *)
Definition validate_input (x : pydict) : result pydict :=
  if negb (dict_contains x "text") then
    raise ValueError "Missing 'text' field"
  else
    t <- dict_getitem x "text" ;;
    n <- py_len t ;;
    if (n <? 5)%Z then raise ValueError "Text too short (minimum 5 characters)"
    else Ok x.

(** [str(type(x))], as the f-string of [safe_uppercase] prints it. *)
Definition str_type (v : pyval) : string :=
  "<class '" +:+ type_name v +:+ "'>".

Section SafeUppercase.

(** [str.upper] of the interpreter; upper-casing can leave the code points
    below 256, so it stays a parameter. *)
Variable py_upper : string -> string.

(** [runnables/02_runnable_sequence.py], [error_propagation]. *)
Definition safe_uppercase (x : pyval) : result string :=
  match x with
  | VStr s => Ok (py_upper s)
  | _ => raise TypeError ("Expected string, got " +:+ str_type x)
  end.

End SafeUppercase.

(** [runnables/04_advanced_runnables.py], [retry_example]: [error_type] is
    the outcome of [random.choice(["network", "validation"])]. *)
Definition selective_failure (error_type : string) (x : pydict) : result string :=
  if String.eqb error_type "network" then
    raise ConnectionError "Network error (retryable)"
  else
    raise ValueError "Validation error (not retryable)".

(** ** Generators *)

(** What a generator does between two resumptions: it yields a chunk, or
    it sleeps (the delay in milliseconds). *)
Inductive gen_step : Type :=
  | Yield (chunk : string)
  | Sleep (ms : Z).

Definition chunks_of (steps : list gen_step) : list string :=
  omap (fun st => match st with Yield c => Some c | Sleep _ => None end) steps.

(** [runnables/04_advanced_runnables.py], [runnable_generator_example]:
<<
    text = input.get("text", "")
    words = text.split()
    for i, word in enumerate(words):
        yield f"{word} "
        time.sleep(0.1)
>>
    The steps of the generator run to exhaustion.  A [text] that is not a
    string has no [split]. *)
Definition custom_streamer (input : pydict) : result (list gen_step) :=
  match dict_get input "text" (VStr "") with
  | VStr text =>
      Ok (flat_map (fun word => [Yield (word +:+ " "); Sleep 100])
                   (PyStr.split text))
  | v => raise AttributeError
           ("'" +:+ type_name v +:+ "' object has no attribute 'split'")
  end.

(** ** Floats *)

Module PyFloat.

(** A float as the comparisons see it: a finite float is a rational
    number, and beside the finite ones there are the two infinities and
    [nan]. *)
Inductive t : Type :=
  | Finite (q : Q)
  | PosInf
  | NegInf
  | NaN.

(** [a < b]: false whenever one of the two is [nan]. *)
Definition lt (a b : t) : bool :=
  match a, b with
  | NaN, _ | _, NaN => false
  | _, NegInf => false
  | NegInf, _ => true
  | PosInf, _ => false
  | Finite _, PosInf => true
  | Finite x, Finite y => negb (Qle_bool y x)
  end.

(** [a > b]. *)
Definition gt (a b : t) : bool := lt b a.

(** [a == b]: [nan] equals nothing, itself included. *)
Definition eqb (a b : t) : bool :=
  match a, b with
  | Finite x, Finite y => Qeq_bool x y
  | PosInf, PosInf | NegInf, NegInf => true
  | _, _ => false
  end.

Definition is_nan (a : t) : bool :=
  match a with NaN => true | _ => false end.

End PyFloat.

(** ** [list.sort] *)

Module PySort.
Section Sort.

(** The items and the comparison [key(a) < key(b)] of their keys. *)
Context {A : Type}.
Variable lt : A -> A -> bool.

(** [count_run]: the length of the run the list starts with, and whether
    the run is descending.  A descending run is strict: each item is less
    than the one before.  An ascending run ends before the first item that
    is less than the one before. *)
Fixpoint run_desc (prev : A) (l : list A) : nat :=
  match l with
  | x :: l' => if lt x prev then S (run_desc x l') else O
  | [] => O
  end.

Fixpoint run_asc (prev : A) (l : list A) : nat :=
  match l with
  | x :: l' => if lt x prev then O else S (run_asc x l')
  | [] => O
  end.

Definition count_run (l : list A) : nat * bool :=
  match l with
  | [] => (O, false)
  | [_] => (1%nat, false)
  | x0 :: x1 :: rest =>
      if lt x1 x0 then (S (S (run_desc x1 rest)), true)
      else (S (S (run_asc x1 rest)), false)
  end.

(** The search of [binarysort] for the place of [pivot] in the sorted items
    [run]:
<<
    do {
        p = l + ((r - l) >> 1);
        IFLT(pivot, *p) r = p; else l = p+1;
    } while (l < r);
>>
    [fuel] bounds the passes; the distance of [l] and [r] shrinks with
    each. *)
Fixpoint bisect (fuel : nat) (pivot : A) (run : list A) (l r : nat) : nat :=
  match fuel with
  | O => l
  | S fuel' =>
      let p := (l + (r - l) / 2)%nat in
      match run !! p with
      | Some x =>
          let l' := if lt pivot x then l else S p in
          let r' := if lt pivot x then p else r in
          if (l' <? r')%nat then bisect fuel' pivot run l' r' else l'
      | None => l
      end
  end.

(** One pass of [binarysort]: [pivot] is put at its place, the items from
    there on move up by one. *)
Definition insert_sorted (run : list A) (pivot : A) : list A :=
  let l := bisect (List.length run) pivot run 0 (List.length run) in
  take l run ++ pivot :: drop l run.

(** [binarysort]: the items of [rest] are put into [run] one by one. *)
Definition binarysort (run rest : list A) : list A :=
  foldl insert_sorted run rest.

(** The sort of a list of fewer than 64 items by ascending key: such a list
    is one run for [list.sort], which takes the run the list starts with
    (reversed when it is descending) and extends it by [binarysort].
    Longer lists, which [list.sort] cuts into several runs and merges, are
    outside this definition; the lists of the scripts are shorter. *)
Definition sort_run (l : list A) : list A :=
  match l with
  | [] | [_] => l
  | _ =>
      let n := (count_run l).1 in
      let run := if (count_run l).2 then rev (take n l) else take n l in
      binarysort run (drop n l)
  end.

(** [l.sort(key=..., reverse=...)]: with [reverse=True] the list is
    reversed before and after the sort. *)
Definition list_sort (reverse : bool) (l : list A) : list A :=
  if reverse then rev (sort_run (rev l)) else sort_run l.

End Sort.
End PySort.

(** ** Ranking in [models/03_embeddings_example.py], [semantic_search_example] *)

Module SemanticSearch.
Section Search.

(** An embedding vector, and the cosine similarity of two of them.  The
    similarity is computed by numpy in floating point and is a given
    function here; it is [nan] when one of the vectors has norm zero. *)
Variable embedding : Type.
Variable cosine_similarity : embedding -> embedding -> PyFloat.t.

(** One entry [(i, doc, score)] of [similarities]. *)
Record entry : Type := mkEntry { index : nat; doc : string; score : PyFloat.t }.

(** [[(i, doc, cosine_similarity(query_embedding, doc_emb))
      for i, (doc, doc_emb) in enumerate(zip(documents, doc_embeddings), 1)]] *)
Definition similarities (query_embedding : embedding)
    (documents : list string) (doc_embeddings : list embedding) : list entry :=
  imap (fun i de => mkEntry (S i) de.1 (cosine_similarity query_embedding de.2))
       (zip documents doc_embeddings).

(** The comparison of the keys [x[2]] of two entries. *)
Definition by_score (a b : entry) : bool := PyFloat.lt (score a) (score b).

(** [similarities.sort(key=lambda x: x[2], reverse=True)].  The list has
    eight entries at most, one for each document of the script. *)
Definition ranking (query_embedding : embedding)
    (documents : list string) (doc_embeddings : list embedding) : list entry :=
  PySort.list_sort by_score true
    (similarities query_embedding documents doc_embeddings).

(** [a] may stand before [b] in the ranking: its score is not below that
    of [b]. *)
Definition ranked (a b : entry) : Prop := by_score a b = false.

(** [similarities[:3]] after the sort. *)
Definition top3 (query_embedding : embedding)
    (documents : list string) (doc_embeddings : list embedding) : list entry :=
  take 3 (ranking query_embedding documents doc_embeddings).

End Search.
End SemanticSearch.

(** ** The hand-written retry loop of [fallbacks_example] *)

Module ManualRetry.

(** The loop variables, the number of [random.random()] draws made so
    far, the lines printed, and the number of [print] calls made. *)
Record state : Type := mkState {
  attempts : Z;
  success : bool;
  draws : nat;
  printed : list string;
  prints : nat
}.

Definition init : state := mkState 0 false 0 [] 0.

(** [unreliable_operation]: [fails k] tells whether the [k]-th draw of
    [random.random()] is below [0.7]. *)
Definition unreliable_operation (fails : nat -> bool) (k : nat) : result string :=
  if fails k then raise ConnectionError "Simulated network error"
  else Ok "Success!".

(** [print(line)] on the terminal [out]. *)
Definition print (out : console) (line : string) (st : state) : result unit * state :=
  match out (prints st) with
  | None =>
      (Ok tt, mkState (attempts st) (success st) (draws st)
                (printed st ++ [line]) (S (prints st)))
  | Some e =>
      (Raise e, mkState (attempts st) (success st) (draws st)
                  (printed st) (S (prints st)))
  end.

(** The [except Exception as e] clause of the loop:
<<
    attempts += 1
    print(f"   ✗ Attempt {attempts} failed: {e}")
>>
    What its [print] raises leaves the loop. *)
Definition handler (out : console) (e : exception) (st : state)
    : result unit * state :=
  let attempts' := attempts st + 1 in
  print out ("Attempt " +:+ pretty attempts' +:+ " failed: " +:+ exc_msg e)
    (mkState attempts' (success st) (draws st) (printed st) (prints st)).

(** One pass through the body of the [while] loop:
<<
    try:
        result = unreliable_chain.invoke({"input": "test"})
        print(f"   ✓ {result}")
        success = True
    except Exception as e:
        ...
>>
    The [print] of the result stands in the [try]: an [Exception] it raises
    is handled like a failed call, and [success] stays [False]. *)
Definition body (out : console) (fails : nat -> bool) (st : state)
    : result unit * state :=
  let st1 := mkState (attempts st) (success st) (S (draws st))
               (printed st) (prints st) in
  match unreliable_operation fails (draws st) with
  | Ok r =>
      match print out r st1 with
      | (Ok _, st2) =>
          (Ok tt, mkState (attempts st2) true (draws st2) (printed st2) (prints st2))
      | (Raise e, st2) =>
          if is_Exception (exc_cls e) then handler out e st2 else (Raise e, st2)
      end
  | Raise e =>
      (* a [ConnectionError] is an [Exception] *)
      handler out e st1
  end.

(** [while attempts < 3 and not success: ...], with fuel for the number
    of passes.  An exception that leaves the body ends the loop. *)
Fixpoint loop (fuel : nat) (out : console) (fails : nat -> bool) (st : state)
    : option (result unit * state) :=
  if (attempts st <? 3)%Z && negb (success st) then
    match fuel with
    | O => None
    | S fuel' =>
        match body out fails st with
        | (Ok _, st') => loop fuel' out fails st'
        | (Raise e, st') => Some (Raise e, st')
        end
    end
  else Some (Ok tt, st).

End ManualRetry.

(** ** [RobustAPIClient] of [runnables/05_practical_runnables.py] *)

Module RobustAPIClient.

(** [self.metrics], a dict with the three keys it is created with. *)
Record metrics_t : Type := mkMetrics {
  calls : Z;
  failures : Z;
  retries : Z
}.

Record t : Type := mkClient {
  max_retries : Z;
  metrics : metrics_t
}.

(** [__init__(self, max_retries=3)]. *)
Definition init (max_retries : Z) : t :=
  mkClient max_retries (mkMetrics 0 0 0).

(** What surrounds the client: how many [random.random()] draws were made
    and which delays [time.sleep] was called with, in milliseconds.  A
    delay [0.1 * (2 ** attempt)] seconds is recorded as the exact number
    [100 * 2 ^ attempt]: the rounding and the range of floats are not
    modelled. *)
Record world : Type := mkWorld {
  draws : nat;
  slept : list Z
}.

Definition incr_calls (c : t) : t :=
  mkClient (max_retries c)
    (mkMetrics (calls (metrics c) + 1) (failures (metrics c)) (retries (metrics c))).
Definition incr_retries (c : t) : t :=
  mkClient (max_retries c)
    (mkMetrics (calls (metrics c)) (failures (metrics c)) (retries (metrics c) + 1)).
Definition incr_failures (c : t) : t :=
  mkClient (max_retries c)
    (mkMetrics (calls (metrics c)) (failures (metrics c) + 1) (retries (metrics c))).

Definition draw (w : world) : world := mkWorld (S (draws w)) (slept w).
Definition sleep (ms : Z) (w : world) : world := mkWorld (draws w) (slept w ++ [ms]).

(** The body of the [try]: the simulated API call of attempt [attempt].
    [fails k] tells whether the [k]-th draw of [random.random()] is below
    [0.3].  The dict that is returned holds an f-string of
    [input.get('data')], whose evaluation can fail. *)
Definition api_call (I : interpreter) (fails : nat -> bool) (input : pydict)
    (attempt : Z) (w : world) : result pydict :=
  if fails (draws w) then raise ConnectionError "Network timeout"
  else
    data <- py_format I (dict_get_none input "data") ;;
    Ok [("status", VStr "success");
        ("data", VStr ("Processed: " +:+ data));
        ("attempt", VInt (attempt + 1))].

(** [for attempt in range(self.max_retries): ...] followed by the final
    [return]; [todo] counts the values of [range] still to come.  The
    [except ConnectionError] clause ends with
    [time.sleep(0.1 * (2 ** attempt))], which stands outside the [try]: what
    it raises leaves [invoke]. *)
Fixpoint attempt_loop (I : interpreter) (fails : nat -> bool) (input : pydict)
    (todo : nat) (attempt : Z) (self : t) (w : world)
    : result pydict * t * world :=
  match todo with
  | O => (Ok [("status", VStr "error"); ("error", VStr "Max retries exceeded")],
          self, w)
  | S todo' =>
      match api_call I fails input attempt w with
      | Ok d => (Ok d, self, draw w)
      | Raise e =>
          if is_ConnectionError (exc_cls e) then
            let self1 := incr_retries self in
            if (attempt =? max_retries self - 1)%Z then
              (Ok [("status", VStr "error");
                   ("error", VStr (exc_msg e));
                   ("fallback", VStr "Using cached data")],
               incr_failures self1, draw w)
            else
              match sleep_fails I (100 * 2 ^ attempt) with
              | Some msg => (raise OverflowError msg, self1, draw w)
              | None =>
                  attempt_loop I fails input todo' (attempt + 1) self1
                    (sleep (100 * 2 ^ attempt) (draw w))
              end
          else (Raise e, self, draw w)
      end
  end.

(** [invoke(self, input, config=None)]. *)
Definition invoke (I : interpreter) (fails : nat -> bool) (self : t)
    (input : pydict) (w : world) : result pydict * t * world :=
  let self := incr_calls self in
  attempt_loop I fails input (Z.to_nat (max_retries self)) 0 self w.

(** [result["status"]] of a returned dict. *)
Definition status (d : pydict) : option pyval := dict_lookup d "status".

(** Invocations of one client, one after the other, whatever the caller
    does with an exception in between (the loop of [robust_api_client]
    makes five, and would end with the first exception). *)
Fixpoint invoke_all (I : interpreter) (fails : nat -> bool) (self : t)
    (inputs : list pydict) (w : world) : list (result pydict) * t * world :=
  match inputs with
  | [] => ([], self, w)
  | input :: rest =>
      let '(r, self1, w1) := invoke I fails self input w in
      let '(rs, self2, w2) := invoke_all I fails self1 rest w1 in
      (r :: rs, self2, w2)
  end.

(** The dicts [invoke] can return. *)
Definition success_dict (data : string) (attempt_no : Z) : pydict :=
  [("status", VStr "success");
   ("data", VStr ("Processed: " +:+ data));
   ("attempt", VInt attempt_no)].
Definition timeout_dict : pydict :=
  [("status", VStr "error"); ("error", VStr "Network timeout");
   ("fallback", VStr "Using cached data")].
Definition exceeded_dict : pydict :=
  [("status", VStr "error"); ("error", VStr "Max retries exceeded")].

(** The delays slept before attempts [attempt + 1 .. attempt + k]. *)
Definition backoff (attempt : Z) (k : nat) : list Z :=
  map (fun j => 100 * 2 ^ (attempt + Z.of_nat j)) (seq 0 k).

(** [time.sleep] takes the delays after the attempts
    [attempt .. attempt + k - 1]. *)
Definition sleeps (I : interpreter) (attempt : Z) (k : nat) : Prop :=
  forall j, (j < k)%nat -> sleep_fails I (100 * 2 ^ (attempt + Z.of_nat j)) = None.

(** The ways the loop can end: attempt [k] is the first whose draw does
    not fail, and it returns the success, or the exception of the f-string
    leaves [invoke]; all [todo] attempts fail; [time.sleep] refuses the
    delay after the failed attempt [k]; there is no attempt to make. *)
Inductive ending (I : interpreter) (fails : nat -> bool) (input : pydict)
    (todo : nat) (attempt : Z) (self : t) (w : world)
    (r : result pydict) (self' : t) (w' : world) : Prop :=
  | Answers (k : nat) :
      (k < todo)%nat ->
      (forall j, (j < k)%nat -> fails (draws w + j)%nat = true) ->
      fails (draws w + k)%nat = false ->
      sleeps I attempt k ->
      r = (data <- py_format I (dict_get_none input "data") ;;
           Ok (success_dict data (attempt + Z.of_nat k + 1))) ->
      max_retries self' = max_retries self ->
      calls (metrics self') = calls (metrics self) ->
      failures (metrics self') = failures (metrics self) ->
      retries (metrics self') = retries (metrics self) + Z.of_nat k ->
      draws w' = (draws w + k + 1)%nat ->
      slept w' = slept w ++ backoff attempt k ->
      ending I fails input todo attempt self w r self' w'
  | Exhausted :
      (0 < todo)%nat ->
      (forall j, (j < todo)%nat -> fails (draws w + j)%nat = true) ->
      sleeps I attempt (todo - 1) ->
      r = Ok timeout_dict ->
      max_retries self' = max_retries self ->
      calls (metrics self') = calls (metrics self) ->
      failures (metrics self') = failures (metrics self) + 1 ->
      retries (metrics self') = retries (metrics self) + Z.of_nat todo ->
      draws w' = (draws w + todo)%nat ->
      slept w' = slept w ++ backoff attempt (todo - 1) ->
      ending I fails input todo attempt self w r self' w'
  | Oversleeps (k : nat) (msg : string) :
      (k + 1 < todo)%nat ->
      (forall j, (j <= k)%nat -> fails (draws w + j)%nat = true) ->
      sleeps I attempt k ->
      sleep_fails I (100 * 2 ^ (attempt + Z.of_nat k)) = Some msg ->
      r = raise OverflowError msg ->
      max_retries self' = max_retries self ->
      calls (metrics self') = calls (metrics self) ->
      failures (metrics self') = failures (metrics self) ->
      retries (metrics self') = retries (metrics self) + Z.of_nat k + 1 ->
      draws w' = (draws w + k + 1)%nat ->
      slept w' = slept w ++ backoff attempt k ->
      ending I fails input todo attempt self w r self' w'
  | NoAttempt :
      todo = 0%nat ->
      r = Ok exceeded_dict ->
      self' = self ->
      w' = w ->
      ending I fails input todo attempt self w r self' w'.

End RobustAPIClient.

(** ** [CachingRunnable] of [runnables/04_advanced_runnables.py] *)

Module CachingRunnable.
Section Caching.

(** The wrapped runnable: results of type [R], its own state of type [St]
    (a pure function has none that changes), and the type [C] of the
    [config] argument, which [invoke] hands on as it got it. *)
Context {R St C : Type}.
Variable runnable_invoke : pydict -> C -> St -> result R * St.

(** The interpreter, which forms the key, and the terminal, which takes
    the lines. *)
Variable I : interpreter.
Variable out : console.

(** [self.cache]. *)
Record t : Type := mkCaching { cache : gmap string R }.

(** The state of the wrapped runnable, the arguments it was invoked with
    (oldest first), the lines printed and the number of [print] calls
    made. *)
Record world : Type := mkWorld {
  inner : St;
  inner_calls : list (pydict * C);
  printed : list string;
  prints : nat
}.

(** [__init__(self, runnable)]. *)
Definition init : t := mkCaching ∅.

(** The string [str(sorted(input.items()))] gives when it returns. *)
Definition cache_key (input : pydict) : string :=
  str_items (sorted_items input).

(** [cache_key = str(sorted(input.items()))]. *)
Definition eval_cache_key (input : pydict) : result string :=
  match items_str_fails I (sorted_items input) with
  | Some f => Raise (str_exception f)
  | None => Ok (cache_key input)
  end.

(** [print(line)]. *)
Definition print (line : string) (w : world) : result unit * world :=
  match out (prints w) with
  | None =>
      (Ok tt, mkWorld (inner w) (inner_calls w) (printed w ++ [line]) (S (prints w)))
  | Some e =>
      (Raise e, mkWorld (inner w) (inner_calls w) (printed w) (S (prints w)))
  end.

(** [invoke(self, input, config=None)]. *)
Definition invoke (self : t) (input : pydict) (config : C) (w : world)
    : result R * t * world :=
  match eval_cache_key input with
  | Raise e => (Raise e, self, w)
  | Ok key =>
      match cache self !! key with
      | Some r =>
          match print "Cache hit!" w with
          | (Ok _, w1) => (Ok r, self, w1)
          | (Raise e, w1) => (Raise e, self, w1)
          end
      | None =>
          match print "Cache miss, computing..." w with
          | (Raise e, w1) => (Raise e, self, w1)
          | (Ok _, w1) =>
              match runnable_invoke input config (inner w1) with
              | (Ok r, s') =>
                  (Ok r, mkCaching (<[key := r]> (cache self)),
                   mkWorld s' (inner_calls w1 ++ [(input, config)])
                     (printed w1) (prints w1))
              | (Raise e, s') =>
                  (Raise e, self,
                   mkWorld s' (inner_calls w1 ++ [(input, config)])
                     (printed w1) (prints w1))
              end
          end
      end
  end.

(** [clear_cache(self)]. *)
Definition clear_cache (self : t) : t := mkCaching ∅.

(** Invocations of one instance, one after the other, whatever the caller
    does with an exception in between. *)
Fixpoint invoke_all (self : t) (calls : list (pydict * C)) (w : world)
    : list (result R) * t * world :=
  match calls with
  | [] => ([], self, w)
  | (input, config) :: rest =>
      let '(r, self1, w1) := invoke self input config w in
      let '(rs, self2, w2) := invoke_all self1 rest w1 in
      (r :: rs, self2, w2)
  end.

End Caching.

(** A wrapped [RunnableLambda(f)] for a pure [f] of the input: no state,
    and no look at [config]. *)
Definition pure_runnable {R C} (f : pydict -> result R)
    : pydict -> C -> unit -> result R * unit :=
  fun input config s => (f input, s).

(** [expensive_operation = RunnableLambda(lambda x: f"Processed: {x['data']}")]. *)
Definition expensive_operation (I : interpreter) (x : pydict) : result pyval :=
  v <- dict_getitem x "data" ;;
  data <- py_format I v ;;
  Ok (VStr ("Processed: " +:+ data)).

(** The calls [invoke(input)] of the script: [config] is left at [None]. *)
Definition without_config (inputs : list pydict) : list (pydict * option pydict) :=
  map (fun input => (input, None)) inputs.

End CachingRunnable.

(** ** Validators of the Pydantic schemas *)

Module UserRegistration.
(** [structured_output/01_with_structured_output.py], [custom_validators]. *)

(** [@validator('username')]. *)
Definition username_alphanumeric (v : string) : result string :=
  if negb (PyStr.isalnum (PyStr.remove_char "_" v)) then
    raise ValueError "Username must be alphanumeric"
  else Ok v.

(** [@validator('email')]. *)
Definition email_valid (v : string) : result string :=
  if negb (PyStr.contains_char "@" v) || negb (PyStr.contains_char "." v) then
    raise ValueError "Invalid email format"
  else Ok (PyStr.lower v).

End UserRegistration.

Module UserProfile.
(** [structured_output/03_advanced_structured.py], [validation_and_fallbacks]. *)

(** [@validator('email')]. *)
Definition validate_email (v : string) : result string :=
  if negb (PyStr.contains_char "@" v) then raise ValueError "Invalid email"
  else Ok (PyStr.lower v).

(** [@validator('username')]. *)
Definition validate_username (v : string) : result string :=
  if negb (PyStr.isalnum v) then raise ValueError "Username must be alphanumeric"
  else Ok v.

End UserProfile.

(** ** The [main] of every script *)

Module Script.

(** What a run of a script does to its surroundings, in order.  Printed
    lines are kept without the pictograph they start with in the source;
    the welcome lines and the closing lines of a script are one event
    each. *)
Inductive event : Type :=
  | LoadDotenv                       (* [load_dotenv()] *)
  | PrintBanner
  | Print (line : string)
  | PrintSummary
  | Getenv (name : string)           (* [os.getenv(name)] *)
  | Input (prompt : string)          (* [input(prompt)] *)
  | ImportModule (name : string)
  | Traceback (e : exception)        (* [traceback.print_exc()] *)
  | Call (demo : string)             (* a demo function is entered *)
  | ModelCall                        (* a request to the hosted model *)
  | Sleep                            (* [time.sleep] *)
  | WriteFile (path : string).       (* a file is created or written *)

(** What a demo function does, as far as its surroundings see it: it
    executes one of its own calls of [os.getenv], [input] or [open] (its
    call sites, numbered from 0 in the order of the source), prints a line,
    calls the framework, which sends a request to the hosted model, sleeps,
    or imports a module.  Which of these it does, how often and in which
    order is decided by its control flow and by the framework. *)
Inductive step : Type :=
  | AtSite (n : nat)
  | Printing (line : string)
  | Requesting
  | Sleeping
  | Importing (name : string).

(** What the code of [main] cannot decide: the environment as [main]
    finds it (after the [load_dotenv()] of the module), the steps each
    demo function takes and how it ends, and how the [k]-th [input] ends
    ([None]: it returns). *)
Record surroundings : Type := mkSurroundings {
  environ : gmap string string;
  demo_steps : string -> list step;
  demo_outcome : string -> option exception;
  input_outcome : nat -> option exception
}.

(** How the [except Exception as e] of a [main] goes on after
    [print(f"Error: {e}")]. *)
Inductive handler : Type :=
  | PrintOnly
  | PrintTraceback        (* [traceback.print_exc()] *)
  | PrintHint.            (* [print("Make sure your GOOGLE_API_KEY is valid!")] *)

(** The parts in which the scripts differ: the lines [main] prints for a
    missing key, whether [main] imports [numpy], the demo functions [main]
    calls, the call sites of [os.getenv], [input] and [open] in each demo
    function (the functions and classes defined inside it included), the
    prompt of the [input] between two demos, and the [except] clause. *)
Record script : Type := mkScript {
  path : string;
  missing_key_lines : list string;
  checks_numpy : bool;
  demos : list string;
  call_sites : list (string * list event);
  pause_prompt : string;
  on_exception : handler
}.

(** An action: how it ends, and the events it caused. *)
Definition action : Type := result unit * list event.

Definition and_then (a b : action) : action :=
  match a with
  | (Ok _, t) => (b.1, t ++ b.2)
  | (Raise e, t) => (Raise e, t)
  end.

Definition emit (evs : list event) : action := (Ok tt, evs).

(** The [k]-th [print] of [main], or its [traceback.print_exc()]: the
    terminal [out] takes the lines, or what it raises leaves the call. *)
Definition print (out : console) (k : nat) (ev : event) : action :=
  match out k with
  | None => (Ok tt, [ev])
  | Some e => (Raise e, [])
  end.

(** Lines printed one after the other, the first by the [k]-th [print]. *)
Fixpoint print_lines (out : console) (k : nat) (lines : list string) : action :=
  match lines with
  | [] => emit []
  | line :: rest =>
      and_then (print out k (Print line)) (print_lines out (S k) rest)
  end.

(** [os.getenv(name)]. *)
Definition getenv (sur : surroundings) (name : string) : option string :=
  environ sur !! name.

(** The truth value of what [os.getenv] returned: [None] and the empty
    string are false. *)
Definition truthy (v : option string) : bool :=
  match v with
  | None => false
  | Some s => negb (String.eqb s "")
  end.

(** The call sites of the demo function [name]. *)
Fixpoint sites_in (table : list (string * list event)) (name : string)
    : list event :=
  match table with
  | [] => []
  | (n, evs) :: rest => if String.eqb name n then evs else sites_in rest name
  end.

(** The events of one step of a demo function with the call sites
    [sites]. *)
Definition step_events (sites : list event) (st : step) : list event :=
  match st with
  | AtSite n => match sites !! n with Some ev => [ev] | None => [] end
  | Printing line => [Print line]
  | Requesting => [ModelCall]
  | Sleeping => [Sleep]
  | Importing name => [ImportModule name]
  end.

(** The events of the demo function [name] of the script [sc]. *)
Definition demo_events (sc : script) (sur : surroundings) (name : string)
    : list event :=
  flat_map (step_events (sites_in (call_sites sc) name)) (demo_steps sur name).

(** A call [name()] of a demo function. *)
Definition call_demo (sc : script) (sur : surroundings) (name : string) : action :=
  match demo_outcome sur name with
  | None => (Ok tt, Call name :: demo_events sc sur name)
  | Some e => (Raise e, Call name :: demo_events sc sur name)
  end.

(** The [k]-th [input(prompt)]. *)
Definition pause (sur : surroundings) (prompt : string) (k : nat) : action :=
  match input_outcome sur k with
  | None => (Ok tt, [Input prompt])
  | Some e => (Raise e, [Input prompt])
  end.

(** The calls of the [try] block: every demo, and an [input] between two
    of them. *)
Fixpoint run_demos (sc : script) (sur : surroundings) (prompt : string)
    (names : list string) (k : nat) : action :=
  match names with
  | [] => emit []
  | name :: rest =>
      and_then (call_demo sc sur name)
        match rest with
        | [] => emit []
        | _ => and_then (pause sur prompt k) (run_demos sc sur prompt rest (S k))
        end
  end.

(** The [except Exception as e] clause, its first line printed by the
    [k]-th [print] of [main].  The clause stands outside the [try]: what
    its prints raise leaves [main]. *)
Definition handle (out : console) (k : nat) (h : handler) (e : exception)
    : action :=
  and_then (print out k (Print ("Error: " +:+ exc_msg e)))
    match h with
    | PrintOnly => emit []
    | PrintTraceback =>
        and_then (emit [ImportModule "traceback"]) (print out (S k) (Traceback e))
    | PrintHint => print out (S k) (Print "Make sure your GOOGLE_API_KEY is valid!")
    end.

(** [try: ... except Exception as e: ...], for the part [body] of the
    [try] block that was run and the clause [clause]. *)
Definition try_except (body : action) (clause : exception -> action) : action :=
  match body with
  | (Ok _, t) => (Ok tt, t)
  | (Raise e, t) =>
      if is_Exception (exc_cls e) then and_then (emit t) (clause e)
      else (Raise e, t)
  end.

(** The [try] block and its [except] clause: the demos, then the closing
    lines, which the second [print] of [main] stands for.  The clause
    prints with the [print] that follows the last one tried. *)
Definition guarded (out : console) (sc : script) (sur : surroundings) : action :=
  match run_demos sc sur (pause_prompt sc) (demos sc) 0 with
  | (Ok _, t) =>
      and_then (emit t)
        (try_except (print out 1 PrintSummary) (handle out 2 (on_exception sc)))
  | (Raise e, t) =>
      try_except (Raise e, t) (handle out 1 (on_exception sc))
  end.

(** [main()].  The welcome lines and the lines for a missing key are
    printed before the [try]: what their prints raise leaves [main].  In
    [models/03_embeddings_example.py], [main] checks for [numpy] by
    [try: import numpy / except ImportError: ...]; the module has imported
    [numpy] in its line 9 before [main] can be called, so the import in
    [main] finds it and the [except] clause is never entered. *)
Definition main (out : console) (sc : script) (sur : surroundings) : action :=
  and_then (print out 0 PrintBanner)
    (and_then (emit [Getenv "GOOGLE_API_KEY"])
       (if negb (truthy (getenv sur "GOOGLE_API_KEY")) then
          print_lines out 1 (missing_key_lines sc)
        else
          and_then (emit (if checks_numpy sc then [ImportModule "numpy"] else []))
            (guarded out sc sur))).

(** The script run as a program: the module calls [load_dotenv()] when it
    is loaded and [main()] at its end. *)
Definition run (out : console) (sc : script) (sur : surroundings) : action :=
  and_then (emit [LoadDotenv]) (main out sc sur).

Definition short_key_lines : list string :=
  ["Error: GOOGLE_API_KEY not found!"].
Definition long_key_lines : list string :=
  ["Error: GOOGLE_API_KEY not found in environment variables!";
   "Make sure you have a .env file with your API key."].

Definition chains_01 : script :=
  mkScript "chains/01_lcel_basics.py"
    short_key_lines false
    ["pipe_operator_basics";
     "execution_methods";
     "runnable_passthrough";
     "runnable_lambda";
     "assign_operator";
     "pick_operator";
     "chaining_with_parsers";
     "complex_chain_composition"]
    [("pipe_operator_basics", [Getenv "GOOGLE_API_KEY"]);
     ("execution_methods", [Getenv "GOOGLE_API_KEY"]);
     ("runnable_passthrough", [Getenv "GOOGLE_API_KEY"]);
     ("runnable_lambda", [Getenv "GOOGLE_API_KEY"]);
     ("assign_operator", [Getenv "GOOGLE_API_KEY"]);
     ("pick_operator", [Getenv "GOOGLE_API_KEY"]);
     ("chaining_with_parsers", [Getenv "GOOGLE_API_KEY"]);
     ("complex_chain_composition", [Getenv "GOOGLE_API_KEY"])]
    "Press Enter to continue..." PrintTraceback.

Definition chains_02 : script :=
  mkScript "chains/02_sequential_chains.py"
    short_key_lines false
    ["simple_sequential";
     "preserving_intermediate_results";
     "data_transformation_pipeline";
     "context_passing";
     "error_handling_in_sequence";
     "multi_document_pipeline";
     "debugging_sequential_chain"]
    [("simple_sequential", [Getenv "GOOGLE_API_KEY"]);
     ("preserving_intermediate_results", [Getenv "GOOGLE_API_KEY"]);
     ("data_transformation_pipeline", [Getenv "GOOGLE_API_KEY"]);
     ("context_passing", [Getenv "GOOGLE_API_KEY"]);
     ("error_handling_in_sequence", [Getenv "GOOGLE_API_KEY"]);
     ("multi_document_pipeline", [Getenv "GOOGLE_API_KEY"]);
     ("debugging_sequential_chain", [Getenv "GOOGLE_API_KEY"])]
    "Press Enter to continue..." PrintTraceback.

Definition chains_03 : script :=
  mkScript "chains/03_parallel_chains.py"
    short_key_lines false
    ["basic_parallel";
     "parallel_vs_sequential";
     "multi_perspective_analysis";
     "parallel_with_passthrough";
     "merge_parallel_outputs";
     "conditional_parallel";
     "batch_parallel_processing"]
    [("basic_parallel", [Getenv "GOOGLE_API_KEY"]);
     ("parallel_vs_sequential", [Getenv "GOOGLE_API_KEY"]);
     ("multi_perspective_analysis", [Getenv "GOOGLE_API_KEY"]);
     ("parallel_with_passthrough", [Getenv "GOOGLE_API_KEY"]);
     ("merge_parallel_outputs", [Getenv "GOOGLE_API_KEY"]);
     ("conditional_parallel", [Getenv "GOOGLE_API_KEY"]);
     ("batch_parallel_processing", [Getenv "GOOGLE_API_KEY"])]
    "Press Enter to continue..." PrintTraceback.

Definition chains_04 : script :=
  mkScript "chains/04_conditional_chains.py"
    short_key_lines false
    ["basic_conditional";
     "multi_condition_routing";
     "intent_based_routing";
     "fallback_chains";
     "context_based_branching";
     "dynamic_chain_selection";
     "multi_stage_conditional";
     "conditional_with_metadata"]
    [("basic_conditional", [Getenv "GOOGLE_API_KEY"]);
     ("multi_condition_routing", [Getenv "GOOGLE_API_KEY"]);
     ("intent_based_routing", [Getenv "GOOGLE_API_KEY"]);
     ("fallback_chains", [Getenv "GOOGLE_API_KEY"]);
     ("context_based_branching", [Getenv "GOOGLE_API_KEY"]);
     ("dynamic_chain_selection", [Getenv "GOOGLE_API_KEY"]);
     ("multi_stage_conditional", [Getenv "GOOGLE_API_KEY"]);
     ("conditional_with_metadata", [Getenv "GOOGLE_API_KEY"])]
    "Press Enter to continue..." PrintTraceback.

Definition chains_05 : script :=
  mkScript "chains/05_practical_chains.py"
    short_key_lines false
    ["document_processing_pipeline";
     "intelligent_support_router";
     "content_moderation_system";
     "data_extraction_pipeline";
     "multi_language_translator";
     "smart_research_assistant"]
    [("document_processing_pipeline", [Getenv "GOOGLE_API_KEY"]);
     ("intelligent_support_router", [Getenv "GOOGLE_API_KEY"]);
     ("content_moderation_system", [Getenv "GOOGLE_API_KEY"]);
     ("data_extraction_pipeline", [Getenv "GOOGLE_API_KEY"]);
     ("multi_language_translator", [Getenv "GOOGLE_API_KEY"]);
     ("smart_research_assistant", [Getenv "GOOGLE_API_KEY"])]
    "Press Enter to continue..." PrintTraceback.

Definition models_01 : script :=
  mkScript "models/01_llm_example.py"
    long_key_lines false
    ["basic_llm_example";
     "creative_writing_example";
     "batch_processing_example";
     "streaming_example"]
    [("basic_llm_example", [Getenv "GOOGLE_API_KEY"]);
     ("creative_writing_example", [Getenv "GOOGLE_API_KEY"]);
     ("batch_processing_example", [Getenv "GOOGLE_API_KEY"]);
     ("streaming_example", [Getenv "GOOGLE_API_KEY"])]
    "Press Enter to continue to next example..." PrintHint.

Definition models_02 : script :=
  mkScript "models/02_chat_model_example.py"
    long_key_lines false
    ["basic_chat_example";
     "conversation_with_context";
     "system_message_example";
     "streaming_chat_example";
     "interactive_chat_session";
     "compare_llm_vs_chat"]
    [("basic_chat_example", [Getenv "GOOGLE_API_KEY"]);
     ("conversation_with_context", [Getenv "GOOGLE_API_KEY"]);
     ("system_message_example", [Getenv "GOOGLE_API_KEY"]);
     ("streaming_chat_example", [Getenv "GOOGLE_API_KEY"]);
     ("interactive_chat_session", [Getenv "GOOGLE_API_KEY"]);
     ("compare_llm_vs_chat", [Getenv "GOOGLE_API_KEY"; Getenv "GOOGLE_API_KEY"])]
    "Press Enter to continue..." PrintHint.

Definition models_03 : script :=
  mkScript "models/03_embeddings_example.py"
    long_key_lines true
    ["basic_embedding_example";
     "similarity_comparison";
     "semantic_search_example";
     "practical_use_case";
     "batch_embedding_example"]
    [("basic_embedding_example", [Getenv "GOOGLE_API_KEY"]);
     ("similarity_comparison", [Getenv "GOOGLE_API_KEY"]);
     ("semantic_search_example", [Getenv "GOOGLE_API_KEY"]);
     ("practical_use_case", [Getenv "GOOGLE_API_KEY"]);
     ("batch_embedding_example", [Getenv "GOOGLE_API_KEY"])]
    "Press Enter to continue..." PrintHint.

Definition prompts_01 : script :=
  mkScript "prompts/01_basic_prompts.py"
    short_key_lines false
    ["static_prompt_example";
     "dynamic_prompt_example";
     "prompt_template_basics";
     "prompt_template_with_formatting";
     "partial_variables_example";
     "template_from_string";
     "template_validation";
     "comparing_approaches"]
    [("static_prompt_example", [Getenv "GOOGLE_API_KEY"]);
     ("dynamic_prompt_example", [Getenv "GOOGLE_API_KEY"]);
     ("prompt_template_basics", [Getenv "GOOGLE_API_KEY"]);
     ("prompt_template_with_formatting", [Getenv "GOOGLE_API_KEY"]);
     ("partial_variables_example", [Getenv "GOOGLE_API_KEY"]);
     ("template_from_string", [Getenv "GOOGLE_API_KEY"]);
     ("template_validation", []);
     ("comparing_approaches", [])]
    "Press Enter to continue..." PrintOnly.

Definition prompts_02 : script :=
  mkScript "prompts/02_chat_prompts.py"
    short_key_lines false
    ["chat_prompt_template_basics";
     "system_message_personality";
     "multi_turn_conversation";
     "messages_placeholder_example";
     "conversation_with_context_window";
     "structured_chat_template";
     "chatbot_with_memory"]
    [("chat_prompt_template_basics", [Getenv "GOOGLE_API_KEY"]);
     ("system_message_personality", [Getenv "GOOGLE_API_KEY"]);
     ("multi_turn_conversation", [Getenv "GOOGLE_API_KEY"]);
     ("messages_placeholder_example", [Getenv "GOOGLE_API_KEY"]);
     ("conversation_with_context_window", [Getenv "GOOGLE_API_KEY"]);
     ("structured_chat_template", [Getenv "GOOGLE_API_KEY"]);
     ("chatbot_with_memory", [Getenv "GOOGLE_API_KEY"])]
    "Press Enter to continue..." PrintOnly.

Definition prompts_03 : script :=
  mkScript "prompts/03_advanced_prompts.py"
    short_key_lines false
    ["few_shot_prompting";
     "json_output_parser";
     "list_output_parser";
     "prompt_composition";
     "conditional_prompting";
     "pipeline_prompts";
     "advanced_output_parsing"]
    [("few_shot_prompting", [Getenv "GOOGLE_API_KEY"]);
     ("json_output_parser", [Getenv "GOOGLE_API_KEY"]);
     ("list_output_parser", [Getenv "GOOGLE_API_KEY"]);
     ("prompt_composition", [Getenv "GOOGLE_API_KEY"]);
     ("conditional_prompting", [Getenv "GOOGLE_API_KEY"]);
     ("pipeline_prompts", [Getenv "GOOGLE_API_KEY"]);
     ("advanced_output_parsing", [Getenv "GOOGLE_API_KEY"])]
    "Press Enter to continue..." PrintOnly.

Definition prompts_04 : script :=
  mkScript "prompts/04_practical_examples.py"
    short_key_lines false
    ["smart_faq_bot";
     "code_generator";
     "data_extraction_system";
     "multi_step_reasoning_bot";
     "content_personalizer";
     "practical_prompt_patterns"]
    [("smart_faq_bot", [Getenv "GOOGLE_API_KEY"]);
     ("code_generator", [Getenv "GOOGLE_API_KEY"]);
     ("data_extraction_system", [Getenv "GOOGLE_API_KEY"]);
     ("multi_step_reasoning_bot", [Getenv "GOOGLE_API_KEY"]);
     ("content_personalizer", [Getenv "GOOGLE_API_KEY"]);
     ("practical_prompt_patterns", [Getenv "GOOGLE_API_KEY"])]
    "Press Enter to continue..." PrintOnly.

Definition runnables_01 : script :=
  mkScript "runnables/01_runnable_interface.py"
    short_key_lines false
    ["core_methods_example";
     "async_execution_example";
     "configuration_example";
     "schema_introspection_example";
     "method_chaining_example";
     "custom_runnable_example";
     "inspection_debugging_example";
     "config_propagation_example"]
    [("core_methods_example", [Getenv "GOOGLE_API_KEY"]);
     ("async_execution_example", [Getenv "GOOGLE_API_KEY"]);
     ("configuration_example", [Getenv "GOOGLE_API_KEY"]);
     ("schema_introspection_example", [Getenv "GOOGLE_API_KEY"]);
     ("method_chaining_example", [Getenv "GOOGLE_API_KEY"]);
     ("custom_runnable_example", [Getenv "GOOGLE_API_KEY"]);
     ("inspection_debugging_example", [Getenv "GOOGLE_API_KEY"]);
     ("config_propagation_example", [Getenv "GOOGLE_API_KEY"])]
    "Press Enter to continue..." PrintTraceback.

Definition runnables_02 : script :=
  mkScript "runnables/02_runnable_sequence.py"
    short_key_lines false
    ["pipe_operator_basics";
     "manual_sequence_creation";
     "automatic_coercion";
     "streaming_behavior";
     "error_propagation";
     "nested_sequences";
     "intermediate_access";
     "performance_optimization"]
    [("pipe_operator_basics", [Getenv "GOOGLE_API_KEY"]);
     ("manual_sequence_creation", [Getenv "GOOGLE_API_KEY"]);
     ("automatic_coercion", [Getenv "GOOGLE_API_KEY"]);
     ("streaming_behavior", [Getenv "GOOGLE_API_KEY"]);
     ("error_propagation", [Getenv "GOOGLE_API_KEY"]);
     ("nested_sequences", [Getenv "GOOGLE_API_KEY"]);
     ("intermediate_access", [Getenv "GOOGLE_API_KEY"]);
     ("performance_optimization", [Getenv "GOOGLE_API_KEY"])]
    "Press Enter to continue..." PrintTraceback.

Definition runnables_03 : script :=
  mkScript "runnables/03_runnable_parallel.py"
    short_key_lines false
    ["basic_parallel";
     "dict_syntax";
     "performance_comparison";
     "nested_parallel";
     "error_handling";
     "parallel_with_passthrough";
     "dynamic_parallel";
     "batch_parallel"]
    [("basic_parallel", [Getenv "GOOGLE_API_KEY"]);
     ("dict_syntax", [Getenv "GOOGLE_API_KEY"]);
     ("performance_comparison", [Getenv "GOOGLE_API_KEY"]);
     ("nested_parallel", [Getenv "GOOGLE_API_KEY"]);
     ("error_handling", []);
     ("parallel_with_passthrough", [Getenv "GOOGLE_API_KEY"]);
     ("dynamic_parallel", [Getenv "GOOGLE_API_KEY"]);
     ("batch_parallel", [Getenv "GOOGLE_API_KEY"])]
    "Press Enter to continue..." PrintTraceback.

Definition runnables_04 : script :=
  mkScript "runnables/04_advanced_runnables.py"
    short_key_lines false
    ["runnable_generator_example";
     "runnable_binding_example";
     "fallbacks_example";
     "retry_example";
     "custom_runnable_class";
     "runnable_pick_example";
     "config_deep_dive";
     "production_patterns"]
    [("runnable_generator_example", []);
     ("runnable_binding_example", [Getenv "GOOGLE_API_KEY"]);
     ("fallbacks_example", [Getenv "GOOGLE_API_KEY"]);
     ("retry_example", []);
     ("custom_runnable_class", []);
     ("runnable_pick_example", []);
     ("config_deep_dive", []);
     ("production_patterns", [Getenv "GOOGLE_API_KEY"])]
    "Press Enter to continue..." PrintTraceback.

Definition runnables_05 : script :=
  mkScript "runnables/05_practical_runnables.py"
    short_key_lines false
    ["custom_text_processor";
     "streaming_chat_system";
     "robust_api_client";
     "batch_document_processor";
     "async_pipeline";
     "monitoring_wrapper"]
    [("custom_text_processor", [Getenv "GOOGLE_API_KEY"]);
     ("streaming_chat_system", [Getenv "GOOGLE_API_KEY"]);
     ("robust_api_client", []);
     ("batch_document_processor", [Getenv "GOOGLE_API_KEY"]);
     ("async_pipeline", [Getenv "GOOGLE_API_KEY"]);
     ("monitoring_wrapper", [Getenv "GOOGLE_API_KEY"])]
    "Press Enter to continue..." PrintTraceback.

Definition structured_output_01 : script :=
  mkScript "structured_output/01_with_structured_output.py"
    short_key_lines false
    ["basic_pydantic_example";
     "pydantic_with_validation";
     "using_enums";
     "complex_nested_structure";
     "using_typeddict";
     "using_json_schema";
     "custom_validators";
     "list_extraction"]
    [("basic_pydantic_example", [Getenv "GOOGLE_API_KEY"]);
     ("pydantic_with_validation", [Getenv "GOOGLE_API_KEY"]);
     ("using_enums", [Getenv "GOOGLE_API_KEY"]);
     ("complex_nested_structure", [Getenv "GOOGLE_API_KEY"]);
     ("using_typeddict", [Getenv "GOOGLE_API_KEY"]);
     ("using_json_schema", [Getenv "GOOGLE_API_KEY"]);
     ("custom_validators", [Getenv "GOOGLE_API_KEY"]);
     ("list_extraction", [Getenv "GOOGLE_API_KEY"])]
    "Press Enter to continue..." PrintTraceback.

Definition structured_output_02 : script :=
  mkScript "structured_output/02_output_parsers.py"
    short_key_lines false
    ["pydantic_output_parser";
     "json_output_parser";
     "structured_output_parser";
     "string_output_parser";
     "list_output_parser";
     "datetime_output_parser";
     "boolean_output_parser";
     "enum_output_parser";
     "comparing_parsers"]
    [("pydantic_output_parser", [Getenv "GOOGLE_API_KEY"]);
     ("json_output_parser", [Getenv "GOOGLE_API_KEY"]);
     ("structured_output_parser", [Getenv "GOOGLE_API_KEY"]);
     ("string_output_parser", [Getenv "GOOGLE_API_KEY"]);
     ("list_output_parser", [Getenv "GOOGLE_API_KEY"]);
     ("datetime_output_parser", [Getenv "GOOGLE_API_KEY"]);
     ("boolean_output_parser", [Getenv "GOOGLE_API_KEY"]);
     ("enum_output_parser", [Getenv "GOOGLE_API_KEY"]);
     ("comparing_parsers", [])]
    "Press Enter to continue..." PrintTraceback.

Definition structured_output_03 : script :=
  mkScript "structured_output/03_advanced_structured.py"
    short_key_lines false
    ["parser_in_chain";
     "output_fixing_parser";
     "retry_output_parser";
     "custom_output_parser";
     "error_handling_strategies";
     "pattern_injection";
     "combining_parsers";
     "validation_and_fallbacks"]
    [("parser_in_chain", [Getenv "GOOGLE_API_KEY"]);
     ("output_fixing_parser", [Getenv "GOOGLE_API_KEY"]);
     ("retry_output_parser", [Getenv "GOOGLE_API_KEY"]);
     ("custom_output_parser", [Getenv "GOOGLE_API_KEY"]);
     ("error_handling_strategies", [Getenv "GOOGLE_API_KEY"]);
     ("pattern_injection", [Getenv "GOOGLE_API_KEY"]);
     ("combining_parsers", [Getenv "GOOGLE_API_KEY"]);
     ("validation_and_fallbacks", [Getenv "GOOGLE_API_KEY"])]
    "Press Enter to continue..." PrintTraceback.

Definition structured_output_04 : script :=
  mkScript "structured_output/04_practical_structured.py"
    short_key_lines false
    ["resume_parser";
     "invoice_processor";
     "review_analyzer";
     "meeting_notes_generator";
     "form_filler";
     "data_migration"]
    [("resume_parser", [Getenv "GOOGLE_API_KEY"]);
     ("invoice_processor", [Getenv "GOOGLE_API_KEY"]);
     ("review_analyzer", [Getenv "GOOGLE_API_KEY"]);
     ("meeting_notes_generator", [Getenv "GOOGLE_API_KEY"]);
     ("form_filler", [Getenv "GOOGLE_API_KEY"]);
     ("data_migration", [Getenv "GOOGLE_API_KEY"])]
    "Press Enter to continue..." PrintTraceback.

(** The events of the [except] clause on a terminal that takes its
    lines. *)
Definition handler_events (h : handler) (e : exception) : list event :=
  Print ("Error: " +:+ exc_msg e) ::
  match h with
  | PrintOnly => []
  | PrintTraceback => [ImportModule "traceback"; Traceback e]
  | PrintHint => [Print "Make sure your GOOGLE_API_KEY is valid!"]
  end.

(** The prompts that only pace the demo. *)
Definition pacing_prompt (prompt : string) : bool :=
  String.prefix "Press Enter to continue" prompt.

(** The events the external interface of the repository allows: of the
    environment only [GOOGLE_API_KEY] is read, standard input is read only
    at a pacing prompt, and no file is written.  ([load_dotenv()] reads no
    variable and no input and writes no file: it fills the environment
    from the file [.env], where there is one.) *)
Definition within_interface (ev : event) : bool :=
  match ev with
  | Getenv name => String.eqb name "GOOGLE_API_KEY"
  | Input prompt => pacing_prompt prompt
  | WriteFile _ => false
  | _ => true
  end.

(** The events of the [try] block up to the call of the demo that follows
    the demos [before], when these and the [input]s after them return. *)
Definition events_before (sc : script) (sur : surroundings) (prompt : string)
    (before : list string) : list event :=
  flat_map (fun d => Call d :: demo_events sc sur d ++ [Input prompt]) before.

(** The 21 scripts of the repository. *)
Definition scripts : list script :=
  [chains_01;
   chains_02;
   chains_03;
   chains_04;
   chains_05;
   models_01;
   models_02;
   models_03;
   prompts_01;
   prompts_02;
   prompts_03;
   prompts_04;
   runnables_01;
   runnables_02;
   runnables_03;
   runnables_04;
   runnables_05;
   structured_output_01;
   structured_output_02;
   structured_output_03;
   structured_output_04].

End Script.

(** ** More of [str] *)

Module PyText.

(** [s.lstrip()]. *)
Fixpoint lstrip (s : string) : string :=
  match s with
  | EmptyString => EmptyString
  | String c s' => if PyStr.is_space c then lstrip s' else s
  end.

(** [s.rstrip()]. *)
Fixpoint rstrip (s : string) : string :=
  match s with
  | EmptyString => EmptyString
  | String c s' =>
      match rstrip s' with
      | EmptyString => if PyStr.is_space c then EmptyString else String c EmptyString
      | r => String c r
      end
  end.

(** [s.strip()]. *)
Definition strip (s : string) : string := rstrip (lstrip s).

(** [needle in hay] for two strings. *)
Fixpoint contains (needle hay : string) : bool :=
  match hay with
  | EmptyString => String.prefix needle EmptyString
  | String _ hay' => String.prefix needle hay || contains needle hay'
  end.

(** [any(word in text for word in words)]. *)
Definition contains_any (words : list string) (text : string) : bool :=
  existsb (fun word => contains word text) words.

(** [s.startswith(prefixes)] for a tuple of prefixes. *)
Definition startswith_any (prefixes : list string) (s : string) : bool :=
  existsb (fun p => String.prefix p s) prefixes.

(** [s.split(c)] for a one-character separator [c]: the pieces between
    the separators, empty ones included. *)
Fixpoint split_char (c : ascii) (s : string) : list string :=
  match s with
  | EmptyString => [EmptyString]
  | String a s' =>
      if Ascii.eqb a c then EmptyString :: split_char c s'
      else match split_char c s' with
           | [] => [String a EmptyString]
           | piece :: pieces => String a piece :: pieces
           end
  end.

(** [s.split(c, 1)]: cut at the first [c], when there is one. *)
Fixpoint split_once (c : ascii) (s : string) : list string :=
  match s with
  | EmptyString => [EmptyString]
  | String a s' =>
      if Ascii.eqb a c then [EmptyString; s']
      else match split_once c s' with
           | piece :: pieces => String a piece :: pieces
           | [] => [String a EmptyString]
           end
  end.

(** [s.count(c)] for a one-character string [c]. *)
Fixpoint count_char (c : ascii) (s : string) : Z :=
  match s with
  | EmptyString => 0
  | String a s' => (if Ascii.eqb a c then 1 else 0) + count_char c s'
  end.

(** [sum(1 for c in s if c.isupper())]. *)
Fixpoint count_upper (s : string) : Z :=
  match s with
  | EmptyString => 0
  | String a s' => (if PyStr.is_upper a then 1 else 0) + count_upper s'
  end.

End PyText.

(** ** More of [dict] and of the operators *)

(** [d[k] = v], and [{**d, k: v}] on a copy of [d]: the value of an
    existing key is replaced where it stands, a new key goes to the end. *)
Fixpoint dict_set (d : pydict) (k : string) (v : pyval) : pydict :=
  match d with
  | [] => [(k, v)]
  | (k', v') :: d' =>
      if String.eqb k k' then (k', v) :: d' else (k', v') :: dict_set d' k v
  end.

(** [v == s] for a string [s]. *)
Definition py_eq_str (v : pyval) (s : string) : bool :=
  match v with
  | VStr t => String.eqb t s
  | _ => false
  end.

(** [needle in v] for a string [needle]: a substring of a string, an
    element of a list, a key of a dict; nothing else is iterable. *)
Definition py_in (needle : string) (v : pyval) : result bool :=
  match v with
  | VStr s => Ok (PyText.contains needle s)
  | VList l => Ok (existsb (fun e => py_eq_str e needle) l)
  | VDict d => Ok (dict_contains d needle)
  | _ => raise TypeError ("argument of type '" +:+ type_name v +:+ "' is not iterable")
  end.

(** The failure of [v.attr] for a value without that attribute. *)
Definition no_attribute {A} (v : pyval) (attr : string) : result A :=
  raise AttributeError
    ("'" +:+ type_name v +:+ "' object has no attribute '" +:+ attr +:+ "'").

(** [v.lower()]. *)
Definition py_lower (v : pyval) : result string :=
  match v with
  | VStr s => Ok (PyStr.lower s)
  | _ => no_attribute v "lower"
  end.

(** [v.split()]. *)
Definition py_split (v : pyval) : result (list string) :=
  match v with
  | VStr s => Ok (PyStr.split s)
  | _ => no_attribute v "split"
  end.

(** [v.strip()]. *)
Definition py_strip (v : pyval) : result string :=
  match v with
  | VStr s => Ok (PyText.strip s)
  | _ => no_attribute v "strip"
  end.

(** [a or b] of two tests, the second run only when the first is false. *)
Definition or_else (a b : result bool) : result bool :=
  x <- a ;; if x then Ok true else b.

(** ** The conditions and enrichers of [chains/04_conditional_chains.py] *)

Module Conditional.

(** [multi_condition_routing]: the word lists. *)
Definition urgent_words : list string :=
  ["urgent"; "emergency"; "critical"; "asap"; "immediately"].
Definition question_starts : list string :=
  ["what"; "how"; "why"; "when"; "where"; "who"].
Definition feedback_words : list string :=
  ["love"; "hate"; "excellent"; "terrible"; "suggestion"; "feedback"].

(** [multi_condition_routing]:
<<
    text = x.get("text", "").lower()
    return any(word in text for word in urgent_words)
>> *)
Definition is_urgent (x : pydict) : result bool :=
  text <- py_lower (dict_get x "text" (VStr "")) ;;
  Ok (PyText.contains_any urgent_words text).

(** [multi_condition_routing]:
<<
    text = x.get("text", "")
    return "?" in text or text.lower().startswith(("what", "how", ...))
>> *)
Definition is_question (x : pydict) : result bool :=
  let text := dict_get x "text" (VStr "") in
  or_else (py_in "?" text)
          (low <- py_lower text ;; Ok (PyText.startswith_any question_starts low)).

(** [multi_condition_routing]. *)
Definition is_feedback (x : pydict) : result bool :=
  text <- py_lower (dict_get x "text" (VStr "")) ;;
  Ok (PyText.contains_any feedback_words text).

(** [fallback_chains]:
<<
    query = x.get("query", "")
    return not any(indicator in query.lower() for indicator in complex_indicators)
>>
    [query.lower()] is evaluated for the first indicator already. *)
Definition complex_indicators : list string :=
  ["explain quantum"; "derive formula"; "prove theorem"].
Definition can_handle_simple (x : pydict) : result bool :=
  low <- py_lower (dict_get x "query" (VStr "")) ;;
  Ok (negb (PyText.contains_any complex_indicators low)).

(** [context_based_branching]:
<<
    text = x.get("text", "")
    return {**x,
            "word_count": len(text.split()),
            "has_code": "```" in text or "def " in text or "function" in text,
            "has_data": any(word in text.lower() for word in [...])}
>> *)
Definition data_words : list string := ["table"; "csv"; "data"; "numbers"].
Definition add_metadata (x : pydict) : result pydict :=
  let text := dict_get x "text" (VStr "") in
  words <- py_split text ;;
  has_code <- or_else (py_in "```" text)
                (or_else (py_in "def " text) (py_in "function" text)) ;;
  low <- py_lower text ;;
  Ok (dict_set
        (dict_set
           (dict_set x "word_count" (VInt (Z.of_nat (List.length words))))
           "has_code" (VBool has_code))
        "has_data" (VBool (PyText.contains_any data_words low))).

(** [context_based_branching]: [return x.get("has_code", False)]. *)
Definition is_code_heavy (x : pydict) : pyval := dict_get x "has_code" (VBool false).

(** [context_based_branching]: [return x.get("has_data", False)]. *)
Definition is_data_heavy (x : pydict) : pyval := dict_get x "has_data" (VBool false).

(** The Spanish words of [detect_language], [o] with acute accent being
    the code point 243. *)
Definition spanish_words : list string :=
  ["c" +:+ String "243" "digo"; "funci" +:+ String "243" "n"; "clase"].
Definition english_words : list string := ["code"; "function"; "class"].

(** [multi_stage_conditional]:
<<
    text = x.get("text", "")
    if any(word in text.lower() for word in ["código", "función", "clase"]):
        return {**x, "language": "spanish"}
    elif any(word in text.lower() for word in ["code", "function", "class"]):
        return {**x, "language": "english"}
    return {**x, "language": "unknown"}
>> *)
Definition detect_language (x : pydict) : result pydict :=
  low <- py_lower (dict_get x "text" (VStr "")) ;;
  if PyText.contains_any spanish_words low then
    Ok (dict_set x "language" (VStr "spanish"))
  else if PyText.contains_any english_words low then
    Ok (dict_set x "language" (VStr "english"))
  else Ok (dict_set x "language" (VStr "unknown")).

(** [multi_stage_conditional]:
<<
    text = x.get("text", "")
    if "def " in text or "function" in text:
        return {**x, "content_type": "code"}
    elif "?" in text:
        return {**x, "content_type": "question"}
    return {**x, "content_type": "statement"}
>> *)
Definition detect_type (x : pydict) : result pydict :=
  let text := dict_get x "text" (VStr "") in
  is_code <- or_else (py_in "def " text) (py_in "function" text) ;;
  if is_code then Ok (dict_set x "content_type" (VStr "code"))
  else
    is_q <- py_in "?" text ;;
    if is_q then Ok (dict_set x "content_type" (VStr "question"))
    else Ok (dict_set x "content_type" (VStr "statement")).

(** [multi_stage_conditional]: [return x.get("language") == "spanish"]. *)
Definition needs_translation (x : pydict) : bool :=
  py_eq_str (dict_get_none x "language") "spanish".

(** [multi_stage_conditional]: [return x.get("content_type") == "code"]. *)
Definition is_code_question (x : pydict) : bool :=
  py_eq_str (dict_get_none x "content_type") "code".

(** [conditional_with_metadata]:
<<
    text = x.get("text", "").lower()
    if any(word in text for word in ["urgent", "critical", "emergency"]):
        return "high"
    elif any(word in text for word in ["soon", "quickly", "asap"]):
        return "medium"
    return "low"
>> *)
Definition high_words : list string := ["urgent"; "critical"; "emergency"].
Definition medium_words : list string := ["soon"; "quickly"; "asap"].
Definition classify_urgency (x : pydict) : result string :=
  text <- py_lower (dict_get x "text" (VStr "")) ;;
  if PyText.contains_any high_words text then Ok "high"
  else if PyText.contains_any medium_words text then Ok "medium"
  else Ok "low".

(** [conditional_with_metadata]: [return x.get("urgency") == "high"]. *)
Definition is_high_priority (x : pydict) : bool :=
  py_eq_str (dict_get_none x "urgency") "high".

(** [conditional_with_metadata]: [return x.get("urgency") == "medium"]. *)
Definition is_medium_priority (x : pydict) : bool :=
  py_eq_str (dict_get_none x "urgency") "medium".

End Conditional.

(** ** Reading the results of a [RobustAPIClient] *)

Module RobustDemo.

(** [result["status"] == "success"] for what an [invoke] gave. *)
Definition succeeded (r : result pydict) : bool :=
  match r with
  | Ok d =>
      match RobustAPIClient.status d with
      | Some v => py_eq_str v "success"
      | None => false
      end
  | Raise _ => false
  end.

(** An [invoke] that ended with an exception, and one that ended with the
    [OverflowError] of [time.sleep]. *)
Definition raised (r : result pydict) : bool := negb (is_ok r).

Definition overslept (r : result pydict) : bool :=
  match r with
  | Raise e => bool_decide (exc_cls e = OverflowError)
  | Ok _ => false
  end.

(** The time slept in all, in milliseconds. *)
Definition total_delay (delays : list Z) : Z := foldr Z.add 0 delays.

End RobustDemo.

(** ** What the consumer of [custom_streamer] prints *)

(** [runnables/04_advanced_runnables.py], [runnable_generator_example]:
<<
    for chunk in streaming_runnable.stream({"text": ...}):
        print(chunk, end="", flush=True)
>>
    The text on the terminal once the generator is exhausted. *)
Definition streamed_text (steps : list gen_step) : string :=
  String.concat "" (chunks_of steps).

(** ** The validator of [production_patterns] *)

Module Production.

(** [runnables/04_advanced_runnables.py], [production_patterns]:
<<
    if "text" not in x or len(x["text"]) < 5:
        raise ValueError("Invalid input")
    return x
>> *)
Definition validate_input (x : pydict) : result pydict :=
  if negb (dict_contains x "text") then raise ValueError "Invalid input"
  else
    t <- dict_getitem x "text" ;;
    n <- py_len t ;;
    if (n <? 5)%Z then raise ValueError "Invalid input" else Ok x.

End Production.

(** ** The best match of [models/03_embeddings_example.py], [practical_use_case] *)

Module FaqMatch.
Section Match.

(** As in [SemanticSearch]: the similarity is a given function into the
    floats. *)
Variable embedding : Type.
Variable cosine_similarity : embedding -> embedding -> PyFloat.t.

(** [[(question, cosine_similarity(user_embedding, faq_emb))
      for question, faq_emb in zip(faq_questions, faq_embeddings)]] *)
Definition similarities (user_embedding : embedding)
    (faq_questions : list string) (faq_embeddings : list embedding)
    : list (string * PyFloat.t) :=
  zip_with (fun question faq_emb =>
              (question, cosine_similarity user_embedding faq_emb))
           faq_questions faq_embeddings.

(** [max(items, key=lambda x: x[1])] keeps the item it holds unless the
    key of the next one is greater; no key is greater than [nan], and
    [nan] is greater than none. *)
Fixpoint max_from (best : string * PyFloat.t) (items : list (string * PyFloat.t))
    : string * PyFloat.t :=
  match items with
  | [] => best
  | item :: rest =>
      if PyFloat.gt item.2 best.2 then max_from item rest else max_from best rest
  end.

Definition py_max (items : list (string * PyFloat.t))
    : result (string * PyFloat.t) :=
  match items with
  | [] => raise ValueError "max() arg is an empty sequence"
  | item :: rest => Ok (max_from item rest)
  end.

(** [faqs[question]] for the dict [faqs] from questions to answers. *)
Fixpoint faqs_getitem (faqs : list (string * string)) (question : string)
    : result string :=
  match faqs with
  | [] => raise KeyError (PyStr.repr question)
  | (q, answer) :: faqs' =>
      if String.eqb question q then Ok answer else faqs_getitem faqs' question
  end.

(** From [faq_questions = list(faqs.keys())] to [faqs[matched_question]]:
    the question matched, its score and its answer. *)
Definition best_match (faqs : list (string * string))
    (user_embedding : embedding) (faq_embeddings : list embedding)
    : result (string * PyFloat.t * string) :=
  let faq_questions := map fst faqs in
  best <- py_max (similarities user_embedding faq_questions faq_embeddings) ;;
  answer <- faqs_getitem faqs best.1 ;;
  Ok (best.1, best.2, answer).

End Match.
End FaqMatch.

(** ** The functions of [chains/01_lcel_basics.py] *)

Module Lcel.

(** [runnable_lambda]:
<<
    words = x.split()
    return {"text": x, "word_count": len(words), "char_count": len(x)}
>> *)
Definition word_counter (x : pyval) : result pydict :=
  words <- py_split x ;;
  chars <- py_len x ;;
  Ok [("text", x); ("word_count", VInt (Z.of_nat (List.length words)));
      ("char_count", VInt chars)].

(** [complex_chain_composition]:
<<
    return {"topic": x["topic"].strip().lower(), "original_topic": x["topic"]}
>> *)
Definition prepare_input (x : pydict) : result pydict :=
  topic <- dict_getitem x "topic" ;;
  stripped <- py_strip topic ;;
  original <- dict_getitem x "topic" ;;
  Ok [("topic", VStr (PyStr.lower stripped)); ("original_topic", original)].

(** [complex_chain_composition]:
<<
    return {"content": x, "length": len(x), "words": len(x.split())}
>> *)
Definition add_metadata (x : pyval) : result pydict :=
  length <- py_len x ;;
  words <- py_split x ;;
  Ok [("content", x); ("length", VInt length);
      ("words", VInt (Z.of_nat (List.length words)))].

End Lcel.

(** ** The routing of [intent_based_routing] in [chains/04_conditional_chains.py] *)

Module IntentRouting.

(** The last stage of [intent_classifier]: [lambda x: x.strip().lower()]. *)
Definition normalize (x : pyval) : result string :=
  stripped <- py_strip x ;;
  Ok (PyStr.lower stripped).

(** The four chains a query can be handed to. *)
Inductive handler : Type :=
  | support_handler
  | sales_handler
  | feedback_handler
  | general_handler.

(** [route_by_intent]:
<<
    intent = x.get("intent", "general")
    query = x.get("query", "")
    handlers = {"support": ..., "sales": ..., "feedback": ..., "general": ...}
    handler = handlers.get(intent, general_handler)
    return handler.invoke({"query": query})
>>
    The handler chosen and the dict it is invoked with.  A list or a dict
    cannot be looked up in [handlers]. *)
Definition route_by_intent (x : pydict) : result (handler * pydict) :=
  let intent := dict_get x "intent" (VStr "general") in
  let query := dict_get x "query" (VStr "") in
  match intent with
  | VList _ | VDict _ =>
      raise TypeError ("unhashable type: '" +:+ type_name intent +:+ "'")
  | VStr s =>
      Ok (if String.eqb s "support" then support_handler
          else if String.eqb s "sales" then sales_handler
          else if String.eqb s "feedback" then feedback_handler
          else general_handler,
          [("query", query)])
  | _ => Ok (general_handler, [("query", query)])
  end.

End IntentRouting.

(** ** [TextProcessor] of [runnables/05_practical_runnables.py] *)

Module TextProcessor.
Section Processor.

(** [str.title] of the interpreter, a parameter as [str.upper] is. *)
Variable py_title : string -> string.

Record t : Type := mkProcessor { operations : list string }.

(** [__init__(self, operations=None)]:
    [self.operations = operations or ["clean", "analyze", "enhance"]].
    [None] and the empty list are false. *)
Definition init (operations : option (list string)) : t :=
  match operations with
  | None | Some [] => mkProcessor ["clean"; "analyze"; "enhance"]
  | Some ops => mkProcessor ops
  end.

(** [op in self.operations]. *)
Definition has (op : string) (self : t) : bool :=
  existsb (String.eqb op) (operations self).

(** [v.count(c)] for a one-character string [c]. *)
Definition py_count (c : ascii) (v : pyval) : result Z :=
  match v with
  | VStr s => Ok (PyText.count_char c s)
  | _ => no_attribute v "count"
  end.

(** [v.title()]. *)
Definition title (v : pyval) : result string :=
  match v with
  | VStr s => Ok (py_title s)
  | _ => no_attribute v "title"
  end.

(** [invoke(self, input, config=None)]. *)
Definition invoke (self : t) (input : pydict) : result pydict :=
  let text := dict_get input "text" (VStr "") in
  let results := [("original", text)] in
  results <- (if has "clean" self then
                stripped <- py_strip text ;;
                Ok (dict_set results "cleaned" (VStr (PyStr.lower stripped)))
              else Ok results) ;;
  results <- (if has "analyze" self then
                words <- py_split text ;;
                chars <- py_len text ;;
                dots <- py_count "." text ;;
                bangs <- py_count "!" text ;;
                marks <- py_count "?" text ;;
                Ok (dict_set results "stats"
                      (VDict [("words", VInt (Z.of_nat (List.length words)));
                              ("chars", VInt chars);
                              ("sentences", VInt (dots + bangs + marks))]))
              else Ok results) ;;
  if has "enhance" self then
    enhanced <- title text ;;
    Ok (dict_set results "enhanced" (VStr enhanced))
  else Ok results.

End Processor.
End TextProcessor.

(** ** [StreamingChat] of [runnables/05_practical_runnables.py] *)

Module StreamingChat.

(** The line feed. *)
Definition nl : string := String "010" EmptyString.

(** [self.history]: the messages and the responses, oldest first. *)
Record t : Type := mkChat { history : list pyval }.

(** [__init__(self)]. *)
Definition init : t := mkChat [].

(** [self.history[-4:]]. *)
Definition last4 (history : list pyval) : list pyval :=
  drop (List.length history - 4) history.

(** ['User' if i % 2 == 0 else 'Assistant']. *)
Definition speaker (i : nat) : string :=
  if Nat.even i then "User" else "Assistant".

(** [context = "\n".join([f"{...}: {msg}"
                          for i, msg in enumerate(self.history[-4:])])]. *)
Definition context (self : t) : string :=
  String.concat nl
    (imap (fun i msg => speaker i +:+ ": " +:+ py_str msg) (last4 (history self))).

(** [prompt = f"{context}\nUser: {message}\nAssistant:"]. *)
Definition prompt (self : t) (message : pyval) : string :=
  context self +:+ nl +:+ "User: " +:+ py_str message +:+ nl +:+ "Assistant:".

(** [invoke(self, input, config=None)]: [chat] gives the content of the
    model's response to a prompt. *)
Definition invoke (chat : string -> string) (self : t) (input : pydict)
    : string * t :=
  let message := dict_get input "message" (VStr "") in
  let response := chat (prompt self message) in
  (response, mkChat (history self ++ [message; VStr response])).

(** [stream(self, input, config=None)], run to exhaustion: [chat_stream]
    gives the contents of the chunks the model streams for a prompt; they
    are yielded one by one and joined for the history. *)
Definition stream (chat_stream : string -> list string) (self : t) (input : pydict)
    : list string * t :=
  let message := dict_get input "message" (VStr "") in
  let chunks := chat_stream (prompt self message) in
  (chunks, mkChat (history self ++ [message; VStr (String.concat "" chunks)])).

(** The loop of [streaming_chat_system]: one [stream] per message, the
    model answering the [k]-th of them by [chat_stream k]. *)
Fixpoint stream_all (chat_stream : nat -> string -> list string) (k : nat)
    (self : t) (inputs : list pydict) : list (list string) * t :=
  match inputs with
  | [] => ([], self)
  | input :: rest =>
      let '(chunks, self1) := stream (chat_stream k) self input in
      let '(outs, self2) := stream_all chat_stream (S k) self1 rest in
      (chunks :: outs, self2)
  end.

(** The two lines of an exchange as they should read in a prompt, and the
    two entries it leaves in the history. *)
Definition exchange_lines (exchange : pyval * string) : list string :=
  ["User: " +:+ py_str exchange.1; "Assistant: " +:+ exchange.2].
Definition exchange_entries (exchange : pyval * string) : list pyval :=
  [exchange.1; VStr exchange.2].

End StreamingChat.

(** ** [MonitoredRunnable] of [runnables/05_practical_runnables.py] *)

Module MonitoredRunnable.
Section Monitored.

(** Times are floats; as a float that is not infinite is a rational, they
    are rationals here, with [None] for the infinite [min_time] a fresh
    instance has.  The sum of two floats is rounded, so the addition
    stays a parameter. *)
Variable float_add : Q -> Q -> Q.

(** An entry of [self.metrics["errors"]], with the class of the exception
    for its name. *)
Record error_t : Type := mkError {
  error : string;
  type : exc_class;
  timestamp : Q
}.

(** [self.metrics]. *)
Record metrics_t : Type := mkMetrics {
  total_calls : Z;
  successes : Z;
  failures : Z;
  total_time : Q;
  min_time : option Q;
  max_time : Q;
  errors : list error_t
}.

(** [__init__(self, runnable, name="unnamed")]. *)
Definition init : metrics_t := mkMetrics 0 0 0 0 None 0 [].

(** [min(self.metrics["min_time"], duration)]: the first argument unless
    the second is smaller. *)
Definition py_min (m : option Q) (duration : Q) : Q :=
  match m with
  | None => duration
  | Some m => if Qle_bool m duration then m else duration
  end.

(** [max(self.metrics["max_time"], duration)]: the first argument unless
    the second is greater. *)
Definition py_max (m : Q) (duration : Q) : Q :=
  if Qle_bool duration m then m else duration.

(** What one [invoke] meets: how the wrapped runnable ends, the duration
    [time.time() - start] measured when it returns, and the [time.time()]
    read when it raises. *)
Record call (R : Type) : Type := mkCall {
  outcome : result R;
  duration : Q;
  now : Q
}.
Arguments mkCall {R} outcome duration now.
Arguments outcome {R} c.
Arguments duration {R} c.
Arguments now {R} c.

(** [invoke(self, input, config=None)].  The [except Exception] clause
    counts the failure and raises the exception again; an exception that
    is not an [Exception] passes it uncounted. *)
Definition invoke {R} (m : metrics_t) (c : call R) : result R * metrics_t :=
  let calls := total_calls m + 1 in
  match outcome c with
  | Ok r =>
      (Ok r,
       mkMetrics calls (successes m + 1) (failures m)
         (float_add (total_time m) (duration c))
         (Some (py_min (min_time m) (duration c)))
         (py_max (max_time m) (duration c))
         (errors m))
  | Raise e =>
      if is_Exception (exc_cls e) then
        (Raise e,
         mkMetrics calls (successes m) (failures m + 1) (total_time m)
           (min_time m) (max_time m)
           (errors m ++ [mkError (exc_msg e) (exc_cls e) (now c)]))
      else
        (Raise e,
         mkMetrics calls (successes m) (failures m) (total_time m)
           (min_time m) (max_time m) (errors m))
  end.

(** The metrics after a series of invocations, each caught by its
    caller. *)
Definition invoke_all {R} (m : metrics_t) (calls : list (call R)) : metrics_t :=
  foldl (fun m c => (invoke m c).2) m calls.

(** The durations of the calls that returned. *)
Definition returned {R} (calls : list (call R)) : list Q :=
  omap (fun c => match outcome c with Ok _ => Some (duration c) | Raise _ => None end)
       calls.

(** The calls whose exception the [except] clause caught, and those whose
    exception passed it. *)
Definition caught {R} (c : call R) : bool :=
  match outcome c with
  | Ok _ => false
  | Raise e => is_Exception (exc_cls e)
  end.
Definition passed {R} (c : call R) : bool :=
  match outcome c with
  | Ok _ => false
  | Raise e => negb (is_Exception (exc_cls e))
  end.

End Monitored.

Arguments mkCall {R} outcome duration now.
Arguments outcome {R} c.
Arguments duration {R} c.
Arguments now {R} c.

End MonitoredRunnable.

(** ** [KeyValueParser] of [structured_output/03_advanced_structured.py] *)

Module KeyValueParser.

(** One pass through the body of the loop of [parse]:
<<
    if ':' in line:
        key, value = line.split(':', 1)
        result[key.strip()] = value.strip()
>>
    The unpacking of a list that does not have two items fails. *)
Definition parse_line (res : pydict) (line : string) : result pydict :=
  if PyText.contains ":" line then
    let parts := PyText.split_once ":" line in
    match parts with
    | [key; value] => Ok (dict_set res (PyText.strip key) (VStr (PyText.strip value)))
    | _ :: _ :: _ :: _ => raise ValueError "too many values to unpack (expected 2)"
    | _ =>
        raise ValueError
          ("not enough values to unpack (expected 2, got "
           +:+ pretty (Z.of_nat (List.length parts)) +:+ ")")
    end
  else Ok res.

(** [for line in lines: ...]. *)
Fixpoint parse_lines (res : pydict) (lines : list string) : result pydict :=
  match lines with
  | [] => Ok res
  | line :: rest => res' <- parse_line res line ;; parse_lines res' rest
  end.

(** [parse(self, text)]:
<<
    result = {}
    lines = text.strip().split('\n')
    for line in lines: ...
    return result
>> *)
Definition parse (text : string) : result pydict :=
  parse_lines [] (PyText.split_char "010" (PyText.strip text)).

(** What [custom_output_parser] prints of a parsed dict:
<<
    for key, value in result.items():
        print(f"   {key}: {value}")
>> *)
Definition printed_line (item : string * pyval) : string :=
  "   " +:+ item.1 +:+ ": " +:+ py_str item.2.
Definition printed (res : pydict) : string :=
  String.concat "" (map (fun item => printed_line item +:+ StreamingChat.nl) res).

(** A line of white space only. *)
Definition blank (line : string) : bool := PyStr.forallb_str PyStr.is_space line.

(** The lines of a text whose trailing white space is taken off, from the
    lines of the text: the blank lines at the end go, and the line before
    them loses its trailing white space. *)
Fixpoint rstrip_lines (lines : list string) : list string :=
  match lines with
  | [] => []
  | line :: rest =>
      if forallb blank rest then [PyText.rstrip line]
      else line :: rstrip_lines rest
  end.

End KeyValueParser.

(** ** What [KeyValueParser.parse] returns *)

Module ParsedDict.

(** An item as [parse] stores it: the key and the value are stripped and
    stand on one line, the key has no colon, the value is a string. *)
Definition tidy (item : string * pyval) : Prop :=
  PyText.strip item.1 = item.1
  /\ PyStr.contains_char ":" item.1 = false
  /\ PyStr.contains_char "010" item.1 = false
  /\ exists value,
       item.2 = VStr value
       /\ PyText.strip value = value
       /\ PyStr.contains_char "010" value = false.

(** A dict of such items; the keys of a dict are distinct. *)
Definition well_formed (res : pydict) : Prop :=
  NoDup (map fst res) /\ Forall tidy res.

End ParsedDict.

(** ** The validation of [data_extraction_pipeline] in [chains/05_practical_chains.py] *)

Module ContactValidation.

(** [bool(v)]: [None], [False], zero and what is empty are false. *)
Definition truthy (v : pyval) : bool :=
  match v with
  | VNone => false
  | VBool b => b
  | VInt z => negb (z =? 0)%Z
  | VStr s => negb (String.eqb s "")
  | VList l => negb (Nat.eqb (List.length l) 0)
  | VDict d => negb (Nat.eqb (List.length d) 0)
  end.

(** [validate_email]:
    [return "@" in email and "." in email.split("@")[1]].
    An index past the end of the list would raise an [IndexError]. *)
Definition validate_email (email : pyval) : result bool :=
  has_at <- py_in "@" email ;;
  if has_at then
    match email with
    | VStr s =>
        match PyText.split_char "@" s with
        | _ :: domain :: _ => Ok (PyText.contains "." domain)
        | _ => raise OtherException "list index out of range"
        end
    | _ => no_attribute email "split"
    end
  else Ok false.

(** [validate_data]:
<<
    errors = []
    if not x.get("name"): errors.append("Missing name")
    if not validate_email(x.get("email", "")): errors.append("Invalid email")
    if not x.get("phone"): errors.append("Missing phone")
    return {**x, "is_valid": len(errors) == 0, "errors": errors}
>> *)
Definition validate_data (x : pydict) : result pydict :=
  let errors : list string := [] in
  let errors :=
    if negb (truthy (dict_get_none x "name")) then errors ++ ["Missing name"]
    else errors in
  valid <- validate_email (dict_get x "email" (VStr "")) ;;
  let errors := if negb valid then errors ++ ["Invalid email"] else errors in
  let errors :=
    if negb (truthy (dict_get_none x "phone")) then errors ++ ["Missing phone"]
    else errors in
  Ok (dict_set
        (dict_set x "is_valid" (VBool (Nat.eqb (List.length errors) 0)))
        "errors" (VList (map VStr errors))).

End ContactValidation.

(** * Properties *)

(** ** Dicts *)

Lemma dict_contains_lookup (d : pydict) (k : string) :
  dict_contains d k = true <-> exists v, dict_lookup d k = Some v.
Proof.
  induction d as [|[k' v'] d IH]; simpl.
  - split; [discriminate | intros [v Hv]; discriminate].
  - destruct (String.eqb k k'); [split; eauto | exact IH].
Qed.

Lemma dict_contains_false (d : pydict) (k : string) :
  dict_contains d k = false <-> dict_lookup d k = None.
Proof.
  induction d as [|[k' v'] d IH]; simpl; [done|].
  destruct (String.eqb k k'); [split; discriminate | exact IH].
Qed.

(** ** The functions handed to the framework are deterministic *)

Lemma is_long_str (x : pydict) (s : string) :
  dict_lookup x "text" = Some (VStr s) ->
  is_long x = Ok (50 <? Z.of_nat (String.length s)).
Proof. intros H. unfold is_long, dict_get. rewrite H. reflexivity. Qed.

Lemma is_long_absent (x : pydict) :
  dict_lookup x "text" = None -> is_long x = Ok false.
Proof. intros H. unfold is_long, dict_get. rewrite H. reflexivity. Qed.

Lemma is_long_true_iff (x : pydict) :
  is_long x = Ok true <->
  exists n, py_len (dict_get x "text" (VStr "")) = Ok n /\ 50 < n.
Proof.
  unfold is_long. destruct (py_len _) as [n|e]; simpl.
  - split.
    + intros H. exists n. split; [done|]. apply Z.ltb_lt. congruence.
    + intros (m & Hm & Hlt). inversion Hm; subst.
      apply Z.ltb_lt in Hlt. by rewrite Hlt.
  - split; [discriminate | intros (m & Hm & _); discriminate].
Qed.

Lemma pick_user_text_ok (x y : pydict) :
  pick_user_text x = Ok y ->
  exists u t, dict_lookup x "user" = Some u /\ dict_lookup x "text" = Some t
              /\ y = [("user", u); ("text", t)].
Proof.
  unfold pick_user_text, dict_getitem.
  destruct (dict_lookup x "user") as [u|]; simpl; [|discriminate].
  destruct (dict_lookup x "text") as [t|]; simpl; [|discriminate].
  intros H. inversion H. eauto.
Qed.

Lemma pick_user_text_idempotent (x y : pydict) :
  pick_user_text x = Ok y -> pick_user_text y = Ok y.
Proof.
  intros H. apply pick_user_text_ok in H as (u & t & _ & _ & ->). reflexivity.
Qed.

Lemma pick_user_text_present (x : pydict) (u t : pyval) :
  dict_lookup x "user" = Some u -> dict_lookup x "text" = Some t ->
  pick_user_text x = Ok [("user", u); ("text", t)].
Proof. intros Hu Ht. unfold pick_user_text, dict_getitem. by rewrite Hu, Ht. Qed.

Lemma pick_user_text_no_user (x : pydict) :
  pick_user_text x = raise KeyError "'user'" <-> dict_lookup x "user" = None.
Proof.
  unfold pick_user_text, dict_getitem.
  destruct (dict_lookup x "user") as [u|]; simpl.
  - destruct (dict_lookup x "text"); simpl; split; discriminate.
  - split; [done|]. intros _. reflexivity.
Qed.

Lemma pick_user_text_no_text (x : pydict) :
  pick_user_text x = raise KeyError "'text'" <->
  dict_lookup x "user" <> None /\ dict_lookup x "text" = None.
Proof.
  unfold pick_user_text, dict_getitem.
  destruct (dict_lookup x "user") as [u|]; simpl.
  - destruct (dict_lookup x "text"); simpl.
    + split; [discriminate | intros [_ H]; discriminate].
    + split; [by intros _ | intros _; reflexivity].
  - split; [discriminate | by intros [H _]].
Qed.

(** C1, as the code has it: the functions the repository hands to the
    framework do not involve the hosted model, and their results follow
    from their argument alone.  [is_long] answers [True] exactly when the
    length of the [text] entry (the empty string when absent) exceeds 50,
    so it has a boundary between 50 and 51.  [pick_user_text] returns the
    dict of exactly the [user] and the [text] entry of its argument, in
    this order, when both are there; it raises [KeyError('user')] exactly
    when [user] is absent, and [KeyError('text')] exactly when [user] is
    there and [text] is absent; and it is idempotent. *)
Theorem C1_helpers_are_deterministic :
  (forall x, is_long x = Ok true <->
             exists n, py_len (dict_get x "text" (VStr "")) = Ok n /\ 50 < n)
  /\ (forall x s, dict_lookup x "text" = Some (VStr s) ->
                  is_long x = Ok (50 <? Z.of_nat (String.length s)))
  /\ (forall x, dict_lookup x "text" = None -> is_long x = Ok false)
  /\ (forall x u t,
        dict_lookup x "user" = Some u -> dict_lookup x "text" = Some t ->
        pick_user_text x = Ok [("user", u); ("text", t)])
  /\ (forall x y,
        pick_user_text x = Ok y ->
        exists u t, dict_lookup x "user" = Some u
                    /\ dict_lookup x "text" = Some t
                    /\ y = [("user", u); ("text", t)]
                    /\ pick_user_text y = Ok y)
  /\ (forall x, pick_user_text x = raise KeyError "'user'" <->
                dict_lookup x "user" = None)
  /\ (forall x, pick_user_text x = raise KeyError "'text'" <->
                dict_lookup x "user" <> None /\ dict_lookup x "text" = None)
  /\ (forall x, exists y,
        pick_user_text x = Ok y
        \/ pick_user_text x = raise KeyError "'user'"
        \/ pick_user_text x = raise KeyError "'text'").
Proof.
  split; [exact is_long_true_iff|].
  split; [exact is_long_str|].
  split; [exact is_long_absent|].
  split; [exact pick_user_text_present|].
  split.
  { intros x y H. pose proof (pick_user_text_idempotent _ _ H) as Hy.
    apply pick_user_text_ok in H as (u & t & Hu & Ht & ->).
    by exists u, t. }
  split; [exact pick_user_text_no_user|].
  split; [exact pick_user_text_no_text|].
  intros x. unfold pick_user_text, dict_getitem.
  destruct (dict_lookup x "user") as [u|]; simpl.
  - destruct (dict_lookup x "text") as [t|]; simpl.
    + eexists. by left.
    + exists []. right. by right.
  - exists []. right. by left.
Qed.

(** C1 refuted on the code: [is_long] has a boundary condition that no
    model output takes part in.  A text of 50 characters is not long, the
    same text with one more character is. *)
Lemma C1_is_long_boundary :
  is_long [("text", VStr "01234567890123456789012345678901234567890123456789")]
    = Ok false
  /\ is_long [("text", VStr "012345678901234567890123456789012345678901234567890")]
    = Ok true
  /\ pick_user_text [("user", VStr "alice"); ("text", VStr "Hello world");
                     ("timestamp", VStr "2024-01-01")]
     = Ok [("user", VStr "alice"); ("text", VStr "Hello world")].
Proof. repeat split. Qed.

(** ** [RobustAPIClient.invoke] *)

Module RobustFacts.
Import RobustAPIClient.

Lemma backoff_S (attempt : Z) (k : nat) :
backoff attempt (S k) = 100 * 2 ^ attempt :: backoff (attempt + 1) k.
Proof.
unfold backoff. simpl. rewrite Z.add_0_r. f_equal.
rewrite <- seq_shift, map_map. apply map_ext. intros j.
do 2 f_equal. lia.
Qed.

Lemma sleeps_S (I : interpreter) (attempt : Z) (k : nat) :
sleep_fails I (100 * 2 ^ attempt) = None ->
sleeps I (attempt + 1) k -> sleeps I attempt (S k).
Proof.
intros H0 Hk j Hj. destruct j as [|j].
- by rewrite Z.add_0_r.
- replace (attempt + Z.of_nat (S j)) with (attempt + 1 + Z.of_nat j) by lia.
  apply Hk. lia.
Qed.

(** What the f-string raises is no [ConnectionError]: the [except] clause
    of the loop lets it through. *)
Lemma py_format_not_caught (I : interpreter) (v : pyval) (e : exception) :
py_format I v = Raise e -> is_ConnectionError (exc_cls e) = false.
Proof.
unfold py_format. destruct v; try discriminate;
  (destruct (str_fails I _) as [[msg|msg]|]; [| |discriminate]);
  intros [= <-]; reflexivity.
Qed.

Lemma attempt_loop_ending (I : interpreter) (fails : nat -> bool)
  (input : pydict) (todo : nat) :
forall (attempt : Z) (self : t) (w : world),
  max_retries self = attempt + Z.of_nat todo ->
  forall r self' w',
    attempt_loop I fails input todo attempt self w = (r, self', w') ->
    ending I fails input todo attempt self w r self' w'.
Proof.
induction todo as [|todo IH]; intros attempt self w Hinv r self' w' Hrun.
- simpl in Hrun. injection Hrun as <- <- <-. by apply NoAttempt.
- simpl in Hrun. unfold api_call in Hrun.
  destruct (fails (draws w)) eqn:Hf; simpl in Hrun.
  + destruct (attempt =? max_retries self - 1) eqn:Hlast.
    * apply Z.eqb_eq in Hlast.
      assert (todo = 0%nat) as -> by lia.
      injection Hrun as <- <- <-.
      apply Exhausted; simpl; try done; try lia.
      -- intros j Hj. assert (j = 0%nat) as -> by lia.
         by rewrite Nat.add_0_r.
      -- intros j Hj. lia.
      -- by rewrite app_nil_r.
    * apply Z.eqb_neq in Hlast.
      assert (todo <> 0%nat) as Htodo by lia.
      destruct (sleep_fails I (100 * 2 ^ attempt)) as [msg|] eqn:Hsl.
      { injection Hrun as <- <- <-.
        apply (Oversleeps _ _ _ _ _ _ _ _ _ _ 0%nat msg); simpl; try done; try lia.
        - intros j Hj. assert (j = 0%nat) as -> by lia.
          by rewrite Nat.add_0_r.
        - intros j Hj. lia.
        - by rewrite Z.add_0_r.
        - by rewrite app_nil_r. }
      apply IH in Hrun; [|simpl; lia].
      destruct Hrun as [k Hk Hall Hsucc Hsleep Hr Hm Hc Hfl Hre Hd Hs
                       | Hpos Hall Hsleep Hr Hm Hc Hfl Hre Hd Hs
                       | k msg Hk Hall Hsleep Hover Hr Hm Hc Hfl Hre Hd Hs
                       | Hzero]; simpl in *; [| | |done].
      -- apply (Answers _ _ _ _ _ _ _ _ _ _ (S k)); try done; try lia.
         ++ intros j Hj. destruct j as [|j].
            ** by rewrite Nat.add_0_r.
            ** replace (draws w + S j)%nat with (S (draws w) + j)%nat by lia.
               apply Hall. lia.
         ++ replace (draws w + S k)%nat with (S (draws w) + k)%nat by lia. done.
         ++ by apply sleeps_S.
         ++ rewrite Hr.
            replace (attempt + 1 + Z.of_nat k + 1)
              with (attempt + Z.of_nat (S k) + 1) by lia.
            done.
         ++ rewrite Hs, <- app_assoc. simpl. by rewrite backoff_S.
      -- apply Exhausted; try done; try lia.
         ++ intros j Hj. destruct j as [|j].
            ** by rewrite Nat.add_0_r.
            ** replace (draws w + S j)%nat with (S (draws w) + j)%nat by lia.
               apply Hall. lia.
         ++ replace (S todo - 1)%nat with (S (todo - 1)) by lia.
            by apply sleeps_S.
         ++ rewrite Hs, <- app_assoc. f_equal. symmetry.
            etransitivity; [|apply backoff_S]. f_equal. lia.
      -- apply (Oversleeps _ _ _ _ _ _ _ _ _ _ (S k) msg); try done; try lia.
         ++ intros j Hj. destruct j as [|j].
            ** by rewrite Nat.add_0_r.
            ** replace (draws w + S j)%nat with (S (draws w) + j)%nat by lia.
               apply Hall. lia.
         ++ by apply sleeps_S.
         ++ replace (attempt + Z.of_nat (S k)) with (attempt + 1 + Z.of_nat k) by lia.
            done.
         ++ rewrite Hs, <- app_assoc. simpl. by rewrite backoff_S.
  + assert (ending I fails input (S todo) attempt self w
              (data <- py_format I (dict_get_none input "data") ;;
               Ok (success_dict data (attempt + 1)))
              self (draw w)) as Hend.
    { apply (Answers _ _ _ _ _ _ _ _ _ _ 0%nat); simpl; try done; try lia.
      * by rewrite Nat.add_0_r.
      * intros j Hj. lia.
      * by rewrite Z.add_0_r.
      * by rewrite app_nil_r. }
    destruct (py_format I (dict_get_none input "data")) as [data|e] eqn:Hfmt;
      simpl in Hrun.
    * injection Hrun as <- <- <-. exact Hend.
    * rewrite (py_format_not_caught _ _ _ Hfmt) in Hrun.
      injection Hrun as <- <- <-. exact Hend.
Qed.

(** How [invoke] ends.  A negative [max_retries] makes [range] empty. *)
Lemma invoke_ending (I : interpreter) (fails : nat -> bool) (self : t)
  (input : pydict) (w : world) :
forall r self' w',
  invoke I fails self input w = (r, self', w') ->
  ending I fails input (Z.to_nat (max_retries self)) 0 (incr_calls self) w r self' w'.
Proof.
intros r self' w' Hrun. unfold invoke in Hrun. simpl in Hrun.
destruct (Z.neg_nonneg_cases (max_retries self)) as [Hneg|Hnn].
- replace (Z.to_nat (max_retries self)) with 0%nat in * by lia.
  simpl in Hrun. injection Hrun as <- <- <-. by apply NoAttempt.
- apply attempt_loop_ending in Hrun; [exact Hrun|]. simpl. lia.
Qed.

(** One [invoke] and the counters: [calls] grows by one, [failures] by at
  most one, [retries] by at most [max_retries]; also when an exception
  leaves [invoke]. *)
Lemma invoke_metrics (I : interpreter) (fails : nat -> bool) (self : t)
  (input : pydict) (w : world) :
forall r self' w',
  invoke I fails self input w = (r, self', w') ->
  max_retries self' = max_retries self
  /\ calls (metrics self') = calls (metrics self) + 1
  /\ failures (metrics self) <= failures (metrics self')
       <= failures (metrics self) + 1
  /\ retries (metrics self) <= retries (metrics self')
       <= retries (metrics self) + Z.max 0 (max_retries self)
  /\ failures (metrics self') - failures (metrics self)
       <= retries (metrics self') - retries (metrics self).
Proof.
intros r self' w' Hrun. apply invoke_ending in Hrun.
destruct Hrun as [k Hk _ _ _ _ Hm Hc Hfl Hre _ _
                 | Hpos _ _ _ Hm Hc Hfl Hre _ _
                 | k msg Hk _ _ _ _ Hm Hc Hfl Hre _ _
                 | Hzero _ -> _]; simpl in *; lia.
Qed.

Lemma invoke_all_metrics (I : interpreter) (fails : nat -> bool)
  (inputs : list pydict) :
forall (self : t) (w : world) rs self' w',
  invoke_all I fails self inputs w = (rs, self', w') ->
  max_retries self' = max_retries self
  /\ List.length rs = List.length inputs
  /\ calls (metrics self') = calls (metrics self) + Z.of_nat (List.length inputs)
  /\ failures (metrics self) <= failures (metrics self')
       <= failures (metrics self) + Z.of_nat (List.length inputs)
  /\ retries (metrics self) <= retries (metrics self')
       <= retries (metrics self)
          + Z.of_nat (List.length inputs) * Z.max 0 (max_retries self)
  /\ failures (metrics self') - failures (metrics self)
       <= retries (metrics self') - retries (metrics self).
Proof.
induction inputs as [|input rest IH]; intros self w rs self' w' Hrun.
- simpl in Hrun. injection Hrun as <- <- <-. simpl. lia.
- simpl in Hrun.
  destruct (invoke I fails self input w) as [[r self1] w1] eqn:H1.
  destruct (invoke_all I fails self1 rest w1) as [[rs' self2] w2] eqn:H2.
  injection Hrun as <- <- <-.
  apply invoke_metrics in H1 as (Hm1 & Hc1 & Hf1 & Hr1 & Hfr1).
  apply IH in H2 as (Hm2 & Hl2 & Hc2 & Hf2 & Hr2 & Hfr2).
  rewrite Hm1 in *. simpl List.length. rewrite Hl2.
  repeat split; try lia.
Qed.

End RobustFacts.

(** C8, as the code has it: for a client whose [max_retries] is not
    negative, every input dict and every outcome of the draws, [invoke]
    makes at most [max_retries] attempts (one draw each) and lets no
    [ConnectionError] out.  When the interpreter can evaluate the f-string
    of [input.get('data')] and [time.sleep] takes the delays after the
    first [max_retries - 1] attempts, [invoke] returns a dict whose
    [status] is ["success"] or ["error"]: ["success"], with [attempt] the
    number of the first attempt that does not fail, exactly when one of
    the first [max_retries] draws does not fail, and ["error"] only when
    all [max_retries] attempts failed.  An exception leaves [invoke] in two
    cases only: it is the exception of the f-string, raised at the first
    attempt whose draw does not fail, or it is the [OverflowError] of
    [time.sleep] after a failed attempt that is not the last. *)
Theorem C8_invoke_total_and_bounded
    (I : interpreter) (fails : nat -> bool) (self : RobustAPIClient.t)
    (input : pydict) (w : RobustAPIClient.world) :
  0 <= RobustAPIClient.max_retries self ->
  (forall r self' w',
      RobustAPIClient.invoke I fails self input w = (r, self', w') ->
      Z.of_nat (RobustAPIClient.draws w' - RobustAPIClient.draws w)
        <= RobustAPIClient.max_retries self
      /\ forall e, r = Raise e -> is_ConnectionError (exc_cls e) = false)
  /\ (forall data,
        py_format I (dict_get_none input "data") = Ok data ->
        RobustAPIClient.sleeps I 0
          (Z.to_nat (RobustAPIClient.max_retries self) - 1) ->
        exists d self' w',
          RobustAPIClient.invoke I fails self input w = (Ok d, self', w')
          /\ (RobustAPIClient.status d = Some (VStr "success")
              \/ RobustAPIClient.status d = Some (VStr "error"))
          /\ (RobustAPIClient.status d = Some (VStr "success") <->
              exists k : nat,
                Z.of_nat k < RobustAPIClient.max_retries self
                /\ fails (RobustAPIClient.draws w + k)%nat = false)
          /\ (RobustAPIClient.status d = Some (VStr "success") ->
              exists k : nat,
                Z.of_nat k < RobustAPIClient.max_retries self
                /\ (forall j, (j < k)%nat ->
                              fails (RobustAPIClient.draws w + j)%nat = true)
                /\ fails (RobustAPIClient.draws w + k)%nat = false
                /\ d = RobustAPIClient.success_dict data (Z.of_nat k + 1)
                /\ RobustAPIClient.draws w' = (RobustAPIClient.draws w + k + 1)%nat)
          /\ (RobustAPIClient.status d = Some (VStr "error") ->
              (forall j : nat, Z.of_nat j < RobustAPIClient.max_retries self ->
                               fails (RobustAPIClient.draws w + j)%nat = true)
              /\ Z.of_nat (RobustAPIClient.draws w' - RobustAPIClient.draws w)
                 = RobustAPIClient.max_retries self))
  /\ (forall e self' w',
        RobustAPIClient.invoke I fails self input w = (Raise e, self', w') ->
        (py_format I (dict_get_none input "data") = Raise e
         /\ exists k : nat,
              Z.of_nat k < RobustAPIClient.max_retries self
              /\ (forall j, (j < k)%nat ->
                            fails (RobustAPIClient.draws w + j)%nat = true)
              /\ fails (RobustAPIClient.draws w + k)%nat = false
              /\ RobustAPIClient.draws w' = (RobustAPIClient.draws w + k + 1)%nat)
        \/ (exc_cls e = OverflowError
            /\ exists k : nat,
                 Z.of_nat k + 1 < RobustAPIClient.max_retries self
                 /\ (forall j, (j <= k)%nat ->
                               fails (RobustAPIClient.draws w + j)%nat = true)
                 /\ sleep_fails I (100 * 2 ^ Z.of_nat k) = Some (exc_msg e)
                 /\ RobustAPIClient.draws w' = (RobustAPIClient.draws w + k + 1)%nat)).
Proof.
  intros Hnn. split; [|split].
  - intros r self' w' Hrun.
    apply RobustFacts.invoke_ending in Hrun.
    destruct Hrun as [k Hk Hall Hsucc Hsl -> _ _ _ _ Hd _
                     | Hpos Hall Hsl -> _ _ _ _ Hd _
                     | k msg Hk Hall Hsl Hover -> _ _ _ _ Hd _
                     | Hzero -> -> ->]; simpl in *.
    + split; [lia|]. intros e He.
      destruct (py_format I (dict_get_none input "data")) as [data|e'] eqn:Hfmt;
        [discriminate|].
      injection He as <-. by eapply RobustFacts.py_format_not_caught.
    + split; [lia|]. discriminate.
    + split; [lia|]. by intros e [= <-].
    + split; [lia|]. discriminate.
  - intros data Hfmt Hsleeps.
    destruct (RobustAPIClient.invoke I fails self input w) as [[r self'] w'] eqn:Hrun.
    apply RobustFacts.invoke_ending in Hrun.
    destruct Hrun as [k Hk Hall Hsucc Hsl -> _ _ _ _ Hd _
                     | Hpos Hall Hsl -> _ _ _ _ Hd _
                     | k msg Hk Hall Hsl Hover -> _ _ _ _ Hd _
                     | Hzero -> -> ->]; simpl in *.
    + rewrite Hfmt. simpl. eexists _, _, _. split; [reflexivity|].
      split; [by left|].
      split; [split; [intros _|done]; exists k; split; [lia|done]|].
      split; [|discriminate].
      intros _. exists k. repeat split; try done; try lia.
    + eexists _, _, _. split; [reflexivity|]. rewrite Hd.
      split; [by right|].
      split.
      * split; [discriminate|]. intros (k & Hk & Hfk).
        rewrite Hall in Hfk; [discriminate | lia].
      * split; [discriminate|]. intros _. split; [|lia].
        intros j Hj. apply Hall. lia.
    + rewrite Hsleeps in Hover; [discriminate | lia].
    + eexists _, _, _. split; [reflexivity|].
      split; [by right|].
      split.
      * split; [discriminate|]. intros (k & Hk & _). lia.
      * split; [discriminate|]. intros _. split; [|lia].
        intros j Hj. lia.
  - intros e self' w' Hrun.
    apply RobustFacts.invoke_ending in Hrun.
    destruct Hrun as [k Hk Hall Hsucc Hsl Hr _ _ _ _ Hd _
                     | Hpos Hall Hsl Hr _ _ _ _ Hd _
                     | k msg Hk Hall Hsl Hover Hr _ _ _ _ Hd _
                     | Hzero Hr _ _]; simpl in *; try discriminate.
    + left.
      destruct (py_format I (dict_get_none input "data")) as [data|e'] eqn:Hfmt;
        [discriminate|].
      injection Hr as ->. split; [done|].
      exists k. repeat split; try done; lia.
    + right. injection Hr as ->. split; [done|].
      exists k. repeat split; try done; lia.
Qed.

(** C8 at the client of the script: [max_retries] is 3 and the first draw
    fails. *)
Lemma C8_invoke_total_and_bounded_witness :
  0 <= RobustAPIClient.max_retries (RobustAPIClient.init 3)
  /\ exists d self' w',
       RobustAPIClient.invoke cpython (fun k => Nat.eqb k 0) (RobustAPIClient.init 3)
         [("data", VStr "request_0")] (RobustAPIClient.mkWorld 0 []) = (Ok d, self', w')
       /\ RobustAPIClient.status d = Some (VStr "success").
Proof.
  split; [simpl; lia|].
  destruct (C8_invoke_total_and_bounded cpython (fun k => Nat.eqb k 0)
              (RobustAPIClient.init 3) [("data", VStr "request_0")]
              (RobustAPIClient.mkWorld 0 [])) as (_ & Hret & _).
  { simpl. lia. }
  destruct (Hret "request_0" eq_refl)
    as (d & self' & w' & Hrun & _ & Hiff & _).
  { intros j Hj. vm_compute in Hj.
    destruct j as [|[|j]]; [reflexivity | reflexivity | lia]. }
  exists d, self', w'. split; [exact Hrun|].
  apply Hiff. exists 1%nat. split; [simpl; lia | reflexivity].
Defined.

(** C8 refuted on the code: [invoke] does propagate exceptions.  To the
    client of the script, the request [{"data": 10 ** 4300}] raises the
    [ValueError] of the f-string at the first attempt, the draw not
    failing; and a client made with [max_retries=39] whose draws all fail
    raises the [OverflowError] of [time.sleep] after its 38th attempt. *)
Lemma C8_exceptions_leave_invoke :
  (RobustAPIClient.invoke cpython (fun _ => false) (RobustAPIClient.init 3)
     [("data", VInt (10 ^ 4300))] (RobustAPIClient.mkWorld 0 [])).1.1
  = Raise (str_exception digit_limit)
  /\ (RobustAPIClient.invoke cpython (fun _ => true) (RobustAPIClient.init 39)
        [("data", VStr "request_0")] (RobustAPIClient.mkWorld 0 [])).1
     = (raise OverflowError "timestamp too large to convert to C _PyTime_t",
        RobustAPIClient.mkClient 39 (RobustAPIClient.mkMetrics 1 0 38)).
Proof. split; vm_compute; reflexivity. Qed.

(** ** The ranking of [semantic_search_example] *)

Module ListSortFacts.
Import PySort.

Lemma elem_of_rev {A} (x : A) (l : list A) : x ∈ rev l <-> x ∈ l.
Proof. rewrite !list_elem_of_In. symmetry. apply in_rev. Qed.

Lemma elem_of_take_in {A} (x : A) (n : nat) (l : list A) : x ∈ take n l -> x ∈ l.
Proof.
  intros H. rewrite <- (take_drop n l). apply elem_of_app. by left.
Qed.

Lemma elem_of_drop_in {A} (x : A) (n : nat) (l : list A) : x ∈ drop n l -> x ∈ l.
Proof.
  intros H. rewrite <- (take_drop n l). apply elem_of_app. by right.
Qed.

Lemma StronglySorted_snoc {A} (R : A -> A -> Prop) (l : list A) (x : A) :
  StronglySorted R l -> Forall (fun a => R a x) l -> StronglySorted R (l ++ [x]).
Proof.
  induction l as [|a l IH]; intros Hs Hx; simpl.
  - repeat constructor.
  - apply StronglySorted_inv in Hs as [Hl Ha].
    apply Forall_cons in Hx as [Hax Hx].
    constructor; [by apply IH|].
    apply Forall_app. split; [done|]. by constructor.
Qed.

Lemma StronglySorted_rev {A} (R : A -> A -> Prop) (l : list A) :
  StronglySorted R l -> StronglySorted (fun a b => R b a) (rev l).
Proof.
  induction l as [|a l IH]; intros Hs; simpl; [constructor|].
  apply StronglySorted_inv in Hs as [Hl Ha].
  apply StronglySorted_snoc; [by apply IH|].
  apply Forall_forall. intros b Hb. rewrite Forall_forall in Ha.
  apply Ha. by apply elem_of_rev.
Qed.

Lemma StronglySorted_app_inv {A} (R : A -> A -> Prop) (l1 l2 : list A) :
  StronglySorted R (l1 ++ l2) ->
  StronglySorted R l1 /\ StronglySorted R l2
  /\ forall a b, a ∈ l1 -> b ∈ l2 -> R a b.
Proof.
  induction l1 as [|x l1 IH]; simpl; intros Hs.
  - split; [constructor|]. split; [done|]. intros a b Ha. by apply elem_of_nil in Ha.
  - apply StronglySorted_inv in Hs as [Hl Hx].
    destruct (IH Hl) as (H1 & H2 & H12).
    apply Forall_app in Hx as [Hx1 Hx2].
    split; [by constructor|]. split; [done|].
    intros a b Ha Hb. apply elem_of_cons in Ha as [->|Ha]; [|by apply H12].
    rewrite Forall_forall in Hx2. by apply Hx2.
Qed.

Lemma StronglySorted_app {A} (R : A -> A -> Prop) (l1 l2 : list A) :
  StronglySorted R l1 -> StronglySorted R l2 ->
  (forall a b, a ∈ l1 -> b ∈ l2 -> R a b) ->
  StronglySorted R (l1 ++ l2).
Proof.
  induction l1 as [|x l1 IH]; simpl; intros H1 H2 H12; [done|].
  apply StronglySorted_inv in H1 as [Hl Hx].
  constructor.
  - apply IH; [done | done |]. intros a b Ha Hb. apply H12; [|done].
    apply elem_of_cons. by right.
  - apply Forall_app. split; [done|]. apply Forall_forall. intros b Hb.
    apply H12; [|done]. apply elem_of_cons. by left.
Qed.

Section Any.

Context {A : Type}.
Variable lt : A -> A -> bool.

(** Whatever the comparison answers, the sort rearranges the items. *)
Lemma insert_sorted_Permutation (run : list A) (x : A) :
  insert_sorted lt run x ≡ₚ x :: run.
Proof.
  unfold insert_sorted.
  rewrite <- Permutation_middle. by rewrite take_drop.
Qed.

Lemma binarysort_Permutation (rest : list A) :
  forall run, binarysort lt run rest ≡ₚ run ++ rest.
Proof.
  induction rest as [|x rest IH]; intros run; simpl.
  - by rewrite app_nil_r.
  - unfold binarysort in *. simpl. rewrite IH, insert_sorted_Permutation.
    by rewrite <- Permutation_middle.
Qed.

Lemma sort_run_Permutation (l : list A) : sort_run lt l ≡ₚ l.
Proof.
  unfold sort_run. destruct l as [|x0 [|x1 rest]]; [done | done |].
  rewrite binarysort_Permutation.
  destruct (count_run lt (x0 :: x1 :: rest)).2.
  - by rewrite <- Permutation_rev, take_drop.
  - by rewrite take_drop.
Qed.

Lemma list_sort_Permutation (reverse : bool) (l : list A) :
  list_sort lt reverse l ≡ₚ l.
Proof.
  unfold list_sort. destruct reverse; [|apply sort_run_Permutation].
  by rewrite <- Permutation_rev, sort_run_Permutation, <- Permutation_rev.
Qed.

End Any.

Section Total.

(** Among the items that are [good], the comparison is that of a total
    order on the keys, several items having the same key. *)
Context {A : Type}.
Variable lt : A -> A -> bool.
Variable good : A -> Prop.
Hypothesis lt_asym :
  forall a b, good a -> good b -> lt a b = true -> lt b a = false.
Hypothesis ge_trans :
  forall a b c, good a -> good b -> good c ->
                lt a b = false -> lt b c = false -> lt a c = false.

(** A class [p] of items with one key. *)
Variable cls : A -> bool.
Hypothesis same_key :
  forall a b, good a -> good b -> cls a = true -> cls b = true -> lt a b = false.

Lemma lt_trans (a b c : A) :
  good a -> good b -> good c -> lt a b = true -> lt b c = true -> lt a c = true.
Proof.
  intros Ha Hb Hc Hab Hbc. destruct (lt a c) eqn:Hac; [done|].
  assert (lt b a = false) as Hba by (by apply lt_asym).
  rewrite (ge_trans b a c) in Hbc; done.
Qed.

(** A sorted run splits at the place of [x]: the items not above [x], then
    the items above it. *)
Lemma sorted_split (x : A) (run : list A) :
  good x -> Forall good run -> StronglySorted (fun a b => lt b a = false) run ->
  exists l1 l2,
    run = l1 ++ l2
    /\ Forall (fun y => lt x y = false) l1
    /\ Forall (fun y => lt x y = true) l2.
Proof.
  intros Hx. induction run as [|y run IH]; intros Hg Hs.
  - exists [], []. by repeat split.
  - apply Forall_cons in Hg as [Hy Hg].
    apply StronglySorted_inv in Hs as [Hs Hall].
    destruct (lt x y) eqn:Hxy.
    + exists [], (y :: run). split; [done|]. split; [done|].
      constructor; [done|].
      rewrite Forall_forall in Hall, Hg. apply Forall_forall. intros z Hz.
      destruct (lt x z) eqn:Hxz; [done|].
      rewrite (ge_trans x z y) in Hxy; try done; auto.
    + destruct (IH Hg Hs) as (l1 & l2 & -> & H1 & H2).
      exists (y :: l1), l2. split; [done|]. split; [by constructor | done].
Qed.

Lemma bisect_place (x : A) (l1 l2 : list A) (fuel : nat) :
  Forall (fun y => lt x y = false) l1 ->
  Forall (fun y => lt x y = true) l2 ->
  forall l r,
    (l <= List.length l1 <= r)%nat -> (r <= List.length (l1 ++ l2))%nat ->
    (l < r)%nat -> (r - l <= fuel)%nat ->
    bisect lt fuel x (l1 ++ l2) l r = List.length l1.
Proof.
  intros H1 H2. induction fuel as [|fuel IH]; intros l r Hl Hr Hlr Hfuel; [lia|].
  cbn [bisect].
  assert ((r - l) / 2 < r - l)%nat as Hhalf
    by (apply Nat.div_lt; lia).
  set (p := (l + (r - l) / 2)%nat) in *.
  assert (l <= p < r)%nat as Hp by (unfold p; lia).
  destruct (decide (p < List.length l1)%nat) as [Hin|Hout].
  - destruct (lookup_lt_is_Some_2 l1 p Hin) as [y Hy].
    rewrite (lookup_app_l_Some _ _ _ _ Hy).
    rewrite Forall_forall in H1.
    rewrite (H1 y (list_elem_of_lookup_2 _ _ _ Hy)).
    destruct (S p <? r)%nat eqn:Hcmp.
    + apply Nat.ltb_lt in Hcmp. apply IH; lia.
    + apply Nat.ltb_ge in Hcmp. lia.
  - rewrite length_app in Hr.
    assert (p - List.length l1 < List.length l2)%nat as Hin2 by lia.
    destruct (lookup_lt_is_Some_2 l2 _ Hin2) as [y Hy].
    rewrite lookup_app_r by lia. rewrite Hy.
    rewrite Forall_forall in H2.
    rewrite (H2 y (list_elem_of_lookup_2 _ _ _ Hy)).
    destruct (l <? p)%nat eqn:Hcmp.
    + apply Nat.ltb_lt in Hcmp. apply IH; try lia. rewrite length_app. lia.
    + apply Nat.ltb_ge in Hcmp. lia.
Qed.

(** On a sorted run, [insert_sorted] puts [x] behind the items that are
    not above it. *)
Lemma insert_sorted_place (x : A) (run : list A) :
  good x -> Forall good run -> StronglySorted (fun a b => lt b a = false) run ->
  exists l1 l2,
    run = l1 ++ l2
    /\ insert_sorted lt run x = l1 ++ x :: l2
    /\ Forall (fun y => lt x y = false) l1
    /\ Forall (fun y => lt x y = true) l2.
Proof.
  intros Hx Hg Hs.
  destruct (sorted_split x run Hx Hg Hs) as (l1 & l2 & -> & H1 & H2).
  exists l1, l2. split; [done|]. split; [|done].
  unfold insert_sorted.
  assert (bisect lt (List.length (l1 ++ l2)) x (l1 ++ l2) 0 (List.length (l1 ++ l2))
          = List.length l1) as ->.
  { destruct (decide (List.length (l1 ++ l2) = 0%nat)) as [Hz|Hnz].
    - rewrite Hz. rewrite length_app in Hz. simpl. lia.
    - apply bisect_place; try done; rewrite ?length_app in *; lia. }
  by rewrite take_app_length, drop_app_length.
Qed.

Lemma insert_sorted_asc (x : A) (run : list A) :
  good x -> Forall good run -> StronglySorted (fun a b => lt b a = false) run -> StronglySorted (fun a b => lt b a = false) (insert_sorted lt run x).
Proof.
  intros Hx Hg Hs.
  destruct (insert_sorted_place x run Hx Hg Hs) as (l1 & l2 & -> & -> & H1 & H2).
  apply StronglySorted_app_inv in Hs as (Hs1 & Hs2 & H12).
  apply Forall_app in Hg as [Hg1 Hg2].
  apply StronglySorted_app; [done| |].
  - constructor; [done|]. rewrite Forall_forall in H2, Hg2.
    apply Forall_forall. intros b Hb. apply lt_asym; auto.
  - intros a b Ha Hb. apply elem_of_cons in Hb as [->|Hb]; [|by apply H12].
    rewrite Forall_forall in H1. by apply H1.
Qed.

Lemma insert_sorted_stable (x : A) (run : list A) :
  good x -> Forall good run -> StronglySorted (fun a b => lt b a = false) run ->
  List.filter cls (insert_sorted lt run x) = List.filter cls (run ++ [x]).
Proof.
  intros Hx Hg Hs.
  destruct (insert_sorted_place x run Hx Hg Hs) as (l1 & l2 & -> & -> & H1 & H2).
  rewrite <- app_assoc. rewrite !List.filter_app. f_equal.
  cbn [List.filter]. destruct (cls x) eqn:Hpx; [|by rewrite app_nil_r].
  assert (List.filter cls l2 = []) as ->; [|done].
  apply Forall_app in Hg as [_ Hg2]. clear Hs.
  induction l2 as [|y l2 IH]; [done|].
  apply Forall_cons in H2 as [Hxy H2]. apply Forall_cons in Hg2 as [Hy Hg2].
  cbn [List.filter]. destruct (cls y) eqn:Hpy; [|by apply IH].
  rewrite (same_key x y) in Hxy; done.
Qed.

Lemma binarysort_spec (rest : list A) :
  forall run,
    Forall good run -> Forall good rest -> StronglySorted (fun a b => lt b a = false) run ->
    StronglySorted (fun a b => lt b a = false) (binarysort lt run rest)
    /\ List.filter cls (binarysort lt run rest) = List.filter cls (run ++ rest).
Proof.
  induction rest as [|x rest IH]; intros run Hg Hgr Hs.
  - simpl. by rewrite app_nil_r.
  - apply Forall_cons in Hgr as [Hx Hgr].
    unfold binarysort in *. cbn [foldl].
    destruct (IH (insert_sorted lt run x)) as [Hasc Hfil].
    + rewrite (insert_sorted_Permutation lt run x). by constructor.
    + done.
    + by apply insert_sorted_asc.
    + split; [done|]. rewrite Hfil, !List.filter_app.
      rewrite insert_sorted_stable by done.
      rewrite List.filter_app, <- app_assoc. cbn [List.filter].
      by destruct (cls x).
Qed.

(** The ascending run a list starts with. *)
Lemma run_asc_sorted (l : list A) :
  forall acc prev,
    Forall good (acc ++ prev :: l) -> StronglySorted (fun a b => lt b a = false) (acc ++ [prev]) ->
    StronglySorted (fun a b => lt b a = false) (acc ++ prev :: take (run_asc lt prev l) l).
Proof.
  induction l as [|x l IH]; intros acc prev Hg Hs; [done|].
  cbn [run_asc]. destruct (lt x prev) eqn:Hlt; [done|].
  cbn [take].
  replace (acc ++ prev :: x :: take (run_asc lt x l) l)
    with ((acc ++ [prev]) ++ x :: take (run_asc lt x l) l)
    by (by rewrite <- app_assoc).
  apply IH; [by rewrite <- app_assoc|].
  apply StronglySorted_snoc; [done|].
  apply StronglySorted_app_inv in Hs as (_ & _ & Hlast).
  rewrite Forall_forall in Hg.
  assert (good x) as Hx
    by (apply Hg; rewrite !elem_of_app, !elem_of_cons; auto).
  assert (good prev) as Hprev
    by (apply Hg; rewrite !elem_of_app, !elem_of_cons; auto).
  apply Forall_app. split; [|by repeat constructor].
  apply Forall_forall. intros a Ha.
  apply (ge_trans x prev a); try done.
  - apply Hg. rewrite elem_of_app. by left.
  - apply Hlast; [done|]. by apply list_elem_of_singleton.
Qed.

(** The strictly descending run a list starts with. *)
Lemma run_desc_sorted (l : list A) :
  forall acc prev,
    Forall good (acc ++ prev :: l) -> StronglySorted (fun a b => lt b a = true) (acc ++ [prev]) ->
    StronglySorted (fun a b => lt b a = true) (acc ++ prev :: take (run_desc lt prev l) l).
Proof.
  induction l as [|x l IH]; intros acc prev Hg Hs; [done|].
  cbn [run_desc]. destruct (lt x prev) eqn:Hlt; [|done].
  cbn [take].
  replace (acc ++ prev :: x :: take (run_desc lt x l) l)
    with ((acc ++ [prev]) ++ x :: take (run_desc lt x l) l)
    by (by rewrite <- app_assoc).
  apply IH; [by rewrite <- app_assoc|].
  apply StronglySorted_snoc; [done|].
  apply StronglySorted_app_inv in Hs as (_ & _ & Hlast).
  rewrite Forall_forall in Hg.
  assert (good x) as Hx
    by (apply Hg; rewrite !elem_of_app, !elem_of_cons; auto).
  assert (good prev) as Hprev
    by (apply Hg; rewrite !elem_of_app, !elem_of_cons; auto).
  apply Forall_app. split; [|by repeat constructor].
  apply Forall_forall. intros a Ha.
  apply (lt_trans x prev a); try done.
  - apply Hg. rewrite elem_of_app. by left.
  - apply Hlast; [done|]. by apply list_elem_of_singleton.
Qed.

Lemma StronglySorted_good_impl (R R' : A -> A -> Prop) (l : list A) :
  (forall a b, good a -> good b -> R a b -> R' a b) ->
  Forall good l -> StronglySorted R l -> StronglySorted R' l.
Proof.
  intros Himpl Hg Hs. induction Hs as [|a l Hs IH Ha]; [constructor|].
  apply Forall_cons in Hg as [Hga Hg].
  constructor; [by apply IH|].
  rewrite Forall_forall in Ha, Hg. apply Forall_forall. intros b Hb.
  apply Himpl; auto.
Qed.

(** A strictly descending run has one item of a key at most, so that
    reversing it moves no item past one of its key. *)
Lemma strict_desc_one (l : list A) :
  Forall good l -> StronglySorted (fun a b => lt b a = true) l ->
  (List.length (List.filter cls l) <= 1)%nat.
Proof.
  intros Hg Hs. induction Hs as [|a l Hs IH Ha]; [simpl; lia|].
  apply Forall_cons in Hg as [Hga Hg].
  cbn [List.filter]. destruct (cls a) eqn:Hpa; [|by apply IH].
  assert (List.filter cls l = []) as ->; [|simpl; lia].
  clear IH Hs. induction l as [|b l IH]; [done|].
  apply Forall_cons in Hg as [Hgb Hg]. apply Forall_cons in Ha as [Hba Ha].
  cbn [List.filter]. destruct (cls b) eqn:Hpb; [|by apply IH].
  rewrite (same_key b a) in Hba; done.
Qed.

Lemma strict_desc_rev (l : list A) :
  Forall good l -> StronglySorted (fun a b => lt b a = true) l ->
  StronglySorted (fun a b => lt b a = false) (rev l) /\ List.filter cls (rev l) = List.filter cls l.
Proof.
  intros Hg Hs. split.
  - apply StronglySorted_rev in Hs.
    eapply StronglySorted_good_impl; [| |exact Hs].
    + intros a b Ha Hb Hab. simpl in Hab. by apply lt_asym.
    + apply Forall_forall. intros a Ha. rewrite Forall_forall in Hg.
      apply Hg. by apply elem_of_rev.
  - rewrite List.filter_rev.
    pose proof (strict_desc_one l Hg Hs) as Hone.
    destruct (List.filter cls l) as [|a [|b f]]; [done | done | simpl in Hone; lia].
Qed.

(** The run [sort_run] starts from: sorted, its items in the order they
    had as far as one key goes. *)
Lemma first_run (l : list A) :
  Forall good l ->
  let n := (count_run lt l).1 in
  let run := if (count_run lt l).2 then rev (take n l) else take n l in
  StronglySorted (fun a b => lt b a = false) run /\ List.filter cls run = List.filter cls (take n l).
Proof.
  intros Hg. destruct l as [|x0 [|x1 rest]].
  - simpl. split; [constructor | done].
  - simpl. split; [repeat constructor | done].
  - cbn [count_run]. destruct (lt x1 x0) eqn:Hlt; cbn [fst snd].
    + cbn [take]. apply strict_desc_rev.
      * apply Forall_forall. intros a Ha. rewrite Forall_forall in Hg.
        apply Hg. apply elem_of_cons in Ha as [->|Ha]; [by left|].
        apply elem_of_cons in Ha as [->|Ha]; [right; by left|].
        right. right. by eapply elem_of_take_in.
      * apply (run_desc_sorted rest [x0] x1); [done|].
        repeat constructor. done.
    + cbn [take]. split; [|done].
      apply (run_asc_sorted rest [x0] x1); [done|].
      repeat constructor. done.
Qed.

(** The sort by ascending key: sorted, the items of one key in the order
    they had. *)
Lemma sort_run_spec (l : list A) :
  Forall good l ->
  StronglySorted (fun a b => lt b a = false) (sort_run lt l) /\ List.filter cls (sort_run lt l) = List.filter cls l.
Proof.
  intros Hg. unfold sort_run.
  destruct l as [|x0 [|x1 rest]];
    [split; [constructor | done] | split; [repeat constructor | done] |].
  set (l := x0 :: x1 :: rest) in *.
  destruct (first_run l Hg) as [Hasc Hfil].
  assert (Forall good (take (count_run lt l).1 l)) as Hgt.
  { apply Forall_forall. intros a Ha. rewrite Forall_forall in Hg.
    apply Hg. by eapply elem_of_take_in. }
  assert (Forall good (drop (count_run lt l).1 l)) as Hgd.
  { apply Forall_forall. intros a Ha. rewrite Forall_forall in Hg.
    apply Hg. by eapply elem_of_drop_in. }
  destruct (binarysort_spec (drop (count_run lt l).1 l)
              (if (count_run lt l).2 then rev (take (count_run lt l).1 l)
               else take (count_run lt l).1 l)) as [Hs Hf]; try done.
  { destruct (count_run lt l).2; [|done].
    apply Forall_forall. intros a Ha. rewrite Forall_forall in Hgt.
    apply Hgt. by apply elem_of_rev. }
  split; [done|].
  rewrite Hf, List.filter_app, Hfil, <- List.filter_app. by rewrite take_drop.
Qed.

(** [l.sort(key=..., reverse=True)] on items that are all [good]: no item
    stands before one of a greater key, and the items of one key keep
    their order. *)
Lemma list_sort_reverse_spec (l : list A) :
  Forall good l ->
  StronglySorted (fun a b => lt a b = false) (list_sort lt true l)
  /\ List.filter cls (list_sort lt true l) = List.filter cls l.
Proof.
  intros Hg. unfold list_sort.
  assert (Forall good (rev l)) as Hgr.
  { apply Forall_forall. intros a Ha. rewrite Forall_forall in Hg.
    apply Hg. by apply elem_of_rev. }
  destruct (sort_run_spec (rev l) Hgr) as [Hs Hf].
  split.
  - by apply StronglySorted_rev in Hs.
  - by rewrite List.filter_rev, Hf, List.filter_rev, rev_involutive.
Qed.

End Total.
End ListSortFacts.

Module FloatFacts.
Import PyFloat.

Lemma lt_asym (a b : t) : lt a b = true -> lt b a = false.
Proof.
  destruct a as [x| | |], b as [y| | |]; simpl; try done.
  intros H. apply negb_true_iff in H. apply negb_false_iff, Qle_bool_iff.
  apply Qlt_le_weak, Qnot_le_lt. intros Hle. apply Qle_bool_iff in Hle. congruence.
Qed.

(** Without [nan], "not below" is transitive. *)
Lemma ge_trans (a b c : t) :
  is_nan a = false -> is_nan b = false -> is_nan c = false ->
  lt a b = false -> lt b c = false -> lt a c = false.
Proof.
  destruct a as [x| | |], b as [y| | |], c as [z| | |]; simpl; try done.
  intros _ _ _ Hab Hbc.
  apply negb_false_iff, Qle_bool_iff in Hab, Hbc.
  apply negb_false_iff, Qle_bool_iff. by eapply Qle_trans.
Qed.

(** Two floats equal to a third are not below one another. *)
Lemma eqb_not_lt (a b c : t) : eqb a c = true -> eqb b c = true -> lt a b = false.
Proof.
  destruct a as [x| | |], b as [y| | |], c as [z| | |]; simpl; try done.
  intros Ha Hb. apply Qeq_bool_iff in Ha, Hb.
  apply negb_false_iff, Qle_bool_iff. rewrite Ha, Hb. apply Qle_refl.
Qed.

End FloatFacts.

Module SearchFacts.
Import SemanticSearch.

(** The ranking of entries none of which scores [nan]: no entry stands
    before one of a higher score, and the entries of one score keep their
    order. *)
Lemma ranking_spec (l : list entry) (c : PyFloat.t) :
  Forall (fun e => PyFloat.is_nan (score e) = false) l ->
  StronglySorted ranked (PySort.list_sort by_score true l)
  /\ List.filter (fun e => PyFloat.eqb (score e) c) (PySort.list_sort by_score true l)
     = List.filter (fun e => PyFloat.eqb (score e) c) l.
Proof.
  intros Hg.
  apply (ListSortFacts.list_sort_reverse_spec by_score
           (fun e => PyFloat.is_nan (score e) = false)); [| | |done].
  - intros a b _ _. apply FloatFacts.lt_asym.
  - intros a b d. apply FloatFacts.ge_trans.
  - intros a b _ _. apply FloatFacts.eqb_not_lt.
Qed.

End SearchFacts.

(** ** The generator [custom_streamer] and the loop of [fallbacks_example] *)

Module StreamFacts.
Import PyStr.

Lemma forallb_str_of_list (p : ascii -> bool) (l : list ascii) :
  forallb_str p (string_of_list_ascii l) = forallb p l.
Proof. induction l as [|c l IH]; simpl; [done|]. by rewrite IH. Qed.

Lemma flush_words (cur : list ascii) :
  forallb (fun c => negb (is_space c)) cur = true ->
  Forall is_word (flush cur).
Proof.
  intros Hcur. destruct cur as [|c cur]; [constructor|].
  unfold flush. constructor; [|constructor]. split.
  - intros H. apply (f_equal list_ascii_of_string) in H.
    rewrite list_ascii_of_string_of_list_ascii in H.
    apply (f_equal (@List.length ascii)) in H.
    rewrite length_rev in H. discriminate.
  - rewrite forallb_str_of_list, forallb_forall.
    rewrite forallb_forall in Hcur.
    intros x Hx. apply Hcur. by apply in_rev.
Qed.

Lemma split_from_words (s : string) :
  forall cur, forallb (fun c => negb (is_space c)) cur = true ->
              Forall is_word (split_from cur s).
Proof.
  induction s as [|c s IH]; intros cur Hcur; simpl.
  - by apply flush_words.
  - destruct (is_space c) eqn:Hc.
    + apply Forall_app. split; [by apply flush_words | by apply IH].
    + apply IH. simpl. by rewrite Hc.
Qed.

Lemma split_words (s : string) : Forall is_word (split s).
Proof. by apply split_from_words. Qed.

Lemma chunks_of_flat_map (words : list string) :
  chunks_of (flat_map (fun word => [Yield (word +:+ " "); Sleep 100]) words)
  = map (fun word => word +:+ " ") words.
Proof.
  induction words as [|word words IH]; [done|].
  unfold chunks_of in *. simpl. f_equal. exact IH.
Qed.

Lemma length_flat_map_pair (words : list string) :
  List.length (flat_map (fun word => [Yield (word +:+ " "); Sleep 100]) words)
  = (2 * List.length words)%nat.
Proof. induction words as [|word words IH]; simpl; [done|]. rewrite IH. lia. Qed.

Lemma sleep_follows_chunk (words : list string) (i : nat) (chunk : string) :
  flat_map (fun word => [Yield (word +:+ " "); Sleep 100]) words !! (2 * i)%nat
    = Some (Yield chunk) ->
  flat_map (fun word => [Yield (word +:+ " "); Sleep 100]) words !! (2 * i + 1)%nat
    = Some (Sleep 100).
Proof.
  revert i. induction words as [|word words IH]; intros i; [done|].
  destruct i as [|i]; [done|].
  replace (2 * S i)%nat with (S (S (2 * i))) by lia.
  replace (S (S (2 * i)) + 1)%nat with (S (S (2 * i + 1))) by lia.
  exact (IH i).
Qed.

End StreamFacts.

(** C2, as the code has it: composition, streaming of model output,
    batching and parallel execution are the framework's, but the repository
    has algorithms of its own.  [semantic_search_example] ranks the
    documents: it sorts the entries by their score with [reverse=True] and
    shows the first three of the sorted list, in the order of that list.
    The sorted list holds the entries of the unsorted one.  When no score
    is [nan], no entry stands before one of a higher score, the entries of
    any one score keep their order, and so no entry left out scores higher
    than one that is shown.
    [RobustAPIClient.invoke] re-attempts a failed call: when the first [k]
    draws fail and the next does not, with [k] below [max_retries], and
    [time.sleep] takes the [k] delays, attempt [k + 1] is the last, after
    [100 * 2 ^ j] milliseconds slept after each failed attempt [j]; it
    returns the success dict of attempt [k + 1] when the f-string of the
    data can be evaluated.
    [custom_streamer] produces its chunks itself: one per word of the
    text, the word followed by a space. *)
Theorem C2_ranking_and_retry_are_repository_code :
  (forall (embedding : Type)
          (cosine_similarity : embedding -> embedding -> PyFloat.t)
          (query : embedding) (documents : list string)
          (doc_embeddings : list embedding),
      let sims := SemanticSearch.similarities embedding cosine_similarity
                    query documents doc_embeddings in
      let sorted := SemanticSearch.ranking embedding cosine_similarity
                    query documents doc_embeddings in
      let top := SemanticSearch.top3 embedding cosine_similarity
                    query documents doc_embeddings in
      sorted = PySort.list_sort SemanticSearch.by_score true sims
      /\ top = take 3 sorted
      /\ sorted ≡ₚ sims
      /\ top ++ drop 3 sorted ≡ₚ sims
      /\ List.length top
         = Nat.min 3 (Nat.min (List.length documents) (List.length doc_embeddings))
      /\ (Forall (fun e => PyFloat.is_nan (SemanticSearch.score e) = false) sims ->
          StronglySorted SemanticSearch.ranked sorted
          /\ StronglySorted SemanticSearch.ranked top
          /\ (forall a b, a ∈ top -> b ∈ drop 3 sorted ->
                          PyFloat.lt (SemanticSearch.score a) (SemanticSearch.score b)
                          = false)
          /\ (forall c : PyFloat.t,
                List.filter (fun x => PyFloat.eqb (SemanticSearch.score x) c) sorted
                = List.filter (fun x => PyFloat.eqb (SemanticSearch.score x) c) sims)))
  /\ (forall (I : interpreter) (fails : nat -> bool) (self : RobustAPIClient.t)
             (input : pydict) (w : RobustAPIClient.world) (k : nat),
         Z.of_nat k < RobustAPIClient.max_retries self ->
         (forall j, (j < k)%nat -> fails (RobustAPIClient.draws w + j)%nat = true) ->
         fails (RobustAPIClient.draws w + k)%nat = false ->
         RobustAPIClient.sleeps I 0 k ->
         exists self' w',
           RobustAPIClient.invoke I fails self input w
             = (data <- py_format I (dict_get_none input "data") ;;
                Ok (RobustAPIClient.success_dict data (Z.of_nat k + 1)),
                self', w')
           /\ RobustAPIClient.draws w' = (RobustAPIClient.draws w + k + 1)%nat
           /\ RobustAPIClient.slept w'
              = RobustAPIClient.slept w ++ RobustAPIClient.backoff 0 k
           /\ RobustAPIClient.retries (RobustAPIClient.metrics self')
              = RobustAPIClient.retries (RobustAPIClient.metrics self) + Z.of_nat k)
  /\ (forall input text,
         dict_get input "text" (VStr "") = VStr text ->
         exists steps,
           custom_streamer input = Ok steps
           /\ chunks_of steps = map (fun word => word +:+ " ") (PyStr.split text)).
Proof.
  split; [|split]; cycle 2.
  { intros input text Htext. unfold custom_streamer. rewrite Htext.
    eexists. split; [reflexivity|]. apply StreamFacts.chunks_of_flat_map. }
  - intros embedding cos query documents doc_embeddings sims sorted top.
    assert (sorted ≡ₚ sims) as Hperm
      by apply ListSortFacts.list_sort_Permutation.
    split; [done|]. split; [done|]. split; [done|].
    unfold top, SemanticSearch.top3. fold sorted.
    split; [by rewrite take_drop|].
    split.
    + rewrite length_take, (Permutation_length Hperm).
      unfold sims, SemanticSearch.similarities.
      by rewrite length_imap, length_zip_with.
    + intros Hnan.
      assert (StronglySorted SemanticSearch.ranked sorted) as Hsorted
        by apply (SearchFacts.ranking_spec sims PyFloat.NaN Hnan).
      split; [done|].
      pose proof Hsorted as Hsplit.
      rewrite <- (take_drop 3 sorted) in Hsplit.
      apply ListSortFacts.StronglySorted_app_inv in Hsplit as (Htop & _ & Hout).
      split; [done|]. split; [exact Hout|].
      intros c. apply (SearchFacts.ranking_spec sims c Hnan).
  - intros I fails self input w k Hk Hall Hsucc Hsleeps.
    destruct (RobustAPIClient.invoke I fails self input w) as [[r self'] w'] eqn:Hrun.
    apply RobustFacts.invoke_ending in Hrun.
    destruct Hrun as [k' Hk' Hall' Hsucc' _ -> _ _ _ Hre Hd Hs
                     | Hpos Hall' _ _ _ _ _ _ _ _
                     | k' msg Hk' Hall' _ Hover _ _ _ _ _ _ _
                     | Hzero _ _ _]; simpl in *.
    + assert (k' = k) as ->.
      { destruct (lt_eq_lt_dec k' k) as [[Hlt|Heq]|Hgt]; [|done|].
        - rewrite Hall in Hsucc'; [discriminate | done].
        - rewrite Hall' in Hsucc; [discriminate | done]. }
      exists self', w'. by rewrite Z.add_0_l.
    + rewrite Hall' in Hsucc; [discriminate | lia].
    + destruct (le_lt_dec k k') as [Hle|Hgt].
      * rewrite Hall' in Hsucc; [discriminate | lia].
      * rewrite Hsleeps in Hover; [discriminate | lia].
    + lia.
Qed.

(** C2 refuted on the code: it is not true that [RobustAPIClient.invoke]
    never makes a second attempt, nor that [semantic_search_example] leaves
    the documents in their order, nor that [custom_streamer] yields nothing
    of its own.  With three failing draws the client makes three attempts;
    with scores 1/10, 9/10, 5/10, 7/10 the documents come out as second,
    fourth, third; the text [Hello world] gives two chunks. *)
Lemma C2_reattempts_and_ranks :
  ~ (forall fails self input w r self' w',
        RobustAPIClient.invoke cpython fails self input w = (r, self', w') ->
        (RobustAPIClient.draws w' <= S (RobustAPIClient.draws w))%nat)
  /\ ~ (forall (cosine_similarity : PyFloat.t -> PyFloat.t -> PyFloat.t)
               query documents doc_embeddings,
          map SemanticSearch.doc
            (SemanticSearch.top3 PyFloat.t cosine_similarity query documents
               doc_embeddings)
          = take 3 documents)
  /\ map SemanticSearch.doc
       (SemanticSearch.top3 PyFloat.t (fun _ e => e) (PyFloat.Finite 0)
          ["a"; "b"; "c"; "d"]
          [PyFloat.Finite (1 # 10); PyFloat.Finite (9 # 10);
           PyFloat.Finite (5 # 10); PyFloat.Finite (7 # 10)])
     = ["b"; "d"; "c"]
  /\ custom_streamer [("text", VStr "Hello world")]
     = Ok [Yield "Hello "; Sleep 100; Yield "world "; Sleep 100].
Proof.
  split; [|split; [|split; reflexivity]].
  - intros H.
    specialize (H (fun _ => true) (RobustAPIClient.init 3)
                  [("data", VStr "request_0")] (RobustAPIClient.mkWorld 0 [])
                  _ _ _ eq_refl).
    simpl in H. lia.
  - intros H.
    specialize (H (fun _ e => e) (PyFloat.Finite 0) ["a"; "b"; "c"; "d"]
                  [PyFloat.Finite (1 # 10); PyFloat.Finite (9 # 10);
                   PyFloat.Finite (5 # 10); PyFloat.Finite (7 # 10)]).
    vm_compute in H. discriminate.
Qed.

Module ManualRetryFacts.
Import ManualRetry.

(** On a terminal that takes every line, the loop ends within three
    passes, each pass making one draw; it stops at the first draw that does
    not fail. *)
Lemma loop_ends (fails : nat -> bool) :
  exists st,
    loop 3 reliable fails init = Some (Ok tt, st)
    /\ 0 <= attempts st <= 3
    /\ (draws st <= 3)%nat
    /\ (success st = true <-> exists k, (k < 3)%nat /\ fails k = false)
    /\ (success st = true ->
        fails (Z.to_nat (attempts st)) = false
        /\ (forall j, (j < Z.to_nat (attempts st))%nat -> fails j = true)
        /\ draws st = S (Z.to_nat (attempts st)))
    /\ (success st = false -> attempts st = 3 /\ draws st = 3%nat).
Proof.
  unfold loop, body, handler, print, unreliable_operation, init, reliable; simpl.
  destruct (fails 0%nat) eqn:H0; simpl.
  - destruct (fails 1%nat) eqn:H1; simpl.
    + destruct (fails 2%nat) eqn:H2; simpl.
      * eexists. split; [reflexivity|]. simpl.
        repeat split; try lia; try discriminate.
        intros (k & Hk & Hf).
        destruct k as [|[|[|k]]]; try lia; congruence.
      * eexists. split; [reflexivity|]. simpl.
        repeat split; try lia; try done; try discriminate.
        -- intros _. exists 2%nat. split; [lia|done].
        -- intros j Hj. destruct j as [|[|j]]; try lia; done.
    + eexists. split; [reflexivity|]. simpl.
      repeat split; try lia; try done; try discriminate.
      -- intros _. exists 1%nat. split; [lia|done].
      -- intros j Hj. destruct j as [|j]; try lia; done.
  - eexists. split; [reflexivity|]. simpl.
    repeat split; try lia; try done; try discriminate.
    intros _. exists 0%nat. split; [lia|done].
Qed.

(** One pass makes one draw, and ends with [success], with one more in
    [attempts], or with an exception. *)
Lemma body_step (out : console) (fails : nat -> bool) (st : state) :
  forall r st',
    body out fails st = (r, st') ->
    draws st' = S (draws st)
    /\ (r = Ok tt ->
        (success st' = true /\ attempts st' = attempts st)
        \/ (success st' = success st /\ attempts st' = attempts st + 1)).
Proof.
  intros r st'. unfold body, handler, print, unreliable_operation.
  destruct (fails (draws st)); simpl.
  - destruct (out (prints st)); intros [= <- <-]; simpl; split; try done;
      intros _; right; done.
  - destruct (out (prints st)) as [e|]; simpl.
    + destruct (is_Exception (exc_cls e)); simpl.
      * destruct (out (S (prints st))); intros [= <- <-]; simpl; split; try done;
          intros _; right; done.
      * intros [= <- <-]. simpl. split; [done|]. discriminate.
    + intros [= <- <-]. simpl. split; [done|]. intros _. by left.
Qed.

(** Whatever the terminal does, the loop ends, and within three draws. *)
Lemma loop_bounded (out : console) (fails : nat -> bool) :
  forall fuel st,
    0 <= attempts st <= 3 -> (Z.to_nat (3 - attempts st) <= fuel)%nat ->
    exists r st',
      loop fuel out fails st = Some (r, st')
      /\ (draws st' <= draws st + Z.to_nat (3 - attempts st))%nat.
Proof.
  induction fuel as [|fuel IH]; intros st Hatt Hfuel.
  - simpl. assert (attempts st = 3) as H3 by lia.
    rewrite H3. simpl. eexists _, _. split; [done|]. lia.
  - cbn [loop]. destruct ((attempts st <? 3) && negb (success st)) eqn:Hgo.
    + apply andb_true_iff in Hgo as [Hlt Hns]. apply Z.ltb_lt in Hlt.
      destruct (body out fails st) as [[[]|e] st1] eqn:Hbody.
      * apply body_step in Hbody as [Hd Hst]. specialize (Hst eq_refl).
        destruct Hst as [[Hs Ha]|[Hs Ha]].
        -- destruct fuel as [|fuel'].
           ++ simpl. rewrite Hs. rewrite andb_false_r.
              eexists _, _. split; [done|]. lia.
           ++ cbn [loop]. rewrite Hs, andb_false_r.
              eexists _, _. split; [done|]. lia.
        -- destruct (IH st1) as (r & st' & Hrun & Hle); [lia | lia |].
           exists r, st'. split; [done|]. lia.
      * apply body_step in Hbody as [Hd _].
        eexists _, _. split; [done|]. lia.
    + eexists _, _. split; [done|]. lia.
Qed.

End ManualRetryFacts.

(** C7, as the code has it: parallel execution and batching are the
    framework's, but two pieces of repository code stream and retry by
    themselves.  The generator [custom_streamer] yields one chunk per word
    of [text] (a maximal run of characters that are not white space), the
    word followed by a space, in order, and sleeps a tenth of a second
    after each chunk, so that its steps are: chunk, sleep, chunk, sleep,
    and so on.  The [while] loop of [fallbacks_example] calls the
    unreliable operation again after a failure: whatever the terminal does
    with the lines printed, the loop ends after three calls at most.  On a
    terminal that takes every line it stops at the first success: it ends
    with [success] exactly when one of the first three draws does not
    fail; on success the draws before the last one all failed, the last
    one did not, and no further draw is made; without success three draws
    were made and all failed. *)
Theorem C7_streaming_and_retry_in_repository_code :
  (forall input text,
      dict_get input "text" (VStr "") = VStr text ->
      exists steps,
        custom_streamer input = Ok steps
        /\ steps = flat_map (fun word => [Yield (word +:+ " "); Sleep 100])
                            (PyStr.split text)
        /\ chunks_of steps = map (fun word => word +:+ " ") (PyStr.split text)
        /\ Forall PyStr.is_word (PyStr.split text)
        /\ List.length steps = (2 * List.length (chunks_of steps))%nat
        /\ (forall i chunk,
              steps !! (2 * i)%nat = Some (Yield chunk) ->
              steps !! (2 * i + 1)%nat = Some (Sleep 100)))
  /\ (forall out fails,
        exists r st,
          ManualRetry.loop 3 out fails ManualRetry.init = Some (r, st)
          /\ (ManualRetry.draws st <= 3)%nat)
  /\ (forall fails,
        exists st,
          ManualRetry.loop 3 reliable fails ManualRetry.init = Some (Ok tt, st)
          /\ 0 <= ManualRetry.attempts st <= 3
          /\ (ManualRetry.draws st <= 3)%nat
          /\ (ManualRetry.success st = true <->
              exists k, (k < 3)%nat /\ fails k = false)
          /\ (ManualRetry.success st = true ->
              fails (Z.to_nat (ManualRetry.attempts st)) = false
              /\ (forall j, (j < Z.to_nat (ManualRetry.attempts st))%nat ->
                            fails j = true)
              /\ ManualRetry.draws st = S (Z.to_nat (ManualRetry.attempts st)))
          /\ (ManualRetry.success st = false ->
              ManualRetry.attempts st = 3 /\ ManualRetry.draws st = 3%nat
              /\ forall j, (j < 3)%nat -> fails j = true)).
Proof.
  split; [|split].
  - intros input text Htext. unfold custom_streamer. rewrite Htext.
    eexists. split; [reflexivity|]. split; [reflexivity|].
    rewrite StreamFacts.chunks_of_flat_map, StreamFacts.length_flat_map_pair.
    rewrite length_map.
    split; [done|]. split; [apply StreamFacts.split_words|]. split; [done|].
    intros i chunk. apply StreamFacts.sleep_follows_chunk.
  - intros out fails.
    destruct (ManualRetryFacts.loop_bounded out fails 3 ManualRetry.init)
      as (r & st & Hrun & Hle); [simpl; lia | simpl; lia |].
    exists r, st. split; [done|]. simpl in Hle. lia.
  - intros fails.
    destruct (ManualRetryFacts.loop_ends fails)
      as (st & Hrun & Hatt & Hdraws & Hiff & Hsucc & Hfail).
    exists st. split; [done|]. split; [done|]. split; [done|].
    split; [done|]. split; [done|].
    intros Hno. destruct (Hfail Hno) as [H3 Hd]. split; [done|]. split; [done|].
    intros j Hj. destruct (fails j) eqn:Hfj; [done|].
    assert (ManualRetry.success st = true) as Hs
      by (apply Hiff; exists j; by split).
    congruence.
Qed.

(** C7 refuted on the code: it is not true that the repository's generator
    yields no chunk of its own, nor that the repository's loop stops after
    one failed call.  [custom_streamer] yields five chunks for the text of
    the script, and the loop of [fallbacks_example] calls the operation
    three times when it keeps failing. *)
Lemma C7_generator_and_loop_are_repository_code :
  ~ (forall input steps,
        custom_streamer input = Ok steps -> chunks_of steps = [])
  /\ ~ (forall fails r st,
          ManualRetry.loop 3 reliable fails ManualRetry.init = Some (r, st) ->
          (ManualRetry.draws st <= 1)%nat).
Proof.
  split.
  - intros H.
    specialize (H [("text", VStr "Hello world from custom generator")] _ eq_refl).
    vm_compute in H. discriminate.
  - intros H. specialize (H (fun _ => true) _ _ eq_refl). simpl in H. lia.
Qed.

(** ** [sorted(d.items())] *)

Module SortFacts.

Lemma leb_trans (a b c : string) :
  String.leb a b = true -> String.leb b c = true -> String.leb a c = true.
Proof.
  unfold String.leb. intros Hab Hbc.
  destruct (String.compare a b) eqn:Eab; [|clear Hab|discriminate].
  { apply String.compare_eq_iff in Eab. by subst. }
  destruct (String.compare b c) eqn:Ebc; [|clear Hbc|discriminate].
  { apply String.compare_eq_iff in Ebc. subst. by rewrite Eab. }
  apply OrderedTypeEx.String_as_OT.cmp_lt in Eab, Ebc.
  pose proof (OrderedTypeEx.String_as_OT.lt_trans _ _ _ Eab Ebc) as Hac.
  apply OrderedTypeEx.String_as_OT.cmp_lt in Hac.
  unfold OrderedTypeEx.String_as_OT.cmp in Hac. by rewrite Hac.
Qed.

#[local] Instance item_le_trans : Transitive item_le.
Proof. intros a b c. unfold item_le. apply leb_trans. Qed.

#[local] Instance item_le_total : Total item_le.
Proof. intros a b. unfold item_le. apply String.leb_total. Qed.

Lemma same_key_same_item (d : pydict) (x y : string * pyval) :
  NoDup d.*1 -> x ∈ d -> y ∈ d -> x.1 = y.1 -> x = y.
Proof.
  induction d as [|[k v] d IH]; intros Hnd Hx Hy Hxy.
  - by apply elem_of_nil in Hx.
  - cbn [fmap list_fmap fst] in Hnd. apply NoDup_cons in Hnd as [Hk Hnd].
    apply elem_of_cons in Hx as [->|Hx]; apply elem_of_cons in Hy as [->|Hy].
    + done.
    + exfalso. apply Hk. simpl in Hxy. rewrite Hxy.
      apply list_elem_of_fmap. by exists y.
    + exfalso. apply Hk. simpl in Hxy. rewrite <- Hxy.
      apply list_elem_of_fmap. by exists x.
    + by apply IH.
Qed.

(** Two dicts with the same items, whatever the order they were inserted
    in, have the same sorted item list. *)
Lemma sorted_items_order (d1 d2 : pydict) :
  NoDup d1.*1 -> d1 ≡ₚ d2 -> sorted_items d1 = sorted_items d2.
Proof.
  intros Hnd Hperm. unfold sorted_items.
  apply (Sorted_unique_strong item_le).
  - intros x1 x2 H1 H2 H12 H21.
    rewrite merge_sort_Permutation in H1, H2. rewrite <- Hperm in H2.
    apply (same_key_same_item d1); [done..|].
    by apply String.leb_antisym.
  - apply Sorted_merge_sort, _.
  - apply Sorted_merge_sort, _.
  - by rewrite !merge_sort_Permutation.
Qed.

End SortFacts.

(** ** [CachingRunnable] *)

Module CachingFacts.
Import CachingRunnable.

Section Wrapped.

Context {R St C : Type}.
Variable run : pydict -> C -> St -> result R * St.
Variable I : interpreter.
Variable out : console.

Lemma eval_cache_key_ok (input : pydict) (key : string) :
  eval_cache_key I input = Ok key -> key = cache_key input.
Proof.
  unfold eval_cache_key. destruct (items_str_fails I _); [discriminate|].
  by intros [= <-].
Qed.

Lemma eval_cache_key_formed (input : pydict) :
  items_str_fails I (sorted_items input) = None ->
  eval_cache_key I input = Ok (cache_key input).
Proof. intros H. unfold eval_cache_key. by rewrite H. Qed.

(** A hit: the stored result comes back; the cache, the wrapped runnable's
    state and the list of its invocations stay as they are. *)
Lemma invoke_hit (self : t) (input : pydict) (config : C) (w : world) (r : R) :
  cache self !! cache_key input = Some r ->
  items_str_fails I (sorted_items input) = None ->
  out (prints w) = None ->
  invoke run I out self input config w
  = (Ok r, self,
     mkWorld (inner w) (inner_calls w) (printed w ++ ["Cache hit!"]) (S (prints w))).
Proof.
  intros H Hkey Hout. unfold invoke, print.
  by rewrite (eval_cache_key_formed _ Hkey), H, Hout.
Qed.

(** With the result in the cache, the wrapped runnable is not invoked,
    whether [invoke] returns or not. *)
Lemma invoke_cached (self : t) (input : pydict) (config : C) (w : world) (r : R) :
  cache self !! cache_key input = Some r ->
  forall res self' w',
    invoke run I out self input config w = (res, self', w') ->
    self' = self /\ inner w' = inner w /\ inner_calls w' = inner_calls w
    /\ (res = Ok r \/ is_ok res = false).
Proof.
  intros H res self' w' Hrun. unfold invoke, print in Hrun.
  destruct (eval_cache_key I input) as [key|e] eqn:Hkey.
  - apply eval_cache_key_ok in Hkey as ->. rewrite H in Hrun.
    destruct (out (prints w)); injection Hrun as <- <- <-; simpl; auto.
  - injection Hrun as <- <- <-. auto.
Qed.

(** A miss: the wrapped runnable is invoked once, with the input and the
    [config] of the call. *)
Lemma invoke_miss (self : t) (input : pydict) (config : C) (w : world) :
  cache self !! cache_key input = None ->
  items_str_fails I (sorted_items input) = None ->
  out (prints w) = None ->
  forall res self' w',
    invoke run I out self input config w = (res, self', w') ->
    res = (run input config (inner w)).1
    /\ inner w' = (run input config (inner w)).2
    /\ inner_calls w' = inner_calls w ++ [(input, config)]
    /\ cache self' = match res with
                     | Ok r => <[cache_key input := r]> (cache self)
                     | Raise _ => cache self
                     end.
Proof.
  intros H Hkey Hout res self' w' Hrun. unfold invoke, print in Hrun.
  rewrite (eval_cache_key_formed _ Hkey), H, Hout in Hrun.
  simpl in Hrun. destruct (run input config (inner w)) as [[r|e] s'];
    injection Hrun as <- <- <-; done.
Qed.

(** An entry of the cache is never replaced or removed by [invoke]. *)
Lemma invoke_keeps (self : t) (input : pydict) (config : C) (w : world)
    (k : string) (r : R) :
  cache self !! k = Some r ->
  forall res self' w',
    invoke run I out self input config w = (res, self', w') ->
    cache self' !! k = Some r.
Proof.
  intros Hk res self' w' Hrun. unfold invoke, print in Hrun.
  destruct (eval_cache_key I input) as [key|e] eqn:Hkey;
    [|by injection Hrun as <- <- <-].
  destruct (cache self !! key) as [r0|] eqn:Hc.
  - destruct (out (prints w)); by injection Hrun as <- <- <-.
  - destruct (out (prints w)); [by injection Hrun as <- <- <-|].
    simpl in Hrun.
    destruct (run input config (inner w)) as [[r1|e] s'];
      injection Hrun as <- <- <-; [|done].
    simpl. rewrite lookup_insert_ne; [done|]. congruence.
Qed.

Lemma invoke_all_keeps (calls : list (pydict * C)) :
  forall (self : t) (w : world) (k : string) (r : R),
    cache self !! k = Some r ->
    forall rs self' w',
      invoke_all run I out self calls w = (rs, self', w') ->
      cache self' !! k = Some r.
Proof.
  induction calls as [|[input config] rest IH]; intros self w k r Hk rs self' w' Hrun.
  - simpl in Hrun. by injection Hrun as <- <- <-.
  - simpl in Hrun.
    destruct (invoke run I out self input config w) as [[r1 self1] w1] eqn:H1.
    destruct (invoke_all run I out self1 rest w1) as [[rs2 self2] w2] eqn:H2.
    injection Hrun as <- <- <-.
    eapply IH; [|exact H2]. by eapply invoke_keeps.
Qed.

(** After an [invoke] that returned [r], [r] is stored under the key of
    its input. *)
Lemma invoke_stores (self : t) (input : pydict) (config : C) (w : world) (r : R) :
  forall self' w',
    invoke run I out self input config w = (Ok r, self', w') ->
    cache self' !! cache_key input = Some r.
Proof.
  intros self' w' Hrun. unfold invoke, print in Hrun.
  destruct (eval_cache_key I input) as [key|e] eqn:Hkey; [|discriminate].
  apply eval_cache_key_ok in Hkey as ->.
  destruct (cache self !! cache_key input) as [r0|] eqn:Hc.
  - destruct (out (prints w)); [discriminate|]. by injection Hrun as <- <- <-.
  - destruct (out (prints w)); [discriminate|]. simpl in Hrun.
    destruct (run input config (inner w)) as [[r1|e] s']; [|discriminate].
    injection Hrun as <- <- <-. simpl. apply lookup_insert_eq.
Qed.

(** The cache only grows. *)
Lemma invoke_grows (self : t) (input : pydict) (config : C) (w : world) :
  forall res self' w',
    invoke run I out self input config w = (res, self', w') ->
    cache self ⊆ cache self'.
Proof.
  intros res self' w' Hrun. apply map_subseteq_spec. intros k r Hk.
  by eapply invoke_keeps.
Qed.

End Wrapped.

(** The results for a pure wrapped function of the input, when every key
    is formed and every line printed: those of the function itself, when
    the function agrees on the inputs seen that share a key. *)
Lemma invoke_all_pure {R C} (f : pydict -> result R) (I : interpreter)
    (out : console) (calls : list (pydict * C)) :
  (forall k, out k = None) ->
  forall (seen : list pydict) (self : t) (w : world),
    Forall (fun call => items_str_fails I (sorted_items call.1) = None) calls ->
    (forall k r, cache self !! k = Some r ->
                 exists i, i ∈ seen /\ cache_key i = k /\ f i = Ok r) ->
    (forall i1 i2, i1 ∈ seen ++ calls.*1 -> i2 ∈ seen ++ calls.*1 ->
                   cache_key i1 = cache_key i2 -> f i1 = f i2) ->
    (invoke_all (pure_runnable f) I out self calls w).1.1 = map (fun call => f call.1) calls.
Proof.
  intros Hout.
  induction calls as [|[input config] rest IH];
    intros seen self w Hkeys Hinv Hagree; [done|].
  apply Forall_cons in Hkeys as [Hkey Hkeys]. simpl in Hkey.
  cbn [invoke_all].
  destruct (invoke (pure_runnable f) I out self input config w)
    as [[r1 self1] w1] eqn:H1.
  specialize (IH (seen ++ [input]) self1 w1 Hkeys).
  destruct (invoke_all (pure_runnable f) I out self1 rest w1)
    as [[rs2 self2] w2] eqn:H2.
  cbn [fst snd map] in *.
  assert (input ∈ seen ++ input :: rest.*1) as Hin
    by (apply elem_of_app; right; apply elem_of_cons; by left).
  unfold invoke, print, pure_runnable in H1.
  rewrite (eval_cache_key_formed _ _ Hkey), Hout in H1.
  destruct (cache self !! cache_key input) as [r0|] eqn:Hc.
  - injection H1 as <- <- <-.
    destruct (Hinv _ _ Hc) as (i & Hi & Hki & Hfi).
    f_equal.
    + rewrite <- Hfi. apply Hagree; [|done|done].
      apply elem_of_app. by left.
    + apply IH.
      * intros k r Hk. destruct (Hinv _ _ Hk) as (i' & Hi' & Hk' & Hf').
        exists i'. split; [|done]. apply elem_of_app. by left.
      * intros i1 i2. rewrite <- app_assoc. simpl. apply Hagree.
  - simpl in H1. destruct (f input) as [r|e] eqn:Hf; injection H1 as <- <- <-.
    + f_equal. apply IH.
      * intros k r' Hk. simpl in Hk.
        destruct (decide (cache_key input = k)) as [<-|Hne].
        -- rewrite lookup_insert_eq in Hk. injection Hk as <-.
           exists input. split; [|done].
           apply elem_of_app. right. by apply list_elem_of_singleton.
        -- rewrite lookup_insert_ne in Hk by done.
           destruct (Hinv _ _ Hk) as (i' & Hi' & Hk' & Hf').
           exists i'. split; [|done]. apply elem_of_app. by left.
      * intros i1 i2. rewrite <- app_assoc. simpl. apply Hagree.
    + f_equal. apply IH.
      * intros k r' Hk. destruct (Hinv _ _ Hk) as (i' & Hi' & Hk' & Hf').
        exists i'. split; [|done]. apply elem_of_app. by left.
      * intros i1 i2. rewrite <- app_assoc. simpl. apply Hagree.
Qed.

End CachingFacts.

(** C9, as the code has it.  When an [invoke] has returned a result, a
    later [invoke] (whatever was invoked in between, and whatever [config]
    it is called with) with an input that forms the same cache key does not
    call the wrapped runnable: its state and the list of its invocations
    stay as they are, and so does the cache.  It returns exactly that
    result once its key is formed and its line printed; otherwise the
    exception of [str] or of [print] leaves [invoke].  When the wrapped
    runnable is a pure function of its input alone that gives equal results
    on the inputs of the run that share a cache key, every key is formed
    and every line printed, the results of the caching runnable are those
    of the function itself.  [clear_cache] gives the empty cache the
    runnable starts with.  Two dicts with the same items form the same
    cache key, whatever the order of insertion. *)
Theorem C9_cache_hits_and_pure_results :
  (forall (R S C : Type) (run : pydict -> C -> S -> result R * S)
          (I : interpreter) (out : console)
          (self : CachingRunnable.t) (i1 : pydict) (c1 : C)
          (w : CachingRunnable.world)
          (r1 : R) self1 w1 (between : list (pydict * C)) rs self2 w2
          (i2 : pydict) (c2 : C),
      CachingRunnable.invoke run I out self i1 c1 w = (Ok r1, self1, w1) ->
      CachingRunnable.invoke_all run I out self1 between w1 = (rs, self2, w2) ->
      CachingRunnable.cache_key i2 = CachingRunnable.cache_key i1 ->
      exists r3 w3,
        CachingRunnable.invoke run I out self2 i2 c2 w2 = (r3, self2, w3)
        /\ CachingRunnable.inner w3 = CachingRunnable.inner w2
        /\ CachingRunnable.inner_calls w3 = CachingRunnable.inner_calls w2
        /\ (r3 = Ok r1 \/ is_ok r3 = false)
        /\ (items_str_fails I (sorted_items i2) = None ->
            out (CachingRunnable.prints w2) = None ->
            r3 = Ok r1))
  /\ (forall (R C : Type) (f : pydict -> result R) (I : interpreter)
             (out : console) (calls : list (pydict * C))
             (w : CachingRunnable.world),
         (forall k, out k = None) ->
         Forall (fun call => items_str_fails I (sorted_items call.1) = None) calls ->
         (forall i1 i2, i1 ∈ calls.*1 -> i2 ∈ calls.*1 ->
                        CachingRunnable.cache_key i1 = CachingRunnable.cache_key i2 ->
                        f i1 = f i2) ->
         (CachingRunnable.invoke_all (CachingRunnable.pure_runnable f) I out
            CachingRunnable.init calls w).1.1 = map (fun call => f call.1) calls)
  /\ (forall (R : Type) (self : @CachingRunnable.t R),
         CachingRunnable.clear_cache self = CachingRunnable.init)
  /\ (forall (I : interpreter) (d1 d2 : pydict),
         NoDup d1.*1 -> d1 ≡ₚ d2 ->
         CachingRunnable.cache_key d1 = CachingRunnable.cache_key d2
         /\ CachingRunnable.eval_cache_key I d1 = CachingRunnable.eval_cache_key I d2).
Proof.
  split; [|split; [|split]]; cycle 3.
  { intros I d1 d2 Hnd Hperm.
    unfold CachingRunnable.eval_cache_key, CachingRunnable.cache_key.
    by rewrite (SortFacts.sorted_items_order d1 d2). }
  - intros R S C run I out self i1 c1 w r1 self1 w1 between rs self2 w2 i2 c2
      H1 Hbetween Hkey.
    assert (CachingRunnable.cache self2 !! CachingRunnable.cache_key i2 = Some r1)
      as Hstored.
    { rewrite Hkey. eapply CachingFacts.invoke_all_keeps; [|exact Hbetween].
      by eapply CachingFacts.invoke_stores. }
    destruct (CachingRunnable.invoke run I out self2 i2 c2 w2)
      as [[r3 self3] w3] eqn:H3.
    destruct (CachingFacts.invoke_cached run I out _ _ c2 w2 _ Hstored _ _ _ H3)
      as (-> & Hinner & Hcalls & Hres).
    exists r3, w3. split; [done|]. split; [done|]. split; [done|].
    split; [done|].
    intros Hformed Hout.
    rewrite (CachingFacts.invoke_hit run I out _ _ c2 w2 _ Hstored Hformed Hout) in H3.
    by injection H3 as <- _.
  - intros R C f I out calls w Hout Hkeys Hagree.
    apply (CachingFacts.invoke_all_pure f I out calls Hout []); [done| |exact Hagree].
    intros k r Hk. unfold CachingRunnable.init in Hk. simpl in Hk.
    by rewrite lookup_empty in Hk.
  - intros R self. reflexivity.
Qed.

(** C9 on the three invocations of the script: [{"data": "hello"}] twice,
    then [{"data": "world"}]. *)
Lemma C9_cache_hits_and_pure_results_witness :
  (CachingRunnable.invoke_all
     (CachingRunnable.pure_runnable (CachingRunnable.expensive_operation cpython))
     cpython reliable CachingRunnable.init
     (CachingRunnable.without_config
        [[("data", VStr "hello")]; [("data", VStr "hello")]; [("data", VStr "world")]])
     (CachingRunnable.mkWorld tt [] [] 0)).1.1
  = [Ok (VStr "Processed: hello"); Ok (VStr "Processed: hello");
     Ok (VStr "Processed: world")].
Proof.
  destruct C9_cache_hits_and_pure_results as (_ & Hpure & _ & _).
  rewrite Hpure; [reflexivity | done | by repeat constructor |].
  intros i1 i2 H1 H2 Hkey. cbn in H1, H2.
  repeat (apply elem_of_cons in H1 as [->|H1]);
    try (by apply elem_of_nil in H1);
    repeat (apply elem_of_cons in H2 as [->|H2]);
    try (by apply elem_of_nil in H2);
    try reflexivity; vm_compute in Hkey; discriminate.
Defined.

(** C9 refuted on the code.  A pure function may look at the order of the
    items, which the cache key forgets: with the function that returns the
    first key of its input, [{"a": 1, "b": 2}] and [{"b": 2, "a": 1}] form
    the same cache key; the second [invoke] returns the cached ["a"], while
    the function itself returns ["b"].  A pure function may also look at
    [config], which [invoke] hands on and the cache key leaves out: with
    the function that returns its [config], the second [invoke] of one
    input returns the [config] of the first.  And [invoke] does not return
    the stored result when the key is not formed: the second [invoke] of
    [{"data": 10 ** 4300}] raises like the first. *)
Lemma C9_insertion_order_counterexample :
  ~ (forall (f : pydict -> result pyval) (i1 i2 : pydict)
            (w : CachingRunnable.world),
        CachingRunnable.cache_key i1 = CachingRunnable.cache_key i2 ->
        (CachingRunnable.invoke_all (CachingRunnable.pure_runnable f)
           cpython reliable CachingRunnable.init
           (CachingRunnable.without_config [i1; i2]) w).1.1 = [f i1; f i2])
  /\ ~ (forall (g : pydict -> string -> result pyval) (i : pydict) (c1 c2 : string)
               (w : CachingRunnable.world),
          (CachingRunnable.invoke_all (fun input config (s : unit) => (g input config, s))
             cpython reliable CachingRunnable.init [(i, c1); (i, c2)] w).1.1
          = [g i c1; g i c2])
  /\ (CachingRunnable.invoke_all
        (CachingRunnable.pure_runnable (fun _ => Ok VNone))
        cpython reliable CachingRunnable.init
        (CachingRunnable.without_config
           [[("data", VInt (10 ^ 4300))]; [("data", VInt (10 ^ 4300))]])
        (CachingRunnable.mkWorld tt [] [] 0)).1.1
     = [Raise (str_exception digit_limit); Raise (str_exception digit_limit)].
Proof.
  split; [|split].
  - intros H.
    specialize (H (fun x => match x with
                            | [] => raise OtherException "StopIteration"
                            | (k, _) :: _ => Ok (VStr k)
                            end)
                  [("a", VInt 1); ("b", VInt 2)]
                  [("b", VInt 2); ("a", VInt 1)]
                  (CachingRunnable.mkWorld tt [] [] 0)
                  eq_refl).
    vm_compute in H. discriminate.
  - intros H.
    specialize (H (fun _ config => Ok (VStr config)) [("data", VStr "hello")]
                  "first" "second" (CachingRunnable.mkWorld tt [] [] 0)).
    vm_compute in H. discriminate.
  - vm_compute. reflexivity.
Qed.

(** ** The validators *)

Module ValidatorFacts.
Import PyStr.

Lemma lower_char_idempotent (c : ascii) : lower_char (lower_char c) = lower_char c.
Proof. destruct c as [[] [] [] [] [] [] [] []]; reflexivity. Qed.

Lemma eqb_at_lower (c : ascii) : Ascii.eqb "@" (lower_char c) = Ascii.eqb "@" c.
Proof. destruct c as [[] [] [] [] [] [] [] []]; reflexivity. Qed.

Lemma eqb_dot_lower (c : ascii) : Ascii.eqb "." (lower_char c) = Ascii.eqb "." c.
Proof. destruct c as [[] [] [] [] [] [] [] []]; reflexivity. Qed.

Lemma lower_idempotent (s : string) : lower (lower s) = lower s.
Proof.
  unfold lower. induction s as [|c s IH]; cbn [map_str]; [done|].
  by rewrite lower_char_idempotent, IH.
Qed.

Lemma contains_at_lower (s : string) :
  contains_char "@" (lower s) = contains_char "@" s.
Proof.
  unfold contains_char, lower.
  induction s as [|c s IH]; cbn [existsb_str map_str]; [done|].
  by rewrite eqb_at_lower, IH.
Qed.

Lemma contains_dot_lower (s : string) :
  contains_char "." (lower s) = contains_char "." s.
Proof.
  unfold contains_char, lower.
  induction s as [|c s IH]; cbn [existsb_str map_str]; [done|].
  by rewrite eqb_dot_lower, IH.
Qed.

Lemma length_lower (s : string) : String.length (lower s) = String.length s.
Proof.
  unfold lower. induction s as [|c s IH]; simpl; [done|]. by rewrite IH.
Qed.

Lemma isalnum_iff (s : string) :
  isalnum s = true <-> s <> "" /\ forallb_str is_alnum s = true.
Proof.
  destruct s as [|c s]; simpl.
  - split; [discriminate | intros [H _]; done].
  - split; [intros H; split; [discriminate | done] | intros [_ H]; done].
Qed.

Lemma forallb_remove_underscores (s : string) :
  forallb_str is_alnum (remove_char "_" s)
  = forallb_str (fun c => is_alnum c || Ascii.eqb "_" c) s.
Proof.
  induction s as [|c s IH]; [done|].
  cbn [remove_char forallb_str].
  destruct (Ascii.eqb "_" c) eqn:Hc; cbn [forallb_str].
  - by rewrite orb_true_r, IH.
  - by rewrite orb_false_r, IH.
Qed.

Lemma remove_underscores_nonempty (s : string) :
  remove_char "_" s <> "" <->
  existsb_str (fun c => negb (Ascii.eqb "_" c)) s = true.
Proof.
  induction s as [|c s IH]; [split; [done | discriminate]|].
  cbn [remove_char existsb_str].
  destruct (Ascii.eqb "_" c) eqn:Hc; cbn [negb orb]; [exact IH|].
  split; [done | discriminate].
Qed.

(** What is left after the underscores are removed is alphanumeric:
    every character is alphanumeric or an underscore, and one of them is
    not an underscore. *)
Lemma isalnum_without_underscores (s : string) :
  isalnum (remove_char "_" s) = true <->
  forallb_str (fun c => is_alnum c || Ascii.eqb "_" c) s = true
  /\ existsb_str (fun c => negb (Ascii.eqb "_" c)) s = true.
Proof.
  rewrite isalnum_iff, forallb_remove_underscores, remove_underscores_nonempty.
  tauto.
Qed.

End ValidatorFacts.

(** C5, as the code has it: the schema classes are declarations handed to
    the framework, except that [UserRegistration] and [UserProfile] carry
    validators written in the repository.  [username_alphanumeric] accepts
    a username, unchanged, exactly when all its characters are alphanumeric
    or underscores and one is not an underscore; [validate_username]
    exactly when it is not empty and all its characters are alphanumeric.
    [email_valid] accepts an email exactly when it has an [@] and a dot,
    [validate_email] exactly when it has an [@]; both return it in lower
    case, and accept their own result again.  Every other value is
    rejected with a [ValueError]. *)
Theorem C5_validators_reject_and_normalize :
  (forall v,
      (UserRegistration.username_alphanumeric v = Ok v <->
       PyStr.forallb_str (fun c => PyStr.is_alnum c || Ascii.eqb "_" c) v = true
       /\ PyStr.existsb_str (fun c => negb (Ascii.eqb "_" c)) v = true)
      /\ (UserRegistration.username_alphanumeric v = Ok v
          \/ UserRegistration.username_alphanumeric v
             = raise ValueError "Username must be alphanumeric"))
  /\ (forall v,
        (UserRegistration.email_valid v = Ok (PyStr.lower v) <->
         PyStr.contains_char "@" v = true /\ PyStr.contains_char "." v = true)
        /\ (UserRegistration.email_valid v = Ok (PyStr.lower v)
            \/ UserRegistration.email_valid v = raise ValueError "Invalid email format")
        /\ (forall v', UserRegistration.email_valid v = Ok v' ->
                       UserRegistration.email_valid v' = Ok v'))
  /\ (forall v,
        (UserProfile.validate_username v = Ok v <->
         v <> "" /\ PyStr.forallb_str PyStr.is_alnum v = true)
        /\ (UserProfile.validate_username v = Ok v
            \/ UserProfile.validate_username v
               = raise ValueError "Username must be alphanumeric"))
  /\ (forall v,
        (UserProfile.validate_email v = Ok (PyStr.lower v) <->
         PyStr.contains_char "@" v = true)
        /\ (UserProfile.validate_email v = Ok (PyStr.lower v)
            \/ UserProfile.validate_email v = raise ValueError "Invalid email")
        /\ (forall v', UserProfile.validate_email v = Ok v' ->
                       UserProfile.validate_email v' = Ok v')).
Proof.
  split; [|split; [|split]].
  - intros v. unfold UserRegistration.username_alphanumeric.
    rewrite <- ValidatorFacts.isalnum_without_underscores.
    destruct (PyStr.isalnum (PyStr.remove_char "_" v)); simpl.
    + split; [done | by left].
    + split; [split; discriminate | by right].
  - intros v. unfold UserRegistration.email_valid.
    destruct (PyStr.contains_char "@" v) eqn:Hat;
      destruct (PyStr.contains_char "." v) eqn:Hdot; simpl.
    + split; [done|]. split; [by left|].
      intros v' H. injection H as <-.
      by rewrite ValidatorFacts.contains_at_lower, ValidatorFacts.contains_dot_lower,
        Hat, Hdot, ValidatorFacts.lower_idempotent.
    + split; [split; [discriminate | intros [_ H]; discriminate]|].
      split; [by right | discriminate].
    + split; [split; [discriminate | intros [H _]; discriminate]|].
      split; [by right | discriminate].
    + split; [split; [discriminate | intros [H _]; discriminate]|].
      split; [by right | discriminate].
  - intros v. unfold UserProfile.validate_username.
    rewrite <- ValidatorFacts.isalnum_iff.
    destruct (PyStr.isalnum v); simpl.
    + split; [done | by left].
    + split; [split; discriminate | by right].
  - intros v. unfold UserProfile.validate_email.
    destruct (PyStr.contains_char "@" v) eqn:Hat; simpl.
    + split; [done|]. split; [by left|].
      intros v' H. injection H as <-.
      by rewrite ValidatorFacts.contains_at_lower, Hat, ValidatorFacts.lower_idempotent.
    + split; [split; discriminate|].
      split; [by right | discriminate].
Qed.

(** C5 refuted on the code: it is not true that the validators of the
    schema classes accept every value, nor that they return every accepted
    value as it is.  [UserRegistration] rejects the username [john doe!]
    and turns the email [JOHN@EMAIL.COM] of the script into lower case;
    [UserProfile] rejects the email [invalid-email]. *)
Lemma C5_validators_counterexample :
  ~ (forall v, is_ok (UserRegistration.username_alphanumeric v) = true)
  /\ ~ (forall v v', UserRegistration.email_valid v = Ok v' -> v' = v)
  /\ ~ (forall v, is_ok (UserProfile.validate_email v) = true).
Proof.
  split; [|split].
  - intros H. specialize (H "john doe!"). vm_compute in H. discriminate.
  - intros H. specialize (H "JOHN@EMAIL.COM" _ eq_refl).
    vm_compute in H. discriminate.
  - intros H. specialize (H "invalid-email"). vm_compute in H. discriminate.
Qed.

(** ** Error classes and state kept across invocations *)

Lemma validate_input_missing (x : pydict) :
  validate_input x = raise ValueError "Missing 'text' field" <->
  dict_lookup x "text" = None.
Proof.
  unfold validate_input, dict_getitem.
  destruct (dict_contains x "text") eqn:Hc; simpl.
  - apply dict_contains_lookup in Hc as [t Ht]. rewrite Ht. simpl.
    split; [|discriminate].
    destruct (py_len t) as [n|e] eqn:Hn; simpl.
    + destruct (n <? 5); discriminate.
    + destruct t; simpl in Hn; unfold raise in *; try discriminate;
        injection Hn as <-; discriminate.
  - apply dict_contains_false in Hc. split; done.
Qed.

Lemma validate_input_sized (x : pydict) (t : pyval) (n : Z) :
  dict_lookup x "text" = Some t -> py_len t = Ok n ->
  validate_input x
  = if n <? 5 then raise ValueError "Text too short (minimum 5 characters)"
    else Ok x.
Proof.
  intros Ht Hn. unfold validate_input, dict_getitem.
  assert (dict_contains x "text" = true) as -> by (apply dict_contains_lookup; eauto).
  rewrite Ht. simpl. rewrite Hn. reflexivity.
Qed.

Lemma validate_input_unsized (x : pydict) (t : pyval) :
  dict_lookup x "text" = Some t -> is_ok (py_len t) = false ->
  validate_input x
  = raise TypeError ("object of type '" +:+ type_name t +:+ "' has no len()").
Proof.
  intros Ht Hn. unfold validate_input, dict_getitem.
  assert (dict_contains x "text" = true) as -> by (apply dict_contains_lookup; eauto).
  rewrite Ht. simpl. destruct t; simpl in *; try discriminate; reflexivity.
Qed.

Lemma caching_invoke_grows {R S C} (run : pydict -> C -> S -> result R * S)
    (I : interpreter) (out : console)
    (self : CachingRunnable.t) (input : pydict) (config : C)
    (w : CachingRunnable.world) :
  forall res self' w',
    CachingRunnable.invoke run I out self input config w = (res, self', w') ->
    CachingRunnable.cache self ⊆ CachingRunnable.cache self'.
Proof.
  intros res self' w' Hrun. apply map_subseteq_spec. intros k r Hk.
  by eapply CachingFacts.invoke_keeps.
Qed.

(** C6, as the code has it: the functions handed to the framework are a
    few lines of straight-line logic, but they tell invalid inputs apart,
    and the custom [Runnable] classes keep state from one invocation to the
    next.  [validate_input] raises a [ValueError] for a missing [text] and
    another for a text shorter than 5, and a [TypeError] comes out for a
    [text] without a length; [safe_uppercase] raises a [TypeError] for
    anything but a string; [selective_failure] raises a [ConnectionError]
    or a [ValueError].  The counters of a [RobustAPIClient] add up over its
    invocations: [calls] counts them, [failures] grows by at most one and
    [retries] by at most [max_retries] per invocation, and no failure is
    counted without a retry; this holds whether the invocations return or
    raise.  The cache of a [CachingRunnable] only grows. *)
Theorem C6_error_classes_and_instance_state :
  (forall x, validate_input x = raise ValueError "Missing 'text' field" <->
             dict_lookup x "text" = None)
  /\ (forall x t n,
        dict_lookup x "text" = Some t -> py_len t = Ok n ->
        validate_input x
        = if n <? 5 then raise ValueError "Text too short (minimum 5 characters)"
          else Ok x)
  /\ (forall x t,
        dict_lookup x "text" = Some t -> is_ok (py_len t) = false ->
        validate_input x
        = raise TypeError ("object of type '" +:+ type_name t +:+ "' has no len()"))
  /\ (forall py_upper x,
        match x with
        | VStr s => safe_uppercase py_upper x = Ok (py_upper s)
        | _ => safe_uppercase py_upper x
               = raise TypeError ("Expected string, got " +:+ str_type x)
        end)
  /\ (forall error_type x,
        selective_failure error_type x
        = if String.eqb error_type "network"
          then raise ConnectionError "Network error (retryable)"
          else raise ValueError "Validation error (not retryable)")
  /\ (forall I fails inputs self w rs self' w',
        RobustAPIClient.invoke_all I fails self inputs w = (rs, self', w') ->
        RobustAPIClient.max_retries self' = RobustAPIClient.max_retries self
        /\ RobustAPIClient.calls (RobustAPIClient.metrics self')
           = RobustAPIClient.calls (RobustAPIClient.metrics self)
             + Z.of_nat (List.length inputs)
        /\ RobustAPIClient.failures (RobustAPIClient.metrics self)
           <= RobustAPIClient.failures (RobustAPIClient.metrics self')
           <= RobustAPIClient.failures (RobustAPIClient.metrics self)
              + Z.of_nat (List.length inputs)
        /\ RobustAPIClient.retries (RobustAPIClient.metrics self)
           <= RobustAPIClient.retries (RobustAPIClient.metrics self')
           <= RobustAPIClient.retries (RobustAPIClient.metrics self)
              + Z.of_nat (List.length inputs)
                * Z.max 0 (RobustAPIClient.max_retries self)
        /\ RobustAPIClient.failures (RobustAPIClient.metrics self')
           - RobustAPIClient.failures (RobustAPIClient.metrics self)
           <= RobustAPIClient.retries (RobustAPIClient.metrics self')
              - RobustAPIClient.retries (RobustAPIClient.metrics self))
  /\ (forall (R S C : Type) (run : pydict -> C -> S -> result R * S)
             I out self input config w res self' w',
        CachingRunnable.invoke run I out self input config w = (res, self', w') ->
        CachingRunnable.cache self ⊆ CachingRunnable.cache self').
Proof.
  split; [exact validate_input_missing|].
  split; [exact validate_input_sized|].
  split; [exact validate_input_unsized|].
  split; [intros py_upper x; destruct x; reflexivity|].
  split; [intros error_type x; unfold selective_failure;
          destruct (String.eqb error_type "network"); reflexivity|].
  split.
  - intros I fails inputs self w rs self' w' Hrun.
    apply RobustFacts.invoke_all_metrics in Hrun
      as (Hm & _ & Hc & Hf & Hr & Hfr). done.
  - intros R S C run I out self input config w res self' w'.
    apply caching_invoke_grows.
Qed.

(** C6 refuted on the code: it is not true that an invocation leaves the
    instance as it was, nor that every raised exception has the same class.
    One [invoke] of a fresh [RobustAPIClient] changes its counters, one
    [invoke] of a fresh [CachingRunnable] fills its cache,
    [selective_failure] raises a [ConnectionError] or a [ValueError], and
    in the chain of [error_propagation] a dict without [text] meets a
    [ValueError] where a number meets a [TypeError]. *)
Lemma C6_state_and_error_classes_counterexample :
  ~ (forall fails self input w r self' w',
        RobustAPIClient.invoke cpython fails self input w = (r, self', w') ->
        self' = self)
  /\ ~ (forall (f : pydict -> result pyval) self input w r self' w',
          CachingRunnable.invoke (CachingRunnable.pure_runnable f) cpython reliable
            self input (@None pydict) w
            = (r, self', w') ->
          CachingRunnable.cache self' = CachingRunnable.cache self)
  /\ ~ (forall t1 t2 x e1 e2,
          selective_failure t1 x = Raise e1 ->
          selective_failure t2 x = Raise e2 ->
          exc_cls e1 = exc_cls e2)
  /\ ~ (forall py_upper x y e1 e2,
          validate_input x = Raise e1 ->
          safe_uppercase py_upper y = Raise e2 ->
          exc_cls e1 = exc_cls e2).
Proof.
  split; [|split; [|split]]; cycle 3.
  { intros H.
    specialize (H (fun s => s) [("wrong_key", VStr "value")] (VInt 3)
                  _ _ eq_refl eq_refl).
    discriminate. }
  - intros H.
    specialize (H (fun _ => false) (RobustAPIClient.init 3)
                  [("data", VStr "request_0")] (RobustAPIClient.mkWorld 0 [])
                  _ _ _ eq_refl).
    discriminate.
  - intros H.
    specialize (H (CachingRunnable.expensive_operation cpython)
                  CachingRunnable.init
                  [("data", VStr "hello")] (CachingRunnable.mkWorld tt [] [] 0)
                  _ _ _ eq_refl).
    apply (f_equal (fun m => m !! "[('data', 'hello')]")) in H.
    vm_compute in H. discriminate.
  - intros H. specialize (H "network" "validation" [] _ _ eq_refl eq_refl).
    discriminate.
Qed.

(** ** The [main] functions *)

Module ScriptFacts.
Import Script.

Lemma and_then_trace (P : event -> Prop) (a b : action) :
  Forall P a.2 -> Forall P b.2 -> Forall P (and_then a b).2.
Proof.
  intros Ha Hb. destruct a as [[u|e] t]; simpl in *; [|done].
  apply Forall_app. by split.
Qed.

Lemma run_demos_cons (sc : script) (sur : surroundings) (prompt : string)
    (d : string) (rest : list string) (k : nat) :
  rest <> [] ->
  run_demos sc sur prompt (d :: rest) k
  = and_then (call_demo sc sur d)
      (and_then (pause sur prompt k) (run_demos sc sur prompt rest (S k))).
Proof. intros H. destruct rest; [done | reflexivity]. Qed.

(** The [try] block up to the first exception, which comes from the demo
    [name]. *)
Lemma run_demos_raise (sc : script) (sur : surroundings) (prompt : string)
    (name : string) (after : list string) (e : exception) (before : list string) :
  forall k,
    (forall d, d ∈ before -> demo_outcome sur d = None) ->
    (forall j, (j < List.length before)%nat -> input_outcome sur (k + j) = None) ->
    demo_outcome sur name = Some e ->
    run_demos sc sur prompt (before ++ name :: after) k
    = (Raise e,
       events_before sc sur prompt before ++ Call name :: demo_events sc sur name).
Proof.
  induction before as [|d before IH]; intros k Hdemos Hinputs Hname.
  - simpl. unfold call_demo. rewrite Hname. reflexivity.
  - cbn [app]. rewrite run_demos_cons by (by destruct before).
    unfold call_demo at 1. rewrite Hdemos by (apply elem_of_cons; by left).
    unfold pause. specialize (Hinputs 0%nat) as Hin0.
    rewrite Nat.add_0_r in Hin0. rewrite Hin0 by (simpl; lia).
    rewrite (IH (S k)); [simpl; rewrite <- !app_assoc; reflexivity | | | done].
    + intros d0 Hd0. apply Hdemos. apply elem_of_cons. by right.
    + intros j Hj. replace (S k + j)%nat with (k + S j)%nat by lia.
      apply Hinputs. simpl. lia.
Qed.

(** Lines that the terminal takes, and the first line it does not take. *)
Lemma print_lines_ok (out : console) (lines : list string) :
  forall k,
    (forall j, (j < List.length lines)%nat -> out (k + j)%nat = None) ->
    print_lines out k lines = (Ok tt, map Print lines).
Proof.
  induction lines as [|line rest IH]; intros k Hout; [done|].
  cbn [print_lines]. unfold print.
  specialize (Hout 0%nat) as H0. rewrite Nat.add_0_r in H0.
  rewrite H0 by (simpl; lia).
  rewrite (IH (S k)); [done|].
  intros j Hj. replace (S k + j)%nat with (k + S j)%nat by lia.
  apply Hout. simpl. lia.
Qed.

Lemma print_lines_raise (out : console) (lines : list string) (e : exception) :
  forall k n,
    (n < List.length lines)%nat ->
    (forall j, (j < n)%nat -> out (k + j)%nat = None) ->
    out (k + n)%nat = Some e ->
    print_lines out k lines = (Raise e, map Print (take n lines)).
Proof.
  induction lines as [|line rest IH]; intros k n Hn Hout He; [simpl in Hn; lia|].
  cbn [print_lines]. unfold print. destruct n as [|n].
  - rewrite Nat.add_0_r in He. by rewrite He.
  - specialize (Hout 0%nat) as H0. rewrite Nat.add_0_r in H0.
    rewrite H0 by lia.
    rewrite (IH (S k) n); [done | simpl in Hn; lia | |].
    + intros j Hj. replace (S k + j)%nat with (k + S j)%nat by lia.
      apply Hout. lia.
    + by replace (S k + n)%nat with (k + S n)%nat by lia.
Qed.

Lemma print_lines_prints (out : console) (lines : list string) :
  forall k ev, ev ∈ (print_lines out k lines).2 -> exists line, ev = Print line.
Proof.
  induction lines as [|line rest IH]; intros k ev Hev.
  - by apply elem_of_nil in Hev.
  - cbn [print_lines] in Hev. unfold print in Hev.
    destruct (out k); simpl in Hev; [by apply elem_of_nil in Hev|].
    apply elem_of_cons in Hev as [->|Hev]; [by eexists | by eapply IH].
Qed.

Lemma print_within (out : console) (k : nat) (ev : event) :
  within_interface ev = true ->
  Forall (fun ev => within_interface ev = true) (print out k ev).2.
Proof. intros H. unfold print. destruct (out k); by repeat constructor. Qed.

Lemma print_lines_within (out : console) (k : nat) (lines : list string) :
  Forall (fun ev => within_interface ev = true) (print_lines out k lines).2.
Proof.
  apply Forall_forall. intros ev Hev.
  by apply print_lines_prints in Hev as [line ->].
Qed.

Lemma handle_within (out : console) (k : nat) (h : handler) (e : exception) :
  Forall (fun ev => within_interface ev = true) (handle out k h e).2.
Proof.
  unfold handle. apply and_then_trace; [by apply print_within|].
  destruct h; [constructor | | by apply print_within].
  apply and_then_trace; [by repeat constructor | by apply print_within].
Qed.

(** The clause on a terminal that takes its lines. *)
Lemma handle_ok (out : console) (k : nat) (h : handler) (e : exception) :
  out k = None -> out (S k) = None ->
  handle out k h e = (Ok tt, handler_events h e).
Proof.
  intros Hk HSk. unfold handle, print. rewrite Hk.
  destruct h; simpl; by rewrite ?HSk.
Qed.

Lemma handle_raise (out : console) (k : nat) (h : handler) (e e' : exception) :
  out k = Some e' -> handle out k h e = (Raise e', []).
Proof. intros Hk. unfold handle, print. by rewrite Hk. Qed.

(** No call site of a demo function leaves the interface: each is an
    [os.getenv("GOOGLE_API_KEY")]. *)
Lemma sites_in_within (table : list (string * list event)) (name : string) :
  forallb (fun entry => forallb within_interface entry.2) table = true ->
  Forall (fun ev => within_interface ev = true) (sites_in table name).
Proof.
  induction table as [|[n evs] table IH]; intros Htable; [constructor|].
  cbn [forallb] in Htable. apply andb_true_iff in Htable as [Hevs Htable].
  cbn [sites_in]. destruct (String.eqb name n); [|by apply IH].
  apply Forall_forall. intros ev Hev. cbn in Hevs.
  rewrite forallb_forall in Hevs. by apply Hevs, list_elem_of_In.
Qed.

Lemma call_sites_within (sc : script) :
  In sc scripts ->
  forallb (fun entry => forallb within_interface entry.2) (call_sites sc) = true.
Proof.
  unfold scripts. simpl.
  intros H. repeat (destruct H as [<-|H]; [vm_compute; reflexivity|]). done.
Qed.

Lemma demo_events_within (sc : script) (sur : surroundings) (name : string) :
  In sc scripts ->
  Forall (fun ev => within_interface ev = true) (demo_events sc sur name).
Proof.
  intros Hsc. unfold demo_events.
  pose proof (sites_in_within (call_sites sc) name (call_sites_within sc Hsc))
    as Hsites.
  induction (demo_steps sur name) as [|st steps IH]; [constructor|].
  cbn [flat_map]. apply Forall_app. split; [|done].
  destruct st as [n| | | |]; cbn [step_events]; try by repeat constructor.
  destruct (sites_in (call_sites sc) name !! n) as [ev|] eqn:Hn; [|constructor].
  constructor; [|constructor].
  rewrite Forall_forall in Hsites. apply Hsites.
  by eapply list_elem_of_lookup_2.
Qed.

Lemma run_demos_within (sc : script) (sur : surroundings) (prompt : string)
    (names : list string) :
  In sc scripts ->
  pacing_prompt prompt = true ->
  forall k,
    Forall (fun ev => within_interface ev = true)
           (run_demos sc sur prompt names k).2.
Proof.
  intros Hsc Hprompt. induction names as [|name rest IH]; intros k.
  - constructor.
  - cbn [run_demos]. apply and_then_trace.
    + unfold call_demo. destruct (demo_outcome sur name); simpl;
        (constructor; [done|]); by apply demo_events_within.
    + destruct rest as [|name' rest']; [constructor|].
      apply and_then_trace.
      * unfold pause. destruct (input_outcome sur k); simpl; by repeat constructor.
      * apply IH.
Qed.

Lemma prompts_pace (sc : script) :
  In sc scripts -> pacing_prompt (pause_prompt sc) = true.
Proof.
  unfold scripts. simpl.
  intros H. repeat (destruct H as [<-|H]; [reflexivity|]). done.
Qed.

Lemma key_lines_say_error (sc : script) :
  In sc scripts ->
  exists line rest,
    missing_key_lines sc = line :: rest
    /\ String.prefix "Error: GOOGLE_API_KEY not found" line = true.
Proof.
  unfold scripts. simpl.
  intros H. repeat (destruct H as [<-|H]; [eexists _, _; split; reflexivity|]). done.
Qed.

(** [main] without the key. *)
Lemma main_without_key (out : console) (sc : script) (sur : surroundings) :
  truthy (getenv sur "GOOGLE_API_KEY") = false ->
  main out sc sur
  = and_then (print out 0 PrintBanner)
      (and_then (emit [Getenv "GOOGLE_API_KEY"])
         (print_lines out 1 (missing_key_lines sc))).
Proof. intros H. unfold main. by rewrite H. Qed.

(** [main] with the key. *)
Lemma main_with_key (out : console) (sc : script) (sur : surroundings) :
  truthy (getenv sur "GOOGLE_API_KEY") = true ->
  out 0%nat = None ->
  main out sc sur
  = and_then
      (emit ([PrintBanner; Getenv "GOOGLE_API_KEY"]
             ++ (if checks_numpy sc then [ImportModule "numpy"] else [])))
      (guarded out sc sur).
Proof.
  intros H Hout. unfold main, print. rewrite H, Hout. cbn [negb].
  destruct (guarded out sc sur) as [r t].
  destruct (checks_numpy sc); reflexivity.
Qed.

End ScriptFacts.

(** C10, as the code has it: for every script, when [GOOGLE_API_KEY] is
    unset or empty, [main] enters no demo function, reads no input and
    makes no model call.  When the terminal takes the welcome lines and
    the lines of the error message, [main] prints the welcome lines, reads
    the variable, prints the lines of its error message, the first of which
    says that the key was not found, and returns.  These prints stand
    before any [try]: when the terminal refuses the welcome lines or a
    line of the message, the exception of that [print] leaves [main], after
    the lines printed so far. *)
Theorem C10_missing_key_stops_main
    (out : console) (sc : Script.script) (sur : Script.surroundings) :
  In sc Script.scripts ->
  Script.environ sur !! "GOOGLE_API_KEY" = None
  \/ Script.environ sur !! "GOOGLE_API_KEY" = Some "" ->
  (exists line rest,
      Script.missing_key_lines sc = line :: rest
      /\ String.prefix "Error: GOOGLE_API_KEY not found" line = true)
  /\ (forall ev, ev ∈ (Script.main out sc sur).2 ->
                 (forall name, ev <> Script.Call name)
                 /\ (forall prompt, ev <> Script.Input prompt)
                 /\ ev <> Script.ModelCall)
  /\ ((forall k, (k <= List.length (Script.missing_key_lines sc))%nat ->
                 out k = None) ->
      Script.main out sc sur
      = (Ok tt,
         Script.PrintBanner :: Script.Getenv "GOOGLE_API_KEY"
           :: map Script.Print (Script.missing_key_lines sc)))
  /\ (forall e, out 0%nat = Some e -> Script.main out sc sur = (Raise e, []))
  /\ (forall n e,
        (n < List.length (Script.missing_key_lines sc))%nat ->
        (forall j, (j <= n)%nat -> out j = None) ->
        out (S n) = Some e ->
        Script.main out sc sur
        = (Raise e,
           Script.PrintBanner :: Script.Getenv "GOOGLE_API_KEY"
             :: map Script.Print (take n (Script.missing_key_lines sc)))).
Proof.
  intros Hsc Hkey.
  assert (Script.truthy (Script.getenv sur "GOOGLE_API_KEY") = false) as Hfalse
    by (unfold Script.getenv; by destruct Hkey as [-> | ->]).
  pose proof (ScriptFacts.main_without_key out sc sur Hfalse) as Hmain.
  split; [by apply ScriptFacts.key_lines_say_error|].
  split; [|split; [|split]].
  - rewrite Hmain. unfold Script.print. intros ev Hev.
    destruct (out 0%nat); cbn in Hev; [by apply elem_of_nil in Hev|].
    apply elem_of_cons in Hev as [->|Hev]; [done|].
    apply elem_of_cons in Hev as [->|Hev]; [done|].
    destruct (Script.print_lines out 1 (Script.missing_key_lines sc)) as [r t] eqn:Hp.
    assert (ev ∈ (Script.print_lines out 1 (Script.missing_key_lines sc)).2) as Hin
      by (by rewrite Hp).
    by apply ScriptFacts.print_lines_prints in Hin as [line ->].
  - intros Hout. rewrite Hmain. unfold Script.print.
    rewrite (Hout 0%nat) by lia.
    rewrite ScriptFacts.print_lines_ok; [done|].
    intros j Hj. apply Hout. lia.
  - intros e He. rewrite Hmain. unfold Script.print. by rewrite He.
  - intros n e Hn Hout He. rewrite Hmain. unfold Script.print.
    rewrite (Hout 0%nat) by lia.
    rewrite (ScriptFacts.print_lines_raise out _ e 1 n); [done | done | | done].
    intros j Hj. apply Hout. lia.
Qed.

(** C10 at [chains/04_conditional_chains.py] with an empty environment. *)
Lemma C10_missing_key_stops_main_witness :
  In Script.chains_04 Script.scripts
  /\ Script.main reliable Script.chains_04
       (Script.mkSurroundings ∅ (fun _ => [Script.Requesting])
          (fun _ => None) (fun _ => None))
     = (Ok tt, [Script.PrintBanner; Script.Getenv "GOOGLE_API_KEY";
                Script.Print "Error: GOOGLE_API_KEY not found!"]).
Proof.
  assert (In Script.chains_04 Script.scripts) as Hin by (simpl; tauto).
  split; [exact Hin|].
  destruct (C10_missing_key_stops_main reliable Script.chains_04
              (Script.mkSurroundings ∅ (fun _ => [Script.Requesting])
                 (fun _ => None) (fun _ => None)) Hin)
    as (_ & _ & Hok & _).
  { left. reflexivity. }
  apply Hok. reflexivity.
Defined.

(** C10 refuted on the code: [main] can raise without the key.  On a
    terminal whose encoding is ASCII, the first [print] of
    [chains/04_conditional_chains.py], a line of pictographs, raises a
    [UnicodeEncodeError]; it leaves [main], and no error message is
    printed. *)
Lemma C10_print_can_raise :
  Script.main
    (fun k => if Nat.eqb k 0
              then Some (mkExc UnicodeEncodeError
                           ("'ascii' codec can't encode characters in position 1-35: "
                            +:+ "ordinal not in range(128)"))
              else None)
    Script.chains_04
    (Script.mkSurroundings ∅ (fun _ => [Script.Requesting])
       (fun _ => None) (fun _ => None))
  = (Raise (mkExc UnicodeEncodeError
              ("'ascii' codec can't encode characters in position 1-35: "
               +:+ "ordinal not in range(128)")),
     []).
Proof. reflexivity. Qed.

(** C3, as the code has it: for every script, when the key is set, the
    welcome lines are printed and a demo function called from [main]
    raises an exception (the demos and the [input]s before it having
    returned), no further demo is entered.  If the exception is an
    instance of [Exception], the [except Exception] clause catches it and
    prints it after the events of the demos run so far; [main] returns
    when the terminal takes the lines of the clause, and when it refuses
    the first of them, the exception of that [print] leaves [main].  If the
    exception is not an instance of [Exception], it is not caught: it
    leaves [main]. *)
Theorem C3_exception_in_demo_is_caught
    (out : console) (sc : Script.script) (sur : Script.surroundings)
    (before : list string) (name : string) (after : list string) (e : exception) :
  In sc Script.scripts ->
  Script.demos sc = before ++ name :: after ->
  Script.truthy (Script.getenv sur "GOOGLE_API_KEY") = true ->
  out 0%nat = None ->
  (forall d, d ∈ before -> Script.demo_outcome sur d = None) ->
  (forall j, (j < List.length before)%nat -> Script.input_outcome sur j = None) ->
  Script.demo_outcome sur name = Some e ->
  (is_Exception (exc_cls e) = true ->
   Script.main out sc sur
   = Script.and_then
       (Script.emit
          ([Script.PrintBanner; Script.Getenv "GOOGLE_API_KEY"]
           ++ (if Script.checks_numpy sc then [Script.ImportModule "numpy"] else [])
           ++ Script.events_before sc sur (Script.pause_prompt sc) before
           ++ Script.Call name :: Script.demo_events sc sur name))
       (Script.handle out 1 (Script.on_exception sc) e)
   /\ (out 1%nat = None -> out 2%nat = None ->
       Script.main out sc sur
       = (Ok tt,
          [Script.PrintBanner; Script.Getenv "GOOGLE_API_KEY"]
          ++ (if Script.checks_numpy sc then [Script.ImportModule "numpy"] else [])
          ++ Script.events_before sc sur (Script.pause_prompt sc) before
          ++ Script.Call name :: Script.demo_events sc sur name
          ++ Script.handler_events (Script.on_exception sc) e)
       /\ Script.Print ("Error: " +:+ exc_msg e) ∈ (Script.main out sc sur).2)
   /\ (forall e', out 1%nat = Some e' ->
                  Script.main out sc sur
                  = (Raise e',
                     [Script.PrintBanner; Script.Getenv "GOOGLE_API_KEY"]
                     ++ (if Script.checks_numpy sc
                         then [Script.ImportModule "numpy"] else [])
                     ++ Script.events_before sc sur (Script.pause_prompt sc) before
                     ++ Script.Call name :: Script.demo_events sc sur name)))
  /\ (is_Exception (exc_cls e) = false ->
      Script.main out sc sur
      = (Raise e,
         [Script.PrintBanner; Script.Getenv "GOOGLE_API_KEY"]
         ++ (if Script.checks_numpy sc then [Script.ImportModule "numpy"] else [])
         ++ Script.events_before sc sur (Script.pause_prompt sc) before
         ++ Script.Call name :: Script.demo_events sc sur name)).
Proof.
  intros _ Hdemos Hkey Hbanner Hbefore Hinputs Hname.
  pose proof (ScriptFacts.main_with_key out sc sur Hkey Hbanner) as Hmain.
  assert (Script.run_demos sc sur (Script.pause_prompt sc) (Script.demos sc) 0
          = (Raise e,
             Script.events_before sc sur (Script.pause_prompt sc) before
             ++ Script.Call name :: Script.demo_events sc sur name)) as Hrun.
  { rewrite Hdemos.
    by rewrite (ScriptFacts.run_demos_raise sc sur _ name after e before 0). }
  split.
  - intros Hexc.
    assert (Script.main out sc sur
            = Script.and_then
                (Script.emit
                   ([Script.PrintBanner; Script.Getenv "GOOGLE_API_KEY"]
                    ++ (if Script.checks_numpy sc
                        then [Script.ImportModule "numpy"] else [])
                    ++ Script.events_before sc sur (Script.pause_prompt sc) before
                    ++ Script.Call name :: Script.demo_events sc sur name))
                (Script.handle out 1 (Script.on_exception sc) e)) as Heq.
    { rewrite Hmain. unfold Script.guarded. rewrite Hrun.
      unfold Script.try_except. rewrite Hexc.
      destruct (Script.handle out 1 (Script.on_exception sc) e) as [r t].
      cbn [Script.and_then Script.emit fst snd].
      by rewrite <- !app_assoc. }
    split; [exact Heq|]. split.
    + intros H1 H2.
      assert (Script.main out sc sur
              = (Ok tt,
                 [Script.PrintBanner; Script.Getenv "GOOGLE_API_KEY"]
                 ++ (if Script.checks_numpy sc
                     then [Script.ImportModule "numpy"] else [])
                 ++ Script.events_before sc sur (Script.pause_prompt sc) before
                 ++ Script.Call name :: Script.demo_events sc sur name
                 ++ Script.handler_events (Script.on_exception sc) e)) as Hok.
      { rewrite Heq, (ScriptFacts.handle_ok out 1 _ e H1 H2).
        cbn [Script.and_then Script.emit fst snd].
        by rewrite <- !app_assoc. }
      split; [exact Hok|].
      rewrite Hok. cbn [snd].
      apply elem_of_app. right. apply elem_of_app. right.
      apply elem_of_app. right. apply elem_of_cons. right.
      apply elem_of_app. right. unfold Script.handler_events.
      apply elem_of_cons. by left.
    + intros e' H1. rewrite Heq, (ScriptFacts.handle_raise out 1 _ e e' H1).
      cbn [Script.and_then Script.emit fst snd]. by rewrite app_nil_r.
  - intros Hexc. rewrite Hmain. unfold Script.guarded. rewrite Hrun.
    unfold Script.try_except. rewrite Hexc.
    cbn [Script.and_then Script.emit fst snd].
    by rewrite <- !app_assoc.
Qed.

(** C3 at [models/03_embeddings_example.py]: the third demo raises a
    [ValueError]. *)
Lemma C3_exception_in_demo_is_caught_witness :
  Script.main reliable Script.models_03
    (Script.mkSurroundings {["GOOGLE_API_KEY" := "key"]}
       (fun _ => [Script.AtSite 0; Script.Requesting])
       (fun d => if String.eqb d "semantic_search_example"
                 then Some (mkExc ValueError "boom") else None)
       (fun _ => None))
  = (Ok tt,
     [Script.PrintBanner; Script.Getenv "GOOGLE_API_KEY"; Script.ImportModule "numpy";
      Script.Call "basic_embedding_example"; Script.Getenv "GOOGLE_API_KEY";
      Script.ModelCall;
      Script.Input "Press Enter to continue...";
      Script.Call "similarity_comparison"; Script.Getenv "GOOGLE_API_KEY";
      Script.ModelCall;
      Script.Input "Press Enter to continue...";
      Script.Call "semantic_search_example"; Script.Getenv "GOOGLE_API_KEY";
      Script.ModelCall;
      Script.Print "Error: boom";
      Script.Print "Make sure your GOOGLE_API_KEY is valid!"]).
Proof.
  refine (proj1 (proj1 (proj2 (proj1
            (C3_exception_in_demo_is_caught reliable Script.models_03 _
               ["basic_embedding_example"; "similarity_comparison"]
               "semantic_search_example"
               ["practical_use_case"; "batch_embedding_example"]
               (mkExc ValueError "boom") _ _ _ _ _ _ _) _)) _ _)).
  - simpl. tauto.
  - reflexivity.
  - reflexivity.
  - reflexivity.
  - intros d Hd. simpl.
    apply elem_of_cons in Hd as [->|Hd]; [reflexivity|].
    apply elem_of_cons in Hd as [->|Hd]; [reflexivity|].
    by apply elem_of_nil in Hd.
  - reflexivity.
  - reflexivity.
  - reflexivity.
  - reflexivity.
  - reflexivity.
Defined.

(** C3 refuted on the code: an exception that is not an instance of
    [Exception] passes the [except Exception] clause.  When the first demo
    of [chains/04_conditional_chains.py] is interrupted from the keyboard,
    [main] does not return: the [KeyboardInterrupt] leaves it. *)
Lemma C3_keyboard_interrupt_counterexample :
  ~ (forall out sc sur before name after e,
        In sc Script.scripts ->
        Script.demos sc = before ++ name :: after ->
        Script.truthy (Script.getenv sur "GOOGLE_API_KEY") = true ->
        out 0%nat = None ->
        (forall d, d ∈ before -> Script.demo_outcome sur d = None) ->
        (forall j, (j < List.length before)%nat -> Script.input_outcome sur j = None) ->
        Script.demo_outcome sur name = Some e ->
        (Script.main out sc sur).1 = Ok tt).
Proof.
  intros H.
  specialize (H reliable Script.chains_04
                (Script.mkSurroundings {["GOOGLE_API_KEY" := "key"]}
                   (fun _ => [])
                   (fun _ => Some (mkExc KeyboardInterrupt ""))
                   (fun _ => None))
                [] "basic_conditional"
                ["multi_condition_routing"; "intent_based_routing"; "fallback_chains";
                 "context_based_branching"; "dynamic_chain_selection";
                 "multi_stage_conditional"; "conditional_with_metadata"]
                (mkExc KeyboardInterrupt "")).
  assert ((Script.main reliable Script.chains_04
             (Script.mkSurroundings {["GOOGLE_API_KEY" := "key"]}
                (fun _ => []) (fun _ => Some (mkExc KeyboardInterrupt ""))
                (fun _ => None))).1
          = Raise (mkExc KeyboardInterrupt "")) as Hraise by reflexivity.
  rewrite Hraise in H.
  assert (Raise (mkExc KeyboardInterrupt "") = @Ok unit tt) as Habs; [|discriminate].
  apply H; try reflexivity.
  - simpl. tauto.
  - intros d Hd. by apply elem_of_nil in Hd.
Qed.

(** C4: for every script, whatever the terminal does, whatever steps the
    demo functions take and however they and the [input]s end, the run of
    the script (the [load_dotenv()] of the module, then [main]) stays
    within the interface: every [os.getenv] of the run reads
    [GOOGLE_API_KEY], every [input] of the run shows a prompt that starts
    with [Press Enter to continue], and no event of the run writes a file.
    The calls of [os.getenv], [input] and [open] in the demo functions are
    those of the sources: each is an [os.getenv("GOOGLE_API_KEY")]. *)
Theorem C4_only_api_key_and_pacing_prompts
    (out : console) (sc : Script.script) (sur : Script.surroundings) :
  In sc Script.scripts ->
  Forall (fun ev => Script.within_interface ev = true) (Script.run out sc sur).2
  /\ (forall name, Script.Getenv name ∈ (Script.run out sc sur).2 ->
                   name = "GOOGLE_API_KEY")
  /\ (forall prompt, Script.Input prompt ∈ (Script.run out sc sur).2 ->
                     String.prefix "Press Enter to continue" prompt = true)
  /\ (forall path, Script.WriteFile path ∉ (Script.run out sc sur).2).
Proof.
  intros Hsc.
  assert (Forall (fun ev => Script.within_interface ev = true)
                 (Script.run out sc sur).2) as Hall.
  { unfold Script.run, Script.main.
    apply ScriptFacts.and_then_trace; [by repeat constructor|].
    apply ScriptFacts.and_then_trace; [by apply ScriptFacts.print_within|].
    apply ScriptFacts.and_then_trace; [by repeat constructor|].
    destruct (negb (Script.truthy (Script.getenv sur "GOOGLE_API_KEY"))).
    { apply ScriptFacts.print_lines_within. }
    apply ScriptFacts.and_then_trace.
    { destruct (Script.checks_numpy sc); by repeat constructor. }
    pose proof (ScriptFacts.run_demos_within sc sur (Script.pause_prompt sc)
                  (Script.demos sc) Hsc (ScriptFacts.prompts_pace sc Hsc) 0%nat)
      as Hrun.
    unfold Script.guarded, Script.try_except.
    destruct (Script.run_demos sc sur (Script.pause_prompt sc) (Script.demos sc) 0)
      as [[u|e] t]; cbn [snd] in Hrun.
    - apply ScriptFacts.and_then_trace; [done|].
      unfold Script.print at 1.
      destruct (out 1%nat) as [e|]; [|by repeat constructor].
      destruct (is_Exception (exc_cls e)); [|constructor].
      apply ScriptFacts.and_then_trace; [constructor|].
      apply ScriptFacts.handle_within.
    - destruct (is_Exception (exc_cls e)); [|done].
      apply ScriptFacts.and_then_trace; [done|].
      apply ScriptFacts.handle_within. }
  split; [exact Hall|].
  rewrite Forall_forall in Hall.
  split; [|split].
  - intros name Hin. apply Hall in Hin. simpl in Hin. by apply String.eqb_eq in Hin.
  - intros prompt Hin. by apply Hall in Hin.
  - intros path Hin. apply Hall in Hin. discriminate.
Qed.

(** C4 at [prompts/04_practical_examples.py], where each demo reads the
    key, calls the model and sleeps. *)
Lemma C4_only_api_key_and_pacing_prompts_witness :
  In Script.prompts_04 Script.scripts
  /\ Forall (fun ev => Script.within_interface ev = true)
       (Script.run reliable Script.prompts_04
          (Script.mkSurroundings {["GOOGLE_API_KEY" := "key"]}
             (fun _ => [Script.AtSite 0; Script.Requesting; Script.Sleeping])
             (fun _ => None) (fun _ => None))).2.
Proof.
  assert (In Script.prompts_04 Script.scripts) as Hin by (simpl; tauto).
  split; [exact Hin|].
  exact (proj1 (C4_only_api_key_and_pacing_prompts reliable Script.prompts_04
                  (Script.mkSurroundings {["GOOGLE_API_KEY" := "key"]}
                     (fun _ => [Script.AtSite 0; Script.Requesting; Script.Sleeping])
                     (fun _ => None) (fun _ => None)) Hin)).
Defined.

(** * Further properties of the code *)

(** ** Dict update *)

Module DictFacts.

Lemma lookup_set (d : pydict) (k k' : string) (v : pyval) :
  dict_lookup (dict_set d k v) k'
  = if String.eqb k' k then Some v else dict_lookup d k'.
Proof.
  induction d as [|[k0 v0] d IH]; simpl.
  - destruct (String.eqb k' k); reflexivity.
  - destruct (String.eqb k k0) eqn:Hk0; simpl.
    + apply String.eqb_eq in Hk0 as <-. destruct (String.eqb k' k); reflexivity.
    + rewrite IH. destruct (String.eqb k' k) eqn:Hk'; [|reflexivity].
      apply String.eqb_eq in Hk' as ->. by rewrite Hk0.
Qed.

Lemma lookup_set_eq (d : pydict) (k : string) (v : pyval) :
  dict_lookup (dict_set d k v) k = Some v.
Proof. by rewrite lookup_set, String.eqb_refl. Qed.

Lemma lookup_set_ne (d : pydict) (k k' : string) (v : pyval) :
  k' <> k -> dict_lookup (dict_set d k v) k' = dict_lookup d k'.
Proof.
  intros Hne. rewrite lookup_set.
  destruct (String.eqb k' k) eqn:E; [|reflexivity].
  by apply String.eqb_eq in E.
Qed.

Lemma get_set_ne (d : pydict) (k k' : string) (v default : pyval) :
  k' <> k -> dict_get (dict_set d k v) k' default = dict_get d k' default.
Proof. intros Hne. unfold dict_get. by rewrite lookup_set_ne. Qed.

(** Writing the value a key already has changes nothing. *)
Lemma set_same (d : pydict) (k : string) (v : pyval) :
  dict_lookup d k = Some v -> dict_set d k v = d.
Proof.
  induction d as [|[k0 v0] d IH]; simpl; [discriminate|].
  destruct (String.eqb k k0) eqn:Hk0.
  - intros H. by injection H as ->.
  - intros H. by rewrite IH.
Qed.

Lemma keys_set (d : pydict) (k : string) (v : pyval) :
  map fst (dict_set d k v)
  = if dict_contains d k then map fst d else map fst d ++ [k].
Proof.
  induction d as [|[k0 v0] d IH]; simpl; [reflexivity|].
  destruct (String.eqb k k0) eqn:Hk0; simpl; [reflexivity|].
  rewrite IH. by destruct (dict_contains d k).
Qed.

End DictFacts.

(** ** Substrings *)

Module TextFacts.
Import PyText.

Lemma append_cons (c : ascii) (a b : string) :
  String c a +:+ b = String c (a +:+ b).
Proof. reflexivity. Qed.

Lemma prefix_spec (n h : string) :
  String.prefix n h = true <-> exists b, h = n +:+ b.
Proof.
  revert h. induction n as [|c n IH]; intros h.
  - split; [intros _; by exists h | by destruct h].
  - destruct h as [|c' h]; cbn [String.prefix].
    + split; [discriminate | intros [b Hb]; discriminate].
    + destruct (Ascii.ascii_dec c c') as [->|Hne].
      * rewrite IH. split; intros [b Hb]; exists b;
          rewrite append_cons in *; congruence.
      * split; [discriminate|].
        intros [b Hb]. rewrite append_cons in Hb. congruence.
Qed.

Lemma contains_spec (n h : string) :
  contains n h = true <-> exists a b, h = a +:+ n +:+ b.
Proof.
  induction h as [|c h IH]; cbn [contains].
  - rewrite prefix_spec. split.
    + intros [b Hb]. by exists "", b.
    + intros (a & b & Hab). destruct a; [by exists b|discriminate].
  - rewrite orb_true_iff, IH, prefix_spec. split.
    + intros [[b Hb] | (a & b & Hab)].
      * by exists "", b.
      * exists (String c a), b. by rewrite append_cons, Hab.
    + intros (a & b & Hab). destruct a as [|c' a].
      * left. by exists b.
      * right. exists a, b. rewrite append_cons in Hab. congruence.
Qed.

Lemma append_assoc (a b c : string) : (a +:+ b) +:+ c = a +:+ (b +:+ c).
Proof. induction a as [|x a IH]; [done|]. by rewrite !append_cons, IH. Qed.

(** A substring of a substring is a substring. *)
Lemma contains_trans (w s t : string) :
  contains w s = true -> contains s t = true -> contains w t = true.
Proof.
  rewrite !contains_spec. intros (a & b & ->) (a' & b' & ->).
  exists (a' +:+ a), (b +:+ b'). by rewrite !append_assoc.
Qed.

Lemma lower_app (a b : string) :
  PyStr.lower (a +:+ b) = PyStr.lower a +:+ PyStr.lower b.
Proof.
  unfold PyStr.lower. induction a as [|x a IH]; [done|].
  rewrite append_cons. cbn [PyStr.map_str]. by rewrite append_cons, IH.
Qed.

Lemma contains_lower (s t : string) :
  contains s t = true -> contains (PyStr.lower s) (PyStr.lower t) = true.
Proof.
  rewrite !contains_spec. intros (a & b & ->).
  exists (PyStr.lower a), (PyStr.lower b). by rewrite !lower_app.
Qed.

Lemma contains_any_mono (words : list string) (s t : string) :
  contains s t = true ->
  contains_any words s = true -> contains_any words t = true.
Proof.
  intros Hst. unfold contains_any. rewrite !existsb_exists.
  intros (w & Hw & Hws). exists w. split; [done|]. by eapply contains_trans.
Qed.

Lemma contains_any_sub (small big : list string) (s : string) :
  (forall w, In w small -> In w big) ->
  contains_any small s = true -> contains_any big s = true.
Proof.
  intros Hsub. unfold contains_any. rewrite !existsb_exists.
  intros (w & Hw & Hws). exists w. split; [by apply Hsub | done].
Qed.

End TextFacts.

(** ** The conditions of [chains/04_conditional_chains.py] *)

Module ConditionalFacts.
Import PyText Conditional.

Lemma get_set_eq (d : pydict) (k : string) (v default : pyval) :
  dict_get (dict_set d k v) k default = v.
Proof. unfold dict_get. by rewrite DictFacts.lookup_set_eq. Qed.

Lemma contains_single (c : ascii) (s : string) :
  contains (String c "") s = PyStr.contains_char c s.
Proof.
  unfold PyStr.contains_char.
  induction s as [|a s IH]; [reflexivity|].
  cbn [contains PyStr.existsb_str String.prefix]. rewrite IH. f_equal.
  destruct (Ascii.ascii_dec c a) as [->|Hne].
  - rewrite Ascii.eqb_refl. by destruct s.
  - symmetry. by apply Ascii.eqb_neq.
Qed.

Lemma eqb_qmark_lower (c : ascii) :
  Ascii.eqb "?" (PyStr.lower_char c) = Ascii.eqb "?" c.
Proof. destruct c as [[] [] [] [] [] [] [] []]; reflexivity. Qed.

Lemma qmark_lower (s : string) : contains "?" (PyStr.lower s) = contains "?" s.
Proof.
  rewrite !contains_single. unfold PyStr.contains_char, PyStr.lower.
  induction s as [|c s IH]; cbn [PyStr.existsb_str PyStr.map_str]; [done|].
  by rewrite eqb_qmark_lower, IH.
Qed.

(** Two texts in the same letters have the question mark at the same time. *)
Lemma qmark_same_letters (s t : string) :
  PyStr.lower s = PyStr.lower t -> contains "?" s = contains "?" t.
Proof. intros H. by rewrite <- (qmark_lower s), <- (qmark_lower t), H. Qed.

Lemma high_words_urgent (w : string) : In w high_words -> In w urgent_words.
Proof. simpl. intuition. Qed.

Lemma or_else_ok (a b : bool) : or_else (Ok a) (Ok b) = Ok (a || b).
Proof. by destruct a. Qed.

(** The three keys [add_metadata] writes are not [text]. *)
Lemma add_metadata_str (x : pydict) (s : string) :
  dict_get x "text" (VStr "") = VStr s ->
  add_metadata x
  = Ok (dict_set
          (dict_set
             (dict_set x "word_count" (VInt (Z.of_nat (List.length (PyStr.split s)))))
             "has_code"
             (VBool (contains "```" s || (contains "def " s || contains "function" s))))
          "has_data" (VBool (contains_any data_words (PyStr.lower s)))).
Proof.
  intros Hs. unfold add_metadata. rewrite Hs.
  cbn [py_split py_in py_lower bind]. by rewrite !or_else_ok.
Qed.

Lemma add_metadata_ok_text (x y : pydict) :
  add_metadata x = Ok y -> exists s, dict_get x "text" (VStr "") = VStr s.
Proof.
  unfold add_metadata.
  destruct (dict_get x "text" (VStr "")) as [| | |s| |]; try discriminate.
  intros _. by exists s.
Qed.

Lemma detect_language_str (x : pydict) (s : string) :
  dict_get x "text" (VStr "") = VStr s ->
  detect_language x
  = Ok (dict_set x "language"
          (VStr (if contains_any spanish_words (PyStr.lower s) then "spanish"
                 else if contains_any english_words (PyStr.lower s) then "english"
                 else "unknown"))).
Proof.
  intros Hs. unfold detect_language. rewrite Hs. cbn [py_lower bind].
  destruct (contains_any spanish_words (PyStr.lower s)); [done|].
  by destruct (contains_any english_words (PyStr.lower s)).
Qed.

Lemma detect_type_str (x : pydict) (s : string) :
  dict_get x "text" (VStr "") = VStr s ->
  detect_type x
  = Ok (dict_set x "content_type"
          (VStr (if contains "def " s || contains "function" s then "code"
                 else if contains "?" s then "question"
                 else "statement"))).
Proof.
  intros Hs. unfold detect_type. rewrite Hs. cbn [py_in]. rewrite or_else_ok.
  cbn [bind].
  destruct (contains "def " s || contains "function" s); [done|].
  cbn [bind]. by destruct (contains "?" s).
Qed.

End ConditionalFacts.

(** X1: [classify_urgency] on a text: the answer is one of three levels, and
    it never drops when the text is put inside a longer one.  A text that
    holds a text of high urgency is of high urgency, one that holds a text
    of medium urgency is of medium or high urgency. *)
Theorem urgency_never_drops_in_a_longer_text (x y : pydict) (s t : string) :
  dict_get x "text" (VStr "") = VStr s ->
  dict_get y "text" (VStr "") = VStr t ->
  PyText.contains s t = true ->
  (Conditional.classify_urgency x = Ok "high"
   \/ Conditional.classify_urgency x = Ok "medium"
   \/ Conditional.classify_urgency x = Ok "low")
  /\ (Conditional.classify_urgency x = Ok "high" ->
      Conditional.classify_urgency y = Ok "high")
  /\ (Conditional.classify_urgency x = Ok "medium" ->
      Conditional.classify_urgency y = Ok "high"
      \/ Conditional.classify_urgency y = Ok "medium")
  /\ (Conditional.classify_urgency y = Ok "low" ->
      Conditional.classify_urgency x = Ok "low").
Proof.
  intros Hx Hy Hst. unfold Conditional.classify_urgency.
  rewrite Hx, Hy. cbn [py_lower bind].
  apply TextFacts.contains_lower in Hst.
  pose proof (TextFacts.contains_any_mono Conditional.high_words _ _ Hst) as Hhigh.
  pose proof (TextFacts.contains_any_mono Conditional.medium_words _ _ Hst) as Hmed.
  destruct (PyText.contains_any Conditional.high_words (PyStr.lower s)).
  { rewrite Hhigh by done. repeat split; auto; discriminate. }
  destruct (PyText.contains_any Conditional.medium_words (PyStr.lower s)).
  { rewrite Hmed by done.
    destruct (PyText.contains_any Conditional.high_words (PyStr.lower t));
      repeat split; auto; discriminate. }
  repeat split; auto; discriminate.
Qed.

(** A request of medium urgency inside a polite sentence. *)
Lemma urgency_never_drops_in_a_longer_text_witness :
  Conditional.classify_urgency [("text", VStr "do it soon")] = Ok "medium"
  /\ (Conditional.classify_urgency [("text", VStr "Please do it soon, thanks")] = Ok "high"
      \/ Conditional.classify_urgency [("text", VStr "Please do it soon, thanks")]
         = Ok "medium").
Proof.
  split; [reflexivity|].
  apply (urgency_never_drops_in_a_longer_text
           [("text", VStr "do it soon")] [("text", VStr "Please do it soon, thanks")]
           "do it soon" "Please do it soon, thanks");
    reflexivity.
Defined.

(** X2: The two urgency tests of the file agree on the top level: a text that
    [classify_urgency] puts at ["high"] passes [is_urgent].  The other way
    round, a text that passes [is_urgent] is put at ["low"] only for the
    word [immediately], which [classify_urgency] does not know. *)
Theorem high_urgency_is_urgent (x : pydict) :
  (Conditional.classify_urgency x = Ok "high" -> Conditional.is_urgent x = Ok true)
  /\ (Conditional.is_urgent x = Ok true ->
      Conditional.classify_urgency x = Ok "low" ->
      exists s, dict_get x "text" (VStr "") = VStr s
                /\ PyText.contains "immediately" (PyStr.lower s) = true).
Proof.
  unfold Conditional.classify_urgency, Conditional.is_urgent.
  destruct (dict_get x "text" (VStr "")) as [| | |s| |];
    try (split; intros; discriminate).
  cbn [py_lower bind]. split.
  - intros H.
    rewrite (TextFacts.contains_any_sub Conditional.high_words
               Conditional.urgent_words (PyStr.lower s)
               ConditionalFacts.high_words_urgent); [done|].
    destruct (PyText.contains_any Conditional.high_words (PyStr.lower s)); [done|].
    destruct (PyText.contains_any Conditional.medium_words (PyStr.lower s));
      discriminate.
  - intros Hu Hlow. exists s. split; [done|].
    unfold PyText.contains_any, Conditional.urgent_words,
      Conditional.high_words, Conditional.medium_words in *.
    cbn [existsb] in *.
    destruct (PyText.contains "urgent" (PyStr.lower s)); [discriminate|].
    destruct (PyText.contains "critical" (PyStr.lower s)); [discriminate|].
    destruct (PyText.contains "emergency" (PyStr.lower s)); [discriminate|].
    destruct (PyText.contains "soon" (PyStr.lower s)); [discriminate|].
    destruct (PyText.contains "quickly" (PyStr.lower s)); [discriminate|].
    destruct (PyText.contains "asap" (PyStr.lower s)); [discriminate|].
    destruct (PyText.contains "immediately" (PyStr.lower s)); [done|].
    discriminate.
Qed.

(** X3: The keyword tests of the file do not look at the case of the letters:
    two inputs whose texts differ in case only get the same answer from
    [is_urgent], [is_question], [is_feedback] and [classify_urgency], and
    [detect_language] names the same language for them. *)
Theorem keyword_tests_ignore_case (x y : pydict) (s t : string) :
  dict_get x "text" (VStr "") = VStr s ->
  dict_get y "text" (VStr "") = VStr t ->
  PyStr.lower s = PyStr.lower t ->
  Conditional.is_urgent x = Conditional.is_urgent y
  /\ Conditional.is_question x = Conditional.is_question y
  /\ Conditional.is_feedback x = Conditional.is_feedback y
  /\ Conditional.classify_urgency x = Conditional.classify_urgency y
  /\ (exists x' y',
        Conditional.detect_language x = Ok x'
        /\ Conditional.detect_language y = Ok y'
        /\ dict_lookup x' "language" = dict_lookup y' "language").
Proof.
  intros Hx Hy Hst.
  unfold Conditional.is_urgent, Conditional.is_question, Conditional.is_feedback,
    Conditional.classify_urgency.
  rewrite Hx, Hy. cbn [py_lower py_in bind]. rewrite Hst.
  rewrite (ConditionalFacts.qmark_same_letters s t Hst).
  repeat split; try reflexivity.
  rewrite (ConditionalFacts.detect_language_str x s Hx),
    (ConditionalFacts.detect_language_str y t Hy).
  eexists _, _. split; [reflexivity|]. split; [reflexivity|].
  by rewrite !DictFacts.lookup_set_eq, Hst.
Qed.

(** The same question in capitals and in small letters. *)
Lemma keyword_tests_ignore_case_witness :
  Conditional.is_urgent [("text", VStr "URGENT: what now?")]
  = Conditional.is_urgent [("text", VStr "urgent: What NOW?")]
  /\ Conditional.is_urgent [("text", VStr "URGENT: what now?")] = Ok true.
Proof.
  split; [|reflexivity].
  apply (keyword_tests_ignore_case
           [("text", VStr "URGENT: what now?")] [("text", VStr "urgent: What NOW?")]
           "URGENT: what now?" "urgent: What NOW?");
    reflexivity.
Defined.

(** X4: [add_metadata] on an input with a text: the three fields it adds are
    worked out from the text, whatever values the input had under these
    names; every other field of the input is kept.  The branch tests
    [is_code_heavy] and [is_data_heavy] then answer by the text alone. *)
Theorem add_metadata_answers_by_the_text (x : pydict) (s : string) :
  dict_get x "text" (VStr "") = VStr s ->
  exists y,
    Conditional.add_metadata x = Ok y
    /\ dict_lookup y "word_count"
       = Some (VInt (Z.of_nat (List.length (PyStr.split s))))
    /\ Conditional.is_code_heavy y
       = VBool (PyText.contains "```" s
                || (PyText.contains "def " s || PyText.contains "function" s))
    /\ Conditional.is_data_heavy y
       = VBool (PyText.contains_any Conditional.data_words (PyStr.lower s))
    /\ (forall k, k <> "word_count" -> k <> "has_code" -> k <> "has_data" ->
                  dict_lookup y k = dict_lookup x k).
Proof.
  intros Hs. rewrite (ConditionalFacts.add_metadata_str x s Hs).
  eexists. split; [reflexivity|].
  unfold Conditional.is_code_heavy, Conditional.is_data_heavy.
  split; [by rewrite !DictFacts.lookup_set|].
  split; [by rewrite DictFacts.get_set_ne, ConditionalFacts.get_set_eq|].
  split; [by rewrite ConditionalFacts.get_set_eq|].
  intros k H1 H2 H3. by rewrite !DictFacts.lookup_set_ne.
Qed.

(** A text with code, on an input that says it has none. *)
Lemma add_metadata_answers_by_the_text_witness :
  exists y,
    Conditional.add_metadata
      [("text", VStr "def calculate(x): return x * 2"); ("has_code", VBool false)]
    = Ok y
    /\ Conditional.is_code_heavy y = VBool true.
Proof.
  destruct (add_metadata_answers_by_the_text
              [("text", VStr "def calculate(x): return x * 2"); ("has_code", VBool false)]
              "def calculate(x): return x * 2" eq_refl)
    as (y & Hy & _ & Hcode & _).
  exists y. split; [exact Hy|]. rewrite Hcode. reflexivity.
Defined.

(** X5: [add_metadata] is idempotent, and it leaves the fields of its input
    where they are: the keys of the input come first in the result, in
    their order, and the input fails exactly when its [text] is not a
    string. *)
Theorem add_metadata_idempotent (x : pydict) :
  (forall y, Conditional.add_metadata x = Ok y ->
             Conditional.add_metadata y = Ok y
             /\ take (List.length x) (map fst y) = map fst x)
  /\ (is_ok (Conditional.add_metadata x) = true <->
      exists s, dict_get x "text" (VStr "") = VStr s).
Proof.
  split.
  - intros y Hy.
    destruct (ConditionalFacts.add_metadata_ok_text x y Hy) as [s Hs].
    rewrite (ConditionalFacts.add_metadata_str x s Hs) in Hy.
    set (wc := VInt _) in Hy. set (hc := VBool _) in Hy.
    set (hd := VBool (PyText.contains_any _ _)) in Hy.
    assert (dict_set (dict_set (dict_set x "word_count" wc) "has_code" hc)
              "has_data" hd = y) as Hy' by congruence.
    clear Hy. rename Hy' into Hy.
    assert (dict_get y "text" (VStr "") = VStr s) as Hys.
    { rewrite <- Hy. by rewrite !DictFacts.get_set_ne. }
    split.
    + rewrite (ConditionalFacts.add_metadata_str y s Hys).
      fold wc hc hd. f_equal.
      rewrite (DictFacts.set_same y "word_count" wc).
      2:{ rewrite <- Hy. rewrite !DictFacts.lookup_set_ne by done.
          apply DictFacts.lookup_set_eq. }
      rewrite (DictFacts.set_same y "has_code" hc).
      2:{ rewrite <- Hy. rewrite DictFacts.lookup_set_ne by done.
          apply DictFacts.lookup_set_eq. }
      apply DictFacts.set_same. rewrite <- Hy. apply DictFacts.lookup_set_eq.
    + rewrite <- Hy. rewrite !DictFacts.keys_set.
      repeat match goal with |- context [if ?b then _ else _] => destruct b end;
        rewrite <- ?app_assoc, <- (length_map fst x);
        by rewrite ?take_app_length, ?firstn_all.
  - split.
    + destruct (Conditional.add_metadata x) as [y|e] eqn:Hy; [|discriminate].
      intros _. by eapply ConditionalFacts.add_metadata_ok_text.
    + intros [s Hs]. by rewrite (ConditionalFacts.add_metadata_str x s Hs).
Qed.

(** X6: The two stages of [multi_stage_conditional] do not disturb each other:
    in either order they give the same fields, the language is named by
    the lower-cased text and the content type by the text, whatever the
    input had under these names, and every other field is kept. *)
Theorem detect_stages_commute (x : pydict) (s : string) :
  dict_get x "text" (VStr "") = VStr s ->
  exists y z,
    (x1 <- Conditional.detect_language x ;; Conditional.detect_type x1) = Ok y
    /\ (x1 <- Conditional.detect_type x ;; Conditional.detect_language x1) = Ok z
    /\ (forall k, dict_lookup y k = dict_lookup z k)
    /\ Conditional.needs_translation y
       = PyText.contains_any Conditional.spanish_words (PyStr.lower s)
    /\ Conditional.is_code_question y
       = PyText.contains "def " s || PyText.contains "function" s
    /\ (forall k, k <> "language" -> k <> "content_type" ->
                  dict_lookup y k = dict_lookup x k).
Proof.
  intros Hs.
  rewrite (ConditionalFacts.detect_language_str x s Hs),
    (ConditionalFacts.detect_type_str x s Hs).
  cbn [bind].
  erewrite ConditionalFacts.detect_type_str
    by (rewrite DictFacts.get_set_ne by done; exact Hs).
  erewrite ConditionalFacts.detect_language_str
    by (rewrite DictFacts.get_set_ne by done; exact Hs).
  eexists _, _. split; [reflexivity|]. split; [reflexivity|].
  split.
  { intros k. rewrite !DictFacts.lookup_set.
    destruct (String.eqb k "content_type") eqn:E1; [|done].
    apply String.eqb_eq in E1 as ->. reflexivity. }
  unfold Conditional.needs_translation, Conditional.is_code_question, dict_get_none.
  split.
  { rewrite DictFacts.get_set_ne by done. rewrite ConditionalFacts.get_set_eq.
    destruct (PyText.contains_any Conditional.spanish_words (PyStr.lower s)); [done|].
    by destruct (PyText.contains_any Conditional.english_words (PyStr.lower s)). }
  split.
  { rewrite ConditionalFacts.get_set_eq.
    destruct (PyText.contains "def " s || PyText.contains "function" s); [done|].
    by destruct (PyText.contains "?" s). }
  intros k H1 H2. by rewrite !DictFacts.lookup_set_ne.
Qed.

(** An English code sample on an input that is marked as Spanish. *)
Lemma detect_stages_commute_witness :
  exists y,
    (x1 <- Conditional.detect_language
             [("text", VStr "def hello(): return 'world'"); ("language", VStr "spanish")] ;;
     Conditional.detect_type x1) = Ok y
    /\ Conditional.needs_translation y = false
    /\ Conditional.is_code_question y = true.
Proof.
  destruct (detect_stages_commute
              [("text", VStr "def hello(): return 'world'"); ("language", VStr "spanish")]
              "def hello(): return 'world'" eq_refl)
    as (y & z & Hy & _ & _ & Htr & Hcode & _).
  exists y. split; [exact Hy|]. rewrite Htr, Hcode. split; reflexivity.
Defined.

(** ** Whole runs of [main] *)

Module RunFacts.
Import Script.

(** The demos [before] and the [input]s after them return: the [try]
    block goes on with what follows them. *)
Lemma run_demos_app (sc : script) (sur : surroundings) (prompt : string)
    (rest : list string) (before : list string) :
  forall k,
    rest <> [] ->
    (forall d, d ∈ before -> demo_outcome sur d = None) ->
    (forall j, (j < List.length before)%nat -> input_outcome sur (k + j) = None) ->
    run_demos sc sur prompt (before ++ rest) k
    = and_then (emit (events_before sc sur prompt before))
        (run_demos sc sur prompt rest (k + List.length before)).
Proof.
  induction before as [|d before IH]; intros k Hrest Hdemos Hinputs.
  - simpl. rewrite Nat.add_0_r. by destruct (run_demos sc sur prompt rest k).
  - cbn [app]. rewrite ScriptFacts.run_demos_cons by (destruct before, rest; done).
    unfold call_demo at 1. rewrite Hdemos by (apply elem_of_cons; by left).
    unfold pause. specialize (Hinputs 0%nat) as Hin0.
    rewrite Nat.add_0_r in Hin0. rewrite Hin0 by (simpl; lia).
    rewrite (IH (S k)); [| done | |].
    + replace (S k + List.length before)%nat
        with (k + List.length (d :: before))%nat by (simpl; lia).
      destruct (run_demos sc sur prompt rest (k + List.length (d :: before)))
        as [r t].
      simpl. by rewrite <- !app_assoc.
    + intros d0 Hd0. apply Hdemos. apply elem_of_cons. by right.
    + intros j Hj. replace (S k + j)%nat with (k + S j)%nat by lia.
      apply Hinputs. simpl. lia.
Qed.

(** An exception that leaves the [try] block was raised by a demo or by
    one of the [input]s between two demos. *)
Lemma run_demos_raises (sc : script) (sur : surroundings) (prompt : string)
    (names : list string) (e : exception) :
  forall k,
    (run_demos sc sur prompt names k).1 = Raise e ->
    (exists name, name ∈ names /\ demo_outcome sur name = Some e)
    \/ (exists j, (S j < List.length names)%nat /\ input_outcome sur (k + j) = Some e).
Proof.
  induction names as [|name rest IH]; intros k; [discriminate|].
  cbn [run_demos]. unfold call_demo.
  destruct (demo_outcome sur name) as [e0|] eqn:Hname.
  - simpl. intros [= ->]. left. exists name. split; [|done].
    apply elem_of_cons. by left.
  - destruct rest as [|name' rest']; [discriminate|].
    unfold pause. destruct (input_outcome sur k) as [e1|] eqn:Hin.
    + simpl. intros [= ->]. right. exists 0%nat.
      rewrite Nat.add_0_r. split; [simpl; lia | done].
    + cbn [and_then fst snd]. intros Hrest.
      destruct (run_demos sc sur prompt (name' :: rest') (S k)) as [[u|e2] t] eqn:Hrun;
        [discriminate|].
      simpl in Hrest. injection Hrest as ->.
      destruct (IH (S k)) as [(d & Hd & Hout) | (j & Hj & Hout)].
      * by rewrite Hrun.
      * left. exists d. split; [|done]. apply elem_of_cons. by right.
      * right. exists (S j). split; [simpl in *; lia|].
        by replace (k + S j)%nat with (S k + j)%nat by lia.
Qed.

(** An exception that leaves a [print] is what the terminal raised. *)
Lemma print_raises (out : console) (k : nat) (ev : event) (e : exception) :
  (print out k ev).1 = Raise e -> out k = Some e.
Proof. unfold print. destruct (out k); [by intros [= ->] | discriminate]. Qed.

Lemma print_lines_raises (out : console) (lines : list string) (e : exception) :
  forall k,
    (print_lines out k lines).1 = Raise e ->
    exists j, (j < List.length lines)%nat /\ out (k + j)%nat = Some e.
Proof.
  induction lines as [|line rest IH]; intros k; [discriminate|].
  cbn [print_lines]. unfold print.
  destruct (out k) as [e0|] eqn:Hk.
  - simpl. intros [= ->]. exists 0%nat. rewrite Nat.add_0_r. split; [simpl; lia|done].
  - cbn [and_then fst snd]. intros Hrest.
    destruct (IH (S k) Hrest) as (j & Hj & Hout).
    exists (S j). split; [simpl; lia|].
    by replace (k + S j)%nat with (S k + j)%nat by lia.
Qed.

Lemma handle_raises (out : console) (k : nat) (h : handler) (e0 e : exception) :
  (handle out k h e0).1 = Raise e -> out k = Some e \/ out (S k) = Some e.
Proof.
  unfold handle, print. destruct (out k) as [e1|] eqn:Hk.
  - simpl. intros [= ->]. by left.
  - destruct h; cbn [and_then emit fst snd]; [discriminate | |];
      (destruct (out (S k)) as [e2|]; [|discriminate]);
      simpl; intros [= ->]; by right.
Qed.

End RunFacts.

(** X7: What leaves [main].  When a run of [main] ends with an exception,
    then either the terminal raised it at one of the prints of [main]
    (the welcome lines, a line for the missing key, the closing lines, a
    line of the [except] clause), or the key was set, the exception is not
    an instance of [Exception] (a [KeyboardInterrupt], a [SystemExit]) and
    it was raised by one of the demos of the script or by one of the
    [input]s between them.  So on a terminal that takes every line, no
    [main] lets an [Exception] out. *)
Theorem exceptions_that_leave_main
    (out : console) (sc : Script.script) (sur : Script.surroundings)
    (e : exception) :
  (Script.main out sc sur).1 = Raise e ->
  (exists k, (k <= Nat.max 3 (List.length (Script.missing_key_lines sc)))%nat
             /\ out k = Some e)
  \/ (is_Exception (exc_cls e) = false
      /\ Script.truthy (Script.getenv sur "GOOGLE_API_KEY") = true
      /\ ((exists name, name ∈ Script.demos sc
                        /\ Script.demo_outcome sur name = Some e)
          \/ (exists j, (S j < List.length (Script.demos sc))%nat
                        /\ Script.input_outcome sur j = Some e))).
Proof.
  unfold Script.main. unfold Script.print at 1.
  destruct (out 0%nat) as [e0|] eqn:H0.
  { simpl. intros [= ->]. left. exists 0%nat. split; [lia|done]. }
  cbn [Script.and_then Script.emit fst snd].
  destruct (Script.truthy (Script.getenv sur "GOOGLE_API_KEY")); cbn [negb].
  2:{ intros Hr. apply RunFacts.print_lines_raises in Hr as (j & Hj & Hout).
      left. exists (1 + j)%nat. split; [lia|done]. }
  unfold Script.guarded.
  destruct (Script.run_demos sc sur (Script.pause_prompt sc) (Script.demos sc) 0)
    as [[u|e0] t] eqn:Hrun.
  - unfold Script.try_except, Script.print at 1.
    destruct (out 1%nat) as [e1|] eqn:H1; cbn [Script.and_then Script.emit fst snd];
      [|discriminate].
    destruct (is_Exception (exc_cls e1)) eqn:Hexc.
    + cbn [Script.and_then Script.emit fst snd].
      intros Hr. apply RunFacts.handle_raises in Hr as [Hr|Hr];
        left; [exists 2%nat | exists 3%nat]; (split; [lia|done]).
    + simpl. intros [= ->]. left. exists 1%nat. split; [lia|done].
  - unfold Script.try_except.
    destruct (is_Exception (exc_cls e0)) eqn:Hexc.
    + cbn [Script.and_then Script.emit fst snd].
      intros Hr. apply RunFacts.handle_raises in Hr as [Hr|Hr];
        left; [exists 1%nat | exists 2%nat]; (split; [lia|done]).
    + simpl. intros [= <-]. right. split; [done|]. split; [done|].
      apply (RunFacts.run_demos_raises sc sur (Script.pause_prompt sc)
               (Script.demos sc) e0 0%nat).
      by rewrite Hrun.
Qed.

(** The first demo of [chains/04_conditional_chains.py] is interrupted
    from the keyboard. *)
Lemma exceptions_that_leave_main_witness :
  (Script.main reliable Script.chains_04
     (Script.mkSurroundings {["GOOGLE_API_KEY" := "key"]}
        (fun _ => []) (fun _ => Some (mkExc KeyboardInterrupt "")) (fun _ => None))).1
  = Raise (mkExc KeyboardInterrupt "")
  /\ is_Exception (exc_cls (mkExc KeyboardInterrupt "")) = false.
Proof.
  assert ((Script.main reliable Script.chains_04
             (Script.mkSurroundings {["GOOGLE_API_KEY" := "key"]}
                (fun _ => []) (fun _ => Some (mkExc KeyboardInterrupt ""))
                (fun _ => None))).1
          = Raise (mkExc KeyboardInterrupt "")) as Hraise by reflexivity.
  split; [exact Hraise|].
  destruct (exceptions_that_leave_main reliable Script.chains_04 _ _ Hraise)
    as [(k & _ & Hk) | (H & _)].
  - discriminate.
  - exact H.
Defined.

(** X8: A pause that fails ends the run.  When the [input] after a demo raises
    an [Exception] (an [EOFError] when standard input is closed) and the
    terminal takes the welcome lines and the lines of the [except] clause,
    [main] prints the exception right after the prompt and returns: the
    demos that follow are not entered and the closing lines are not
    printed. *)
Theorem failed_pause_ends_the_run
    (out : console) (sc : Script.script) (sur : Script.surroundings)
    (before : list string) (name : string) (after : list string) (e : exception) :
  Script.demos sc = before ++ name :: after ->
  after <> [] ->
  Script.truthy (Script.getenv sur "GOOGLE_API_KEY") = true ->
  out 0%nat = None -> out 1%nat = None -> out 2%nat = None ->
  (forall d, d ∈ before ++ [name] -> Script.demo_outcome sur d = None) ->
  (forall j, (j < List.length before)%nat -> Script.input_outcome sur j = None) ->
  Script.input_outcome sur (List.length before) = Some e ->
  is_Exception (exc_cls e) = true ->
  Script.main out sc sur
  = (Ok tt,
     [Script.PrintBanner; Script.Getenv "GOOGLE_API_KEY"]
     ++ (if Script.checks_numpy sc then [Script.ImportModule "numpy"] else [])
     ++ Script.events_before sc sur (Script.pause_prompt sc) before
     ++ Script.Call name :: Script.demo_events sc sur name
     ++ Script.Input (Script.pause_prompt sc)
     :: Script.handler_events (Script.on_exception sc) e).
Proof.
  intros Hdemos Hafter Hkey H0 H1 H2 Hreturn Hinputs Hinput Hexc.
  rewrite (ScriptFacts.main_with_key out sc sur Hkey H0).
  unfold Script.guarded. rewrite Hdemos.
  rewrite (RunFacts.run_demos_app sc sur _ (name :: after) before 0); [|done| |done].
  2:{ intros d Hd. apply Hreturn. apply elem_of_app. by left. }
  rewrite ScriptFacts.run_demos_cons by done.
  unfold Script.call_demo.
  rewrite Hreturn by (apply elem_of_app; right; by apply list_elem_of_singleton).
  unfold Script.pause. cbn [Nat.add]. rewrite Hinput.
  cbn [Script.and_then Script.try_except Script.emit fst snd].
  rewrite Hexc, (ScriptFacts.handle_ok out 1 _ e H1 H2).
  cbn [Script.and_then Script.emit fst snd].
  destruct (Script.checks_numpy sc); cbn [fst snd app];
    rewrite <- ?app_assoc; cbn [app]; by rewrite <- ?app_assoc.
Qed.

(** [chains/04_conditional_chains.py] run with standard input closed. *)
Lemma failed_pause_ends_the_run_witness :
  Script.main reliable Script.chains_04
    (Script.mkSurroundings {["GOOGLE_API_KEY" := "key"]}
       (fun _ => [Script.Requesting]) (fun _ => None)
       (fun _ => Some (mkExc EOFError "EOF when reading a line")))
  = (Ok tt,
     [Script.PrintBanner; Script.Getenv "GOOGLE_API_KEY";
      Script.Call "basic_conditional"; Script.ModelCall;
      Script.Input "Press Enter to continue...";
      Script.Print "Error: EOF when reading a line";
      Script.ImportModule "traceback";
      Script.Traceback (mkExc EOFError "EOF when reading a line")]).
Proof.
  refine (failed_pause_ends_the_run reliable Script.chains_04
            (Script.mkSurroundings {["GOOGLE_API_KEY" := "key"]}
               (fun _ => [Script.Requesting]) (fun _ => None)
               (fun _ => Some (mkExc EOFError "EOF when reading a line")))
            [] "basic_conditional"
            ["multi_condition_routing"; "intent_based_routing"; "fallback_chains";
             "context_based_branching"; "dynamic_chain_selection";
             "multi_stage_conditional"; "conditional_with_metadata"]
            (mkExc EOFError "EOF when reading a line") _ _ _ _ _ _ _ _ _ _);
    try reflexivity; try done.
  intros j Hj. simpl in Hj. lia.
Defined.

(** X9: A run in which nothing fails: with the key set and a terminal that
    takes the welcome lines and the closing lines, [main] enters every
    demo of the script once, in the order of the script, shows the pacing
    prompt between two demos and not after the last, prints its closing
    lines and returns. *)
Theorem undisturbed_run_enters_every_demo
    (out : console) (sc : Script.script) (sur : Script.surroundings)
    (front : list string) (last : string) :
  Script.demos sc = front ++ [last] ->
  Script.truthy (Script.getenv sur "GOOGLE_API_KEY") = true ->
  out 0%nat = None -> out 1%nat = None ->
  (forall d, d ∈ Script.demos sc -> Script.demo_outcome sur d = None) ->
  (forall j, (j < List.length front)%nat -> Script.input_outcome sur j = None) ->
  Script.main out sc sur
  = (Ok tt,
     [Script.PrintBanner; Script.Getenv "GOOGLE_API_KEY"]
     ++ (if Script.checks_numpy sc then [Script.ImportModule "numpy"] else [])
     ++ Script.events_before sc sur (Script.pause_prompt sc) front
     ++ Script.Call last :: Script.demo_events sc sur last
     ++ [Script.PrintSummary]).
Proof.
  intros Hdemos Hkey H0 H1 Hreturn Hinputs.
  rewrite (ScriptFacts.main_with_key out sc sur Hkey H0).
  unfold Script.guarded. rewrite Hdemos in *.
  rewrite (RunFacts.run_demos_app sc sur _ [last] front 0); [|done| |done].
  2:{ intros d Hd. apply Hreturn. apply elem_of_app. by left. }
  cbn [Script.run_demos]. unfold Script.call_demo.
  rewrite Hreturn by (apply elem_of_app; right; by apply list_elem_of_singleton).
  unfold Script.print. rewrite H1.
  cbn [Script.and_then Script.try_except Script.emit fst snd].
  destruct (Script.checks_numpy sc); cbn [fst snd app];
    rewrite <- ?app_assoc; cbn [app]; by rewrite ?app_nil_r, <- ?app_assoc.
Qed.

(** [runnables/05_practical_runnables.py] with demos that call the model. *)
Lemma undisturbed_run_enters_every_demo_witness :
  exists front last,
    Script.demos Script.runnables_05 = front ++ [last]
    /\ Script.main reliable Script.runnables_05
         (Script.mkSurroundings {["GOOGLE_API_KEY" := "key"]}
            (fun _ => [Script.Requesting]) (fun _ => None) (fun _ => None))
       = (Ok tt,
          [Script.PrintBanner; Script.Getenv "GOOGLE_API_KEY"]
          ++ Script.events_before Script.runnables_05
               (Script.mkSurroundings {["GOOGLE_API_KEY" := "key"]}
                  (fun _ => [Script.Requesting]) (fun _ => None) (fun _ => None))
               (Script.pause_prompt Script.runnables_05) front
          ++ [Script.Call last; Script.ModelCall; Script.PrintSummary]).
Proof.
  exists (removelast (Script.demos Script.runnables_05)),
         (List.last (Script.demos Script.runnables_05) "").
  split; [reflexivity|].
  refine (undisturbed_run_enters_every_demo reliable Script.runnables_05
            (Script.mkSurroundings {["GOOGLE_API_KEY" := "key"]}
               (fun _ => [Script.Requesting]) (fun _ => None) (fun _ => None))
            (removelast (Script.demos Script.runnables_05))
            (List.last (Script.demos Script.runnables_05) "") _ _ _ _ _ _);
    try reflexivity; done.
Defined.

(** ** The delays and the counters of [RobustAPIClient] *)

Module BackoffFacts.
Import RobustAPIClient RobustDemo.

Lemma total_backoff (k : nat) :
  forall attempt, 0 <= attempt ->
    total_delay (backoff attempt k) = 100 * 2 ^ attempt * (2 ^ Z.of_nat k - 1).
Proof.
  induction k as [|k IH]; intros attempt Hnn.
  - simpl. lia.
  - rewrite RobustFacts.backoff_S. unfold total_delay in *. cbn [foldr].
    rewrite IH by lia.
    rewrite Nat2Z.inj_succ, !Z.pow_succ_r by lia.
    rewrite Z.pow_add_r by lia. lia.
Qed.

Lemma total_backoff_mono (j k : nat) :
  (j <= k)%nat -> total_delay (backoff 0 j) <= total_delay (backoff 0 k).
Proof.
  intros Hjk. rewrite !total_backoff by lia.
  assert (2 ^ Z.of_nat j <= 2 ^ Z.of_nat k) by (apply Z.pow_le_mono_r; lia).
  lia.
Qed.

Lemma py_format_not_overslept (I : interpreter) (v : pyval) (e : exception) :
  py_format I v = Raise e -> overslept (Raise e) = false.
Proof.
  unfold py_format. destruct v; try discriminate;
    (destruct (str_fails I _) as [[m|m]|]; [| |discriminate]);
    intros [= <-]; reflexivity.
Qed.

(** One [invoke] of a client that makes attempts: it ends as a success, as
    a counted failure or with an exception, and every draw but that of a
    success and that before the exception of the f-string is a retry. *)
Lemma invoke_accounts (I : interpreter) (fails : nat -> bool) (self : t)
    (input : pydict) (w : world) :
  1 <= max_retries self ->
  forall r self' w',
    invoke I fails self input w = (r, self', w') ->
    max_retries self' = max_retries self
    /\ failures (metrics self') - failures (metrics self)
       = (if succeeded r || raised r then 0 else 1)
    /\ (draws w <= draws w')%nat
    /\ Z.of_nat (draws w' - draws w)
       = retries (metrics self') - retries (metrics self)
         + (if succeeded r || (raised r && negb (overslept r)) then 1 else 0)
    /\ (succeeded r && raised r = false)
    /\ (is_ok (py_format I (dict_get_none input "data")) = true ->
        sleeps I 0 (Z.to_nat (max_retries self) - 1) ->
        is_ok r = true).
Proof.
  intros Hpos r self' w' Hrun. apply RobustFacts.invoke_ending in Hrun.
  destruct Hrun as [k Hk _ _ _ -> Hm Hc Hfl Hre Hd _
                   | Hp _ _ -> Hm Hc Hfl Hre Hd _
                   | k msg Hk _ _ Hover -> Hm Hc Hfl Hre Hd _
                   | Hzero _ _ _]; simpl in *; [| | |lia].
  - rewrite Hd.
    destruct (py_format I (dict_get_none input "data")) as [data|e] eqn:Hfmt.
    + cbn. repeat split; try done; lia.
    + cbn [bind]. rewrite (py_format_not_overslept _ _ _ Hfmt). cbn.
      repeat split; try done; lia.
  - rewrite Hd. cbn. repeat split; try done; lia.
  - rewrite Hd. cbn.
    split; [done|]. split; [lia|]. split; [lia|]. split; [lia|]. split; [done|].
    intros _ Hsl. rewrite Hsl in Hover; [discriminate | lia].
Qed.

Lemma none_raised (l : list (result pydict)) :
  Forall (fun r => is_ok r = true) l ->
  List.filter raised l = []
  /\ List.filter (fun r => raised r && negb (overslept r)) l = [].
Proof.
  induction l as [|[d|e] l IH]; intros Hl; [done| |].
  - apply Forall_cons in Hl as [_ Hl]. cbn. by apply IH.
  - apply Forall_cons in Hl as [Hx _]. discriminate.
Qed.

Lemma invoke_no_attempt (I : interpreter) (fails : nat -> bool) (self : t)
    (input : pydict) (w : world) :
  max_retries self <= 0 ->
  invoke I fails self input w = (Ok exceeded_dict, incr_calls self, w).
Proof.
  intros Hle. unfold invoke.
  replace (Z.to_nat (max_retries (incr_calls self))) with 0%nat by (simpl; lia).
  reflexivity.
Qed.

End BackoffFacts.

(** X11: [invoke] sleeps between two attempts only: never before the first
    attempt and never after the last.  The delays of one [invoke] are
    100 ms, 200 ms, 400 ms, ..., one less than the attempts made; they add
    up to [100 * (2 ^ k - 1)] ms for [k] delays, which stays below the
    [100 * 2 ^ (max_retries - 1)] ms of a client that makes attempts.  This
    holds whether [invoke] returns or raises. *)
Theorem invoke_sleeps_between_attempts_only
    (I : interpreter) (fails : nat -> bool) (self : RobustAPIClient.t)
    (input : pydict) (w : RobustAPIClient.world) :
  exists k : nat,
    RobustAPIClient.slept (RobustAPIClient.invoke I fails self input w).2
    = RobustAPIClient.slept w ++ RobustAPIClient.backoff 0 k
    /\ RobustDemo.total_delay (RobustAPIClient.backoff 0 k)
       = 100 * (2 ^ Z.of_nat k - 1)
    /\ Z.of_nat k <= Z.max 0 (RobustAPIClient.max_retries self - 1)
    /\ RobustDemo.total_delay (RobustAPIClient.backoff 0 k)
       <= 100 * (2 ^ Z.max 0 (RobustAPIClient.max_retries self - 1) - 1)
    /\ (RobustAPIClient.draws (RobustAPIClient.invoke I fails self input w).2
        = RobustAPIClient.draws w /\ k = 0%nat
        \/ RobustAPIClient.draws (RobustAPIClient.invoke I fails self input w).2
           = (RobustAPIClient.draws w + k + 1)%nat).
Proof.
  destruct (RobustAPIClient.invoke I fails self input w) as [[r self'] w'] eqn:Hrun.
  apply RobustFacts.invoke_ending in Hrun. cbn [snd].
  assert (forall k : nat,
             Z.of_nat k <= Z.max 0 (RobustAPIClient.max_retries self - 1) ->
             RobustDemo.total_delay (RobustAPIClient.backoff 0 k)
             = 100 * (2 ^ Z.of_nat k - 1)
             /\ RobustDemo.total_delay (RobustAPIClient.backoff 0 k)
                <= 100 * (2 ^ Z.max 0 (RobustAPIClient.max_retries self - 1) - 1))
    as Hsum.
  { intros k Hk. rewrite BackoffFacts.total_backoff by lia.
    split; [lia|].
    assert (2 ^ Z.of_nat k <= 2 ^ Z.max 0 (RobustAPIClient.max_retries self - 1))
      by (apply Z.pow_le_mono_r; lia).
    lia. }
  destruct Hrun as [k Hk _ _ _ _ _ _ _ _ Hd Hs
                   | Hp _ _ _ _ _ _ _ Hd Hs
                   | k msg Hk _ _ _ _ _ _ _ _ Hd Hs
                   | Hzero _ _ ->]; simpl in *.
  - exists k. assert (Z.of_nat k <= Z.max 0 (RobustAPIClient.max_retries self - 1))
      as Hle by lia.
    destruct (Hsum k Hle). repeat split; try done. by right.
  - exists (Z.to_nat (RobustAPIClient.max_retries self) - 1)%nat.
    assert (Z.of_nat (Z.to_nat (RobustAPIClient.max_retries self) - 1)
            <= Z.max 0 (RobustAPIClient.max_retries self - 1)) as Hle by lia.
    destruct (Hsum _ Hle). repeat split; try done. right. lia.
  - exists k. assert (Z.of_nat k <= Z.max 0 (RobustAPIClient.max_retries self - 1))
      as Hle by lia.
    destruct (Hsum k Hle). repeat split; try done. by right.
  - exists 0%nat. destruct (Hsum 0%nat) as [Heq Hle]; [lia|].
    split; [by rewrite app_nil_r|]. split; [done|]. split; [lia|].
    split; [done|]. by left.
Qed.

(** X12: The counters of a client that makes attempts account for every call:
    each [invoke] is a success, is counted in [failures], or ends with an
    exception, and each draw is counted in [retries], is that of a success,
    or is the one before the exception of the f-string.  When the
    interpreter can evaluate the f-string for every input and [time.sleep]
    takes the delays, no [invoke] raises: each is a success or a counted
    failure. *)
Theorem every_call_is_a_success_or_a_failure
    (I : interpreter) (fails : nat -> bool) (inputs : list pydict)
    (self : RobustAPIClient.t) (w : RobustAPIClient.world) :
  1 <= RobustAPIClient.max_retries self ->
  forall rs self' w',
    RobustAPIClient.invoke_all I fails self inputs w = (rs, self', w') ->
    Z.of_nat (List.length (List.filter RobustDemo.succeeded rs))
    + (RobustAPIClient.failures (RobustAPIClient.metrics self')
       - RobustAPIClient.failures (RobustAPIClient.metrics self))
    + Z.of_nat (List.length (List.filter RobustDemo.raised rs))
    = Z.of_nat (List.length inputs)
    /\ (RobustAPIClient.draws w <= RobustAPIClient.draws w')%nat
    /\ Z.of_nat (RobustAPIClient.draws w' - RobustAPIClient.draws w)
       = RobustAPIClient.retries (RobustAPIClient.metrics self')
         - RobustAPIClient.retries (RobustAPIClient.metrics self)
         + Z.of_nat (List.length (List.filter RobustDemo.succeeded rs))
         + Z.of_nat (List.length
                       (List.filter (fun r => RobustDemo.raised r
                                              && negb (RobustDemo.overslept r)) rs))
    /\ (Forall (fun input =>
                  is_ok (py_format I (dict_get_none input "data")) = true) inputs ->
        RobustAPIClient.sleeps I 0
          (Z.to_nat (RobustAPIClient.max_retries self) - 1) ->
        Forall (fun r => is_ok r = true) rs
        /\ Z.of_nat (List.length (List.filter RobustDemo.succeeded rs))
           + (RobustAPIClient.failures (RobustAPIClient.metrics self')
              - RobustAPIClient.failures (RobustAPIClient.metrics self))
           = Z.of_nat (List.length inputs)
        /\ Z.of_nat (RobustAPIClient.draws w' - RobustAPIClient.draws w)
           = RobustAPIClient.retries (RobustAPIClient.metrics self')
             - RobustAPIClient.retries (RobustAPIClient.metrics self)
             + Z.of_nat (List.length (List.filter RobustDemo.succeeded rs))).
Proof.
  intros Hpos. revert self w Hpos.
  induction inputs as [|input rest IH]; intros self w Hpos rs self' w' Hrun.
  - simpl in Hrun. injection Hrun as <- <- <-. simpl.
    repeat split; try lia. constructor.
  - simpl in Hrun.
    destruct (RobustAPIClient.invoke I fails self input w) as [[r self1] w1] eqn:H1.
    destruct (RobustAPIClient.invoke_all I fails self1 rest w1)
      as [[rs' self2] w2] eqn:H2.
    injection Hrun as <- <- <-.
    apply BackoffFacts.invoke_accounts in H1
      as (Hm & Hf & Hle & Hd & Hexcl & Hok); [|done].
    apply IH in H2 as (Hfs & Hles & Hds & Hoks); [|lia].
    assert (Z.of_nat (List.length (List.filter RobustDemo.succeeded (r :: rs')))
            + (RobustAPIClient.failures (RobustAPIClient.metrics self2)
               - RobustAPIClient.failures (RobustAPIClient.metrics self))
            + Z.of_nat (List.length (List.filter RobustDemo.raised (r :: rs')))
            = Z.of_nat (List.length (input :: rest))) as Hcount.
    { cbn [List.filter List.length].
      destruct (RobustDemo.succeeded r), (RobustDemo.raised r);
        cbn [List.length orb andb] in *; try discriminate; lia. }
    assert (Z.of_nat (RobustAPIClient.draws w2 - RobustAPIClient.draws w)
            = RobustAPIClient.retries (RobustAPIClient.metrics self2)
              - RobustAPIClient.retries (RobustAPIClient.metrics self)
              + Z.of_nat (List.length (List.filter RobustDemo.succeeded (r :: rs')))
              + Z.of_nat (List.length
                            (List.filter (fun r => RobustDemo.raised r
                                                   && negb (RobustDemo.overslept r))
                                         (r :: rs')))) as Hdraws.
    { cbn [List.filter List.length].
      destruct (RobustDemo.succeeded r), (RobustDemo.raised r),
        (RobustDemo.overslept r);
        cbn [List.length orb andb negb] in *; try discriminate; lia. }
    split; [done|]. split; [lia|]. split; [done|].
    intros Hfmt Hsl. apply Forall_cons in Hfmt as [Hfmt1 Hfmts].
    specialize (Hok Hfmt1 Hsl).
    rewrite Hm in Hoks. destruct (Hoks Hfmts Hsl) as (Hall & _ & _).
    assert (Forall (fun r => is_ok r = true) (r :: rs')) as Hallok
      by (by constructor).
    split; [done|].
    destruct (BackoffFacts.none_raised _ Hallok) as [Hn1 Hn2].
    rewrite Hn1 in Hcount. rewrite Hn2 in Hdraws.
    change (Z.of_nat (List.length (@nil (result pydict)))) with 0 in Hcount, Hdraws.
    split; lia.
Qed.

(** The client of the script, five requests, the draws failing at 0, 2, 3
    and 4: a success at the second attempt, a failure after three, three
    successes at the first. *)
Lemma every_call_is_a_success_or_a_failure_witness :
  1 <= RobustAPIClient.max_retries (RobustAPIClient.init 3)
  /\ (RobustAPIClient.invoke_all cpython
        (fun k => Nat.eqb k 0 || (Nat.leb 2 k && Nat.leb k 4))
        (RobustAPIClient.init 3)
        [[("data", VStr "request_0")]; [("data", VStr "request_1")];
         [("data", VStr "request_2")]; [("data", VStr "request_3")];
         [("data", VStr "request_4")]]
        (RobustAPIClient.mkWorld 0 [])).1.2
     = RobustAPIClient.mkClient 3 (RobustAPIClient.mkMetrics 5 1 4)
  /\ Z.of_nat
       (List.length
          (List.filter RobustDemo.succeeded
             (RobustAPIClient.invoke_all cpython
                (fun k => Nat.eqb k 0 || (Nat.leb 2 k && Nat.leb k 4))
                (RobustAPIClient.init 3)
                [[("data", VStr "request_0")]; [("data", VStr "request_1")];
                 [("data", VStr "request_2")]; [("data", VStr "request_3")];
                 [("data", VStr "request_4")]]
                (RobustAPIClient.mkWorld 0 [])).1.1))
     + (1 - 0)
     + 0
     = 5.
Proof.
  split; [simpl; lia|]. split; [reflexivity|].
  pose proof (every_call_is_a_success_or_a_failure cpython
                (fun k => Nat.eqb k 0 || (Nat.leb 2 k && Nat.leb k 4))
                [[("data", VStr "request_0")]; [("data", VStr "request_1")];
                 [("data", VStr "request_2")]; [("data", VStr "request_3")];
                 [("data", VStr "request_4")]]
                (RobustAPIClient.init 3) (RobustAPIClient.mkWorld 0 [])
                ltac:(simpl; lia) _ _ _ eq_refl) as (H & _).
  exact H.
Defined.

(** X13: A client with [max_retries] zero or negative makes no attempt: every
    [invoke] returns the error [Max retries exceeded] without a draw and
    without a delay, and only [calls] counts it; [failures] stays as it
    is, though every result is an error. *)
Theorem client_without_attempts_counts_no_failure
    (I : interpreter) (fails : nat -> bool) (inputs : list pydict)
    (self : RobustAPIClient.t) (w : RobustAPIClient.world) :
  RobustAPIClient.max_retries self <= 0 ->
  RobustAPIClient.invoke_all I fails self inputs w
  = (map (fun _ => Ok RobustAPIClient.exceeded_dict) inputs,
     RobustAPIClient.mkClient (RobustAPIClient.max_retries self)
       (RobustAPIClient.mkMetrics
          (RobustAPIClient.calls (RobustAPIClient.metrics self)
           + Z.of_nat (List.length inputs))
          (RobustAPIClient.failures (RobustAPIClient.metrics self))
          (RobustAPIClient.retries (RobustAPIClient.metrics self))),
     w).
Proof.
  revert self. induction inputs as [|input rest IH]; intros self Hle.
  - simpl. rewrite Z.add_0_r. by destruct self as [m [c f r]].
  - cbn [RobustAPIClient.invoke_all].
    rewrite BackoffFacts.invoke_no_attempt by done.
    rewrite IH by (simpl; lia). simpl.
    do 3 f_equal. rewrite <- Z.add_assoc. f_equal. lia.
Qed.

(** Two requests to a client made with [max_retries=0]. *)
Lemma client_without_attempts_counts_no_failure_witness :
  RobustAPIClient.invoke_all cpython (fun _ => false) (RobustAPIClient.init 0)
    [[("data", VStr "request_0")]; [("data", VStr "request_1")]]
    (RobustAPIClient.mkWorld 0 [])
  = ([Ok [("status", VStr "error"); ("error", VStr "Max retries exceeded")];
      Ok [("status", VStr "error"); ("error", VStr "Max retries exceeded")]],
     RobustAPIClient.mkClient 0 (RobustAPIClient.mkMetrics 2 0 0),
     RobustAPIClient.mkWorld 0 []).
Proof.
  exact (client_without_attempts_counts_no_failure cpython (fun _ => false)
           [[("data", VStr "request_0")]; [("data", VStr "request_1")]]
           (RobustAPIClient.init 0) (RobustAPIClient.mkWorld 0 [])
           ltac:(simpl; lia)).
Defined.

(** ** Each key is computed once *)

Module OnceFacts.
Import CachingRunnable.

Section Wrapped.

Context {R St C : Type}.
Variable run : pydict -> C -> St -> result R * St.
Variable I : interpreter.
Variable out : console.

(** The wrapped runnable never raises. *)
Hypothesis run_returns : forall input config s, is_ok (run input config s).1 = true.

Lemma invoke_all_once (calls : list (pydict * C)) :
  forall (self : t) (w : world) rs self' w',
    invoke_all run I out self calls w = (rs, self', w') ->
    exists new,
      inner_calls w' = inner_calls w ++ new
      /\ NoDup (cache_key <$> new.*1)
      /\ (forall c, c ∈ new -> c ∈ calls /\ cache self !! cache_key c.1 = None)
      /\ (forall k, is_Some (cache self' !! k) <->
                    is_Some (cache self !! k) \/ k ∈ cache_key <$> new.*1)
      /\ ((forall k, out k = None) ->
          Forall (fun call => items_str_fails I (sorted_items call.1) = None) calls ->
          forall i, i ∈ calls.*1 -> is_Some (cache self' !! cache_key i)).
Proof.
  induction calls as [|[input config] rest IH]; intros self w rs self' w' Hrun.
  - simpl in Hrun. injection Hrun as <- <- <-. exists [].
    rewrite app_nil_r. split; [done|]. split; [constructor|].
    split; [intros i Hi; by apply elem_of_nil in Hi|].
    split; [|intros _ _ i Hi; by apply elem_of_nil in Hi].
    intros k. split; [by left|]. intros [H|H]; [done|]. by apply elem_of_nil in H.
  - simpl in Hrun.
    destruct (invoke run I out self input config w) as [[r1 self1] w1] eqn:H1.
    destruct (invoke_all run I out self1 rest w1) as [[rs2 self2] w2] eqn:H2.
    injection Hrun as <- <- <-.
    destruct (IH _ _ _ _ _ H2) as (new & Hcalls & Hnd & Hnew & Hdom & Hall).
    unfold invoke, print in H1.
    destruct (eval_cache_key I input) as [key|e] eqn:Hkey.
    2:{ injection H1 as <- <- <-. exists new.
        split; [done|]. split; [done|].
        split.
        { intros c Hc. destruct (Hnew c Hc). split; [|done].
          apply elem_of_cons. by right. }
        split; [done|].
        intros _ Hformed. apply Forall_cons in Hformed as [Hf _]. simpl in Hf.
        unfold eval_cache_key in Hkey. rewrite Hf in Hkey. discriminate. }
    apply CachingFacts.eval_cache_key_ok in Hkey as ->.
    destruct (cache self !! cache_key input) as [r0|] eqn:Hc.
    + assert (self1 = self /\ inner_calls w1 = inner_calls w) as [-> Hw1]
        by (destruct (out (prints w)); by injection H1 as <- <- <-).
      exists new. split; [by rewrite Hcalls, Hw1|]. split; [done|].
      split.
      { intros c Hcn. destruct (Hnew c Hcn). split; [|done].
        apply elem_of_cons. by right. }
      split; [done|].
      intros Hout Hformed i Hi. apply Forall_cons in Hformed as [_ Hformed].
      cbn in Hi. apply elem_of_cons in Hi as [->|Hi]; [|by apply Hall].
      apply Hdom. left. by rewrite Hc.
    + destruct (out (prints w)) as [e|] eqn:Ho.
      { injection H1 as <- <- <-. exists new.
        split; [done|]. split; [done|].
        split.
        { intros c Hcn. destruct (Hnew c Hcn). split; [|done].
          apply elem_of_cons. by right. }
        split; [done|].
        intros Hout. rewrite Hout in Ho. discriminate. }
      simpl in H1.
      pose proof (run_returns input config (inner w)) as Hok.
      destruct (run input config (inner w)) as [[r|e] s'] eqn:Hr; [|discriminate].
      injection H1 as <- <- <-. simpl in *.
      exists ((input, config) :: new).
      split; [by rewrite Hcalls, <- app_assoc|].
      split.
      { cbn. constructor; [|done].
        intros Hin. apply list_elem_of_fmap in Hin as (i & Hki & Hi).
        apply list_elem_of_fmap in Hi as (c & -> & Hcn).
        destruct (Hnew c Hcn) as [_ Hnone].
        rewrite <- Hki, lookup_insert_eq in Hnone. discriminate. }
      split.
      { intros c Hcn. apply elem_of_cons in Hcn as [->|Hcn].
        - split; [apply elem_of_cons; by left | done].
        - destruct (Hnew c Hcn) as [Hin Hnone].
          split; [apply elem_of_cons; by right|].
          destruct (decide (cache_key input = cache_key c.1)) as [Heq|Hne].
          + rewrite Heq, lookup_insert_eq in Hnone. discriminate.
          + by rewrite lookup_insert_ne in Hnone. }
      split.
      { intros k. rewrite Hdom. cbn. rewrite elem_of_cons.
        destruct (decide (cache_key input = k)) as [<-|Hne].
        - rewrite lookup_insert_eq. split; [intros _; right; by left|].
          intros _. left. by eexists.
        - rewrite lookup_insert_ne by done. split.
          + intros [H|H]; [by left | right; by right].
          + intros [H|[H|H]]; [by left | congruence | by right]. }
      intros Hout Hformed i Hi. apply Forall_cons in Hformed as [_ Hformed].
      cbn in Hi. apply elem_of_cons in Hi as [->|Hi]; [|by apply Hall].
      apply Hdom. left. rewrite lookup_insert_eq. by eexists.
Qed.

End Wrapped.

Section Raising.

Context {R St C : Type}.
Variable run : pydict -> C -> St -> result R * St.
Variable I : interpreter.
Variable out : console.

(** An input on which the wrapped runnable raises in every state. *)
Lemma invoke_all_raising (input : pydict) (config : C) (n : nat) :
  (forall c s, is_ok (run input c s).1 = false) ->
  forall (self : t) (w : world),
    cache self !! cache_key input = None ->
    forall rs self' w',
      invoke_all run I out self (replicate n (input, config)) w = (rs, self', w') ->
      self' = self
      /\ Forall (fun r => is_ok r = false) rs
      /\ (items_str_fails I (sorted_items input) = None ->
          (forall k, out k = None) ->
          inner_calls w' = inner_calls w ++ replicate n (input, config)).
Proof.
  intros Hraise. induction n as [|n IH]; intros self w Hkey rs self' w' Hrun.
  - simpl in Hrun. injection Hrun as <- <- <-. by rewrite app_nil_r.
  - simpl in Hrun.
    destruct (invoke run I out self input config w) as [[r1 self1] w1] eqn:H1.
    destruct (invoke_all run I out self1 (replicate n (input, config)) w1)
      as [[rs2 self2] w2] eqn:H2.
    injection Hrun as <- <- <-.
    unfold invoke, print in H1.
    destruct (eval_cache_key I input) as [key|e] eqn:Hk.
    2:{ injection H1 as <- <- <-.
        destruct (IH _ _ Hkey _ _ _ H2) as (-> & Hrs & Hcalls).
        split; [done|]. split; [by constructor|].
        intros Hformed. unfold eval_cache_key in Hk. rewrite Hformed in Hk.
        discriminate. }
    apply CachingFacts.eval_cache_key_ok in Hk as ->. rewrite Hkey in H1.
    destruct (out (prints w)) as [e|] eqn:Ho.
    { injection H1 as <- <- <-.
      destruct (IH _ _ Hkey _ _ _ H2) as (-> & Hrs & Hcalls).
      split; [done|]. split; [by constructor|].
      intros _ Hout. rewrite Hout in Ho. discriminate. }
    simpl in H1.
    pose proof (Hraise config (inner w)) as Hno.
    destruct (run input config (inner w)) as [[r|e] s'] eqn:Hr; [discriminate|].
    injection H1 as <- <- <-.
    destruct (IH _ _ Hkey _ _ _ H2) as (-> & Hrs & Hcalls).
    split; [done|]. split; [by constructor|].
    intros Hformed Hout. rewrite (Hcalls Hformed Hout). simpl.
    by rewrite <- app_assoc.
Qed.

End Raising.

End OnceFacts.

(** X14: A [CachingRunnable] around a runnable that never raises computes each
    key once.  Over any series of invocations of a fresh instance, the
    wrapped runnable is invoked with arguments of the series only, no two
    of them forming the same cache key; and when every key is formed and
    every line printed, every input of the series has got its key
    computed. *)
Theorem each_key_is_computed_once
    (R S C : Type) (run : pydict -> C -> S -> result R * S)
    (I : interpreter) (out : console) (calls : list (pydict * C))
    (w : CachingRunnable.world) :
  (forall input config s, is_ok (run input config s).1 = true) ->
  forall rs self' w',
    CachingRunnable.invoke_all run I out CachingRunnable.init calls w
      = (rs, self', w') ->
    exists new,
      CachingRunnable.inner_calls w' = CachingRunnable.inner_calls w ++ new
      /\ NoDup (CachingRunnable.cache_key <$> new.*1)
      /\ (forall c, c ∈ new -> c ∈ calls)
      /\ ((forall k, out k = None) ->
          Forall (fun call => items_str_fails I (sorted_items call.1) = None) calls ->
          forall i, i ∈ calls.*1 ->
                    CachingRunnable.cache_key i
                      ∈ CachingRunnable.cache_key <$> new.*1).
Proof.
  intros Hreturns rs self' w' Hrun.
  destruct (OnceFacts.invoke_all_once run I out Hreturns calls _ _ _ _ _ Hrun)
    as (new & Hcalls & Hnd & Hnew & Hdom & Hall).
  exists new. split; [done|]. split; [done|].
  split; [intros c Hc; by destruct (Hnew c Hc)|].
  intros Hout Hformed i Hi. pose proof (Hall Hout Hformed i Hi) as Hsome.
  apply Hdom in Hsome.
  destruct Hsome as [Hinit|Hin]; [|done].
  unfold CachingRunnable.init in Hinit. simpl in Hinit.
  rewrite lookup_empty in Hinit. by destruct Hinit.
Qed.

(** The three invocations of the script: the operation runs twice. *)
Lemma each_key_is_computed_once_witness :
  CachingRunnable.inner_calls
    (CachingRunnable.invoke_all
       (CachingRunnable.pure_runnable
          (fun x => Ok (VStr ("Processed: " +:+ py_str (dict_get_none x "data")))))
       cpython reliable CachingRunnable.init
       (CachingRunnable.without_config
          [[("data", VStr "hello")]; [("data", VStr "hello")];
           [("data", VStr "world")]])
       (CachingRunnable.mkWorld tt [] [] 0)).2
  = [([("data", VStr "hello")], None); ([("data", VStr "world")], None)]
  /\ exists new,
       [([("data", VStr "hello")], @None pydict); ([("data", VStr "world")], None)]
       = [] ++ new
       /\ NoDup (CachingRunnable.cache_key <$> new.*1).
Proof.
  split; [reflexivity|].
  destruct (each_key_is_computed_once pyval unit (option pydict)
              (CachingRunnable.pure_runnable
                 (fun x => Ok (VStr ("Processed: " +:+ py_str (dict_get_none x "data")))))
              cpython reliable
              (CachingRunnable.without_config
                 [[("data", VStr "hello")]; [("data", VStr "hello")];
                  [("data", VStr "world")]])
              (CachingRunnable.mkWorld tt [] [] 0)
              (fun _ _ _ => eq_refl) _ _ _ eq_refl)
    as (new & Hcalls & Hnd & _).
  exists new. split; [exact Hcalls | exact Hnd].
Defined.

(** X15: What a [CachingRunnable] does not keep.  A failure is not cached: an
    input on which the wrapped runnable raises leaves the cache as it is,
    every [invoke] of it raises, and it is handed to the wrapped runnable
    again at every [invoke] whose key is formed and whose line is printed.
    After [clear_cache] every such input is computed again. *)
Theorem failures_are_not_cached
    (R S C : Type) (run : pydict -> C -> S -> result R * S)
    (I : interpreter) (out : console) :
  (forall (input : pydict) (config : C) (n : nat) (self : CachingRunnable.t)
          (w : CachingRunnable.world) rs self' w',
      (forall c s, is_ok (run input c s).1 = false) ->
      CachingRunnable.cache self !! CachingRunnable.cache_key input = None ->
      CachingRunnable.invoke_all run I out self (replicate n (input, config)) w
        = (rs, self', w') ->
      self' = self
      /\ Forall (fun r => is_ok r = false) rs
      /\ (items_str_fails I (sorted_items input) = None ->
          (forall k, out k = None) ->
          CachingRunnable.inner_calls w'
          = CachingRunnable.inner_calls w ++ replicate n (input, config)))
  /\ (forall (self : CachingRunnable.t) (input : pydict) (config : C)
             (w : CachingRunnable.world),
         items_str_fails I (sorted_items input) = None ->
         out (CachingRunnable.prints w) = None ->
         CachingRunnable.inner_calls
           (CachingRunnable.invoke run I out (CachingRunnable.clear_cache self)
              input config w).2
         = CachingRunnable.inner_calls w ++ [(input, config)]).
Proof.
  split.
  - intros input config n self w rs self' w' Hraise Hkey Hrun.
    by eapply OnceFacts.invoke_all_raising.
  - intros self input config w Hformed Hout.
    unfold CachingRunnable.invoke, CachingRunnable.print, CachingRunnable.clear_cache.
    rewrite (CachingFacts.eval_cache_key_formed _ _ Hformed), Hout.
    cbn [CachingRunnable.cache]. rewrite lookup_empty. simpl.
    by destruct (run input config _) as [[r|e] s'].
Qed.

(** ** What [custom_streamer] puts on the terminal *)

Module PrintedFacts.
Import PyStr.

Lemma concat_empty_cons (x : string) (xs : list string) :
  String.concat "" (x :: xs) = x +:+ String.concat "" xs.
Proof.
  destruct xs as [|y ys]; [|reflexivity].
  simpl. induction x as [|c x IH]; [done|].
  rewrite TextFacts.append_cons. by rewrite <- IH.
Qed.

(** A run of characters that are not white space goes to the current
    word. *)
Lemma split_from_run (word : string) :
  forall (cur : list ascii) (rest : string),
    forallb_str (fun c => negb (is_space c)) word = true ->
    split_from cur (word +:+ rest)
    = split_from (rev (list_ascii_of_string word) ++ cur) rest.
Proof.
  induction word as [|c word IH]; intros cur rest Hword; [done|].
  cbn [forallb_str] in Hword. apply andb_true_iff in Hword as [Hc Hword].
  rewrite TextFacts.append_cons. cbn [split_from].
  apply negb_true_iff in Hc. rewrite Hc.
  rewrite IH by done. cbn [list_ascii_of_string rev].
  by rewrite <- app_assoc.
Qed.

(** Words, each followed by a blank, split into the words. *)
Lemma split_joined (words : list string) :
  Forall is_word words ->
  split (String.concat "" (map (fun word => word +:+ " ") words)) = words.
Proof.
  unfold split. induction 1 as [|word words [Hne Hword] _ IH]; [done|].
  cbn [map]. rewrite concat_empty_cons, TextFacts.append_assoc.
  rewrite split_from_run by done. rewrite app_nil_r.
  rewrite TextFacts.append_cons. cbn [split_from].
  change (is_space " ") with true. cbv iota.
  change ("" +:+ ?s) with s. rewrite IH.
  destruct (rev (list_ascii_of_string word)) as [|c l] eqn:Hrev.
  - apply (f_equal (@rev ascii)) in Hrev. rewrite rev_involutive in Hrev.
    apply (f_equal string_of_list_ascii) in Hrev.
    rewrite string_of_list_ascii_of_string in Hrev. done.
  - cbn [flush app]. rewrite <- Hrev, rev_involutive.
    by rewrite string_of_list_ascii_of_string.
Qed.

End PrintedFacts.

(** X16: The words survive the streaming.  What the consumer of
    [custom_streamer] has printed once the generator is exhausted splits
    into the words of the text again, and streaming the printed text gives
    the same chunks and delays once more. *)
Theorem streamed_text_has_the_words (input : pydict) (text : string) :
  dict_get input "text" (VStr "") = VStr text ->
  exists steps,
    custom_streamer input = Ok steps
    /\ PyStr.split (streamed_text steps) = PyStr.split text
    /\ custom_streamer [("text", VStr (streamed_text steps))] = Ok steps.
Proof.
  intros Htext. unfold custom_streamer at 1. rewrite Htext.
  eexists. split; [reflexivity|].
  assert (PyStr.split
            (streamed_text
               (flat_map (fun word => [Yield (word +:+ " "); Sleep 100])
                         (PyStr.split text)))
          = PyStr.split text) as Hsplit.
  { unfold streamed_text. rewrite StreamFacts.chunks_of_flat_map.
    apply PrintedFacts.split_joined, StreamFacts.split_words. }
  split; [exact Hsplit|].
  unfold custom_streamer. cbn [dict_get dict_lookup String.eqb Ascii.eqb Bool.eqb].
  by rewrite Hsplit.
Qed.

(** The text of the script with more white space in it. *)
Lemma streamed_text_has_the_words_witness :
  exists steps,
    custom_streamer [("text", VStr "  Hello   world from  custom generator ")] = Ok steps
    /\ streamed_text steps = "Hello world from custom generator ".
Proof.
  destruct (streamed_text_has_the_words
              [("text", VStr "  Hello   world from  custom generator ")]
              "  Hello   world from  custom generator " eq_refl) as (steps & Hrun & _ & _).
  exists steps. split; [exact Hrun|].
  injection Hrun as <-. reflexivity.
Defined.

(** ** The two schemas and the two input checks side by side *)

Module AgreeFacts.
Import PyStr.

Lemma alnum_not_underscore (c : ascii) :
  is_alnum c = true -> Ascii.eqb "_" c = false.
Proof. destruct c as [[] [] [] [] [] [] [] []]; (reflexivity || discriminate). Qed.

Lemma remove_none (s : string) :
  forallb_str is_alnum s = true -> remove_char "_" s = s.
Proof.
  induction s as [|c s IH]; [done|].
  cbn [forallb_str remove_char]. intros H.
  apply andb_true_iff in H as [Hc Hs].
  by rewrite (alnum_not_underscore c Hc), IH.
Qed.

End AgreeFacts.

(** X17: The validators of [UserProfile] are the stricter ones for usernames
    and the laxer ones for emails.  A username [UserProfile] accepts is
    accepted by [UserRegistration], which also accepts underscores; an
    email [UserRegistration] accepts is accepted by [UserProfile], with the
    same result, which does not ask for a dot. *)
Theorem schemas_accept_each_other :
  (forall v, UserProfile.validate_username v = Ok v ->
             UserRegistration.username_alphanumeric v = Ok v)
  /\ (forall v v', UserRegistration.email_valid v = Ok v' ->
                   UserProfile.validate_email v = Ok v')
  /\ UserRegistration.username_alphanumeric "john_doe" = Ok "john_doe"
  /\ is_ok (UserProfile.validate_username "john_doe") = false
  /\ UserProfile.validate_email "John@localhost" = Ok "john@localhost"
  /\ is_ok (UserRegistration.email_valid "John@localhost") = false.
Proof.
  split; [|split; [|vm_compute; by repeat split]].
  - intros v. unfold UserProfile.validate_username,
      UserRegistration.username_alphanumeric.
    destruct (PyStr.isalnum v) eqn:Hv; [|discriminate]. intros _.
    apply ValidatorFacts.isalnum_iff in Hv as [Hne Hall].
    rewrite (AgreeFacts.remove_none v Hall).
    assert (PyStr.isalnum v = true) as -> by (by apply ValidatorFacts.isalnum_iff).
    reflexivity.
  - intros v v'. unfold UserRegistration.email_valid, UserProfile.validate_email.
    destruct (PyStr.contains_char "@" v); [|discriminate].
    by destruct (PyStr.contains_char "." v).
Qed.

(** X18: The input check of [production_patterns] accepts exactly the inputs
    that the check of [error_propagation] accepts, and returns them as
    they are; where one fails the other fails with an exception of the
    same class.  Only the messages differ: the former says [Invalid input]
    for a missing text and for a short one alike. *)
Theorem input_checks_agree (x : pydict) :
  (forall y, Production.validate_input x = Ok y <-> validate_input x = Ok y)
  /\ (forall y, Production.validate_input x = Ok y -> y = x)
  /\ (forall e, Production.validate_input x = Raise e ->
                exists e', validate_input x = Raise e'
                           /\ exc_cls e' = exc_cls e
                           /\ (exc_cls e = ValueError -> exc_msg e = "Invalid input")
                           /\ (exc_cls e <> ValueError -> e' = e)).
Proof.
  unfold Production.validate_input, validate_input, dict_getitem.
  destruct (dict_contains x "text") eqn:Hc; cbn [negb].
  2:{ split; [done|]. split; [discriminate|].
      intros e [= <-]. eexists. by repeat split. }
  apply dict_contains_lookup in Hc as [t Ht]. rewrite Ht. cbn [bind].
  assert (forall n : Z,
             (forall y,
                 (if n <? 5 then raise ValueError "Invalid input" else Ok x) = Ok y <->
                 (if n <? 5
                  then raise ValueError "Text too short (minimum 5 characters)"
                  else Ok x) = Ok y)
             /\ (forall y,
                    (if n <? 5 then raise ValueError "Invalid input" else Ok x) = Ok y ->
                    y = x)
             /\ (forall e,
                    (if n <? 5 then raise ValueError "Invalid input" else Ok x) = Raise e ->
                    exists e',
                      (if n <? 5
                       then raise ValueError "Text too short (minimum 5 characters)"
                       else Ok x) = Raise e'
                      /\ exc_cls e' = exc_cls e
                      /\ (exc_cls e = ValueError -> exc_msg e = "Invalid input")
                      /\ (exc_cls e <> ValueError -> e' = e))) as Hsized.
  { intros n. destruct (n <? 5).
    - split; [done|]. split; [discriminate|].
      intros e [= <-]. eexists. by repeat split.
    - split; [done|]. split; [by intros y [= <-] | discriminate]. }
  destruct t as [|b|z|s|l|d]; cbn [py_len bind]; try apply Hsized;
    (split; [done|]); (split; [discriminate|]);
    intros e [= <-]; eexists; by repeat split.
Qed.

(** ** The documents and the questions that are shown *)

Module MatchFacts.
Import FaqMatch.

(** [max_from] gives one of the items. *)
Lemma max_from_item (items : list (string * PyFloat.t)) :
  forall best, exists i, (best :: items) !! i = Some (max_from best items).
Proof.
  induction items as [|item rest IH]; intros best; [by exists 0%nat|].
  cbn [max_from]. destruct (PyFloat.gt item.2 best.2).
  - destruct (IH item) as [i Hi]. by exists (S i).
  - destruct (IH best) as [[|i] Hi]; [by exists 0%nat | by exists (S (S i))].
Qed.

(** No key is greater than [nan]: an item that scores [nan] is kept to the
    end. *)
Lemma max_from_nan (items : list (string * PyFloat.t)) (best : string * PyFloat.t) :
  best.2 = PyFloat.NaN -> max_from best items = best.
Proof.
  intros Hnan. induction items as [|item rest IH]; [done|].
  cbn [max_from]. unfold PyFloat.gt. rewrite Hnan.
  by destruct item.2.
Qed.

(** Without [nan] among the keys, [max_from] gives the first of the items
    with the greatest key. *)
Lemma max_from_first (items : list (string * PyFloat.t)) :
  forall best,
    Forall (fun x => PyFloat.is_nan x.2 = false) (best :: items) ->
    exists i,
      (best :: items) !! i = Some (max_from best items)
      /\ (forall x, x ∈ best :: items ->
                    PyFloat.lt (max_from best items).2 x.2 = false)
      /\ (forall j x, (j < i)%nat -> (best :: items) !! j = Some x ->
                      PyFloat.lt x.2 (max_from best items).2 = true).
Proof.
  induction items as [|item rest IH]; intros best Hg.
  - exists 0%nat. split; [done|]. split.
    + intros x Hx. apply list_elem_of_singleton in Hx as ->.
      destruct (PyFloat.lt best.2 best.2) eqn:H; [|done].
      by rewrite (FloatFacts.lt_asym _ _ H) in H.
    + intros j x Hj. lia.
  - apply Forall_cons in Hg as [Hbest Hg].
    pose proof Hg as Hg'. apply Forall_cons in Hg' as [Hitem Hrest].
    cbn [max_from]. unfold PyFloat.gt.
    destruct (PyFloat.lt best.2 item.2) eqn:Hlt.
    + destruct (IH item Hg) as (i & Hi & Hmax & Hfirst).
      set (m := max_from item rest) in *.
      assert (PyFloat.is_nan m.2 = false) as Hm.
      { apply list_elem_of_lookup_2 in Hi. rewrite Forall_forall in Hg.
        by apply Hg. }
      assert (PyFloat.lt m.2 item.2 = false) as Hmi
        by (apply Hmax, elem_of_cons; by left).
      exists (S i). split; [done|]. split.
      * intros x Hx. apply elem_of_cons in Hx as [->|Hx]; [|by apply Hmax].
        apply (FloatFacts.ge_trans m.2 item.2 best.2); try done.
        by apply FloatFacts.lt_asym.
      * intros j x Hj Hx. destruct j as [|j].
        -- injection Hx as <-.
           destruct (PyFloat.lt best.2 m.2) eqn:Hbm; [done|].
           by rewrite (FloatFacts.ge_trans best.2 m.2 item.2) in Hlt.
        -- apply (Hfirst j x); [lia | done].
    + assert (Forall (fun x => PyFloat.is_nan x.2 = false) (best :: rest)) as Hg2
        by (by constructor).
      destruct (IH best Hg2) as (i & Hi & Hmax & Hfirst).
      set (m := max_from best rest) in *.
      assert (PyFloat.is_nan m.2 = false) as Hm.
      { apply list_elem_of_lookup_2 in Hi. rewrite Forall_forall in Hg2.
        by apply Hg2. }
      assert (PyFloat.lt m.2 best.2 = false) as Hmb
        by (apply Hmax, elem_of_cons; by left).
      assert (PyFloat.lt m.2 item.2 = false) as Hmi
        by (by apply (FloatFacts.ge_trans m.2 best.2 item.2)).
      destruct i as [|i].
      * exists 0%nat. split; [done|]. split; [|intros j x Hj; lia].
        intros x Hx. apply elem_of_cons in Hx as [->|Hx]; [done|].
        apply elem_of_cons in Hx as [->|Hx]; [done|].
        apply Hmax, elem_of_cons. by right.
      * exists (S (S i)). split; [done|]. split.
        -- intros x Hx. apply elem_of_cons in Hx as [->|Hx]; [done|].
           apply elem_of_cons in Hx as [->|Hx]; [done|].
           apply Hmax, elem_of_cons. by right.
        -- intros j x Hj Hx.
           assert (PyFloat.lt best.2 m.2 = true) as Hbm
             by (apply (Hfirst 0%nat best); [lia | done]).
           destruct j as [|[|j]].
           ++ by injection Hx as <-.
           ++ injection Hx as <-.
              destruct (PyFloat.lt item.2 m.2) eqn:Him; [done|].
              by rewrite (FloatFacts.ge_trans best.2 item.2 m.2) in Hbm.
           ++ apply (Hfirst (S j) x); [lia | done].
Qed.

Lemma faqs_getitem_key (faqs : list (string * string)) (question : string) :
  question ∈ map fst faqs ->
  exists answer, faqs_getitem faqs question = Ok answer /\ (question, answer) ∈ faqs.
Proof.
  induction faqs as [|[q a] faqs IH]; intros Hin; [by apply elem_of_nil in Hin|].
  cbn [faqs_getitem]. destruct (String.eqb question q) eqn:Hq.
  - apply String.eqb_eq in Hq as ->. exists a. split; [done|].
    apply elem_of_cons. by left.
  - cbn [map fst] in Hin. apply elem_of_cons in Hin as [->|Hin].
    + by rewrite String.eqb_refl in Hq.
    + destruct (IH Hin) as (answer & Hget & Hmem). exists answer.
      split; [done|]. apply elem_of_cons. by right.
Qed.

(** The numbers of the entries are 1, 2, 3, ... *)
Lemma index_imap_from {A} (f : nat -> A -> string) (g : nat -> A -> PyFloat.t)
    (l : list A) :
  forall n,
    map SemanticSearch.index
        (imap (fun i x => SemanticSearch.mkEntry (S (n + i)) (f i x) (g i x)) l)
    = seq (S n) (List.length l).
Proof.
  induction l as [|x l IH] using rev_ind; intros n; [done|].
  rewrite imap_app, map_app, length_app, seq_app, IH. simpl.
  by rewrite Nat.add_0_r.
Qed.

Lemma index_imap {A} (f : A -> string) (g : A -> PyFloat.t) (l : list A) :
  map SemanticSearch.index
      (imap (fun i x => SemanticSearch.mkEntry (S i) (f x) (g x)) l)
  = seq 1 (List.length l).
Proof. exact (index_imap_from (fun _ => f) (fun _ => g) l 0). Qed.

End MatchFacts.

(** X19: The results of [semantic_search_example] name their documents: each of
    the three entries shown carries the number of its document in the
    knowledge base, counted from one, and the score of that document; no
    document is shown twice. *)
Theorem top3_names_its_documents
    (embedding : Type) (cosine_similarity : embedding -> embedding -> PyFloat.t)
    (query : embedding) (documents : list string) (doc_embeddings : list embedding) :
  Forall (fun e =>
            exists emb,
              (1 <= SemanticSearch.index e)%nat
              /\ documents !! (SemanticSearch.index e - 1)%nat
                 = Some (SemanticSearch.doc e)
              /\ doc_embeddings !! (SemanticSearch.index e - 1)%nat = Some emb
              /\ SemanticSearch.score e = cosine_similarity query emb)
         (SemanticSearch.top3 embedding cosine_similarity query documents
            doc_embeddings)
  /\ NoDup (map SemanticSearch.index
              (SemanticSearch.top3 embedding cosine_similarity query documents
                 doc_embeddings)).
Proof.
  unfold SemanticSearch.top3, SemanticSearch.ranking.
  set (sims := SemanticSearch.similarities embedding cosine_similarity query
                 documents doc_embeddings).
  pose proof (ListSortFacts.list_sort_Permutation SemanticSearch.by_score true sims)
    as Hperm.
  split.
  - apply Forall_forall. intros e He.
    apply elem_of_take in He as (i & He & _).
    apply list_elem_of_lookup_2 in He. rewrite Hperm in He.
    unfold sims, SemanticSearch.similarities in He.
    apply elem_of_lookup_imap in He as (k & [d emb] & -> & Hk).
    apply lookup_zip_with_Some in Hk as (d' & emb' & [= <- <-] & Hd & Hemb).
    exists emb. cbn. rewrite Nat.sub_0_r. repeat split; [lia | done | done].
  - eapply sublist_NoDup; [|apply (fmap_sublist SemanticSearch.index), sublist_take].
    change (NoDup (SemanticSearch.index
                     <$> PySort.list_sort SemanticSearch.by_score true sims)).
    rewrite Hperm. unfold sims, SemanticSearch.similarities.
    change (NoDup (map SemanticSearch.index
                     (imap (fun i de =>
                              SemanticSearch.mkEntry (S i) de.1
                                (cosine_similarity query de.2))
                           (zip documents doc_embeddings)))).
    rewrite MatchFacts.index_imap. apply NoDup_seq.
Qed.

(** X20: The FAQ that [practical_use_case] shows.  With at least one question
    and one embedding, the lookup of the answer never fails: the question
    matched is a question of the FAQ and the answer shown is its answer.
    When no score is [nan], no question scores higher, and of the
    questions with that score it is the first.  When the first question
    scores [nan], it is the one matched, whatever the others score.
    Without a question or without an embedding, [max] raises a
    [ValueError]. *)
Theorem best_match_is_the_first_of_the_best
    (embedding : Type) (cosine_similarity : embedding -> embedding -> PyFloat.t)
    (faqs : list (string * string)) (user_embedding : embedding)
    (faq_embeddings : list embedding) :
  (faqs <> [] -> faq_embeddings <> [] ->
   exists question score answer i,
     FaqMatch.best_match embedding cosine_similarity faqs user_embedding
       faq_embeddings = Ok (question, score, answer)
     /\ (question, answer) ∈ faqs
     /\ FaqMatch.similarities embedding cosine_similarity user_embedding
          (map fst faqs) faq_embeddings !! i
        = Some (question, score)
     /\ (Forall (fun x => PyFloat.is_nan x.2 = false)
           (FaqMatch.similarities embedding cosine_similarity user_embedding
              (map fst faqs) faq_embeddings) ->
         (forall x,
             x ∈ FaqMatch.similarities embedding cosine_similarity user_embedding
                   (map fst faqs) faq_embeddings ->
             PyFloat.lt score x.2 = false)
         /\ (forall j x,
                (j < i)%nat ->
                FaqMatch.similarities embedding cosine_similarity user_embedding
                  (map fst faqs) faq_embeddings !! j = Some x ->
                PyFloat.lt x.2 score = true))
     /\ (forall first,
            FaqMatch.similarities embedding cosine_similarity user_embedding
              (map fst faqs) faq_embeddings !! 0%nat = Some first ->
            first.2 = PyFloat.NaN ->
            (question, score) = first))
  /\ (faqs = [] \/ faq_embeddings = [] ->
      FaqMatch.best_match embedding cosine_similarity faqs user_embedding
        faq_embeddings = raise ValueError "max() arg is an empty sequence").
Proof.
  set (sims := FaqMatch.similarities embedding cosine_similarity user_embedding
                 (map fst faqs) faq_embeddings).
  split.
  - intros Hfaqs Hembs. unfold FaqMatch.best_match. fold sims.
    destruct sims as [|best items] eqn:Hsims.
    { unfold sims, FaqMatch.similarities in Hsims.
      destruct faqs, faq_embeddings; done. }
    cbn [FaqMatch.py_max bind].
    assert (exists i, (best :: items) !! i = Some (FaqMatch.max_from best items)
                      /\ (Forall (fun x => PyFloat.is_nan x.2 = false) (best :: items) ->
                          (forall x, x ∈ best :: items ->
                                     PyFloat.lt (FaqMatch.max_from best items).2 x.2 = false)
                          /\ (forall j x, (j < i)%nat -> (best :: items) !! j = Some x ->
                                          PyFloat.lt x.2 (FaqMatch.max_from best items).2
                                          = true)))
      as (i & Hi & Hbest).
    { destruct (decide (Forall (fun x => PyFloat.is_nan x.2 = false) (best :: items)))
        as [Hg|Hng].
      - destruct (MatchFacts.max_from_first items best Hg) as (i & Hi & Hmax & Hfirst).
        exists i. split; [done|]. intros _. by split.
      - destruct (MatchFacts.max_from_item items best) as [i Hi].
        exists i. split; [done|]. intros Hg. by destruct Hng. }
    assert ((FaqMatch.max_from best items).1 ∈ map fst faqs) as Hkey.
    { apply list_elem_of_lookup_2 in Hi. rewrite <- Hsims in Hi.
      unfold sims, FaqMatch.similarities in Hi.
      apply elem_of_zip_with in Hi as (q & emb & -> & Hq & _). done. }
    destruct (MatchFacts.faqs_getitem_key faqs _ Hkey) as (answer & Hget & Hmem).
    rewrite Hget. cbn [bind].
    exists (FaqMatch.max_from best items).1, (FaqMatch.max_from best items).2,
      answer, i.
    split; [done|]. split; [done|].
    split; [by destruct (FaqMatch.max_from best items)|].
    split; [done|].
    intros first [= <-] Hnan. rewrite (MatchFacts.max_from_nan items best Hnan).
    by destruct best.
  - intros Hempty. unfold FaqMatch.best_match, FaqMatch.similarities.
    destruct Hempty as [-> | ->]; [done|].
    by destruct (map fst faqs).
Qed.

(** ** Stripping, lower case and counting *)

Module StripFacts.
Import PyStr PyText.

Lemma is_space_lower (c : ascii) : is_space (lower_char c) = is_space c.
Proof. destruct c as [[] [] [] [] [] [] [] []]; reflexivity. Qed.

Lemma length_lstrip (s : string) :
  (String.length (lstrip s) <= String.length s)%nat.
Proof.
  induction s as [|c s IH]; [done|].
  cbn [lstrip]. destruct (is_space c); simpl in *; lia.
Qed.

(** A string that [lstrip] leaves alone does not start with white space. *)
Lemma lstrip_fixed (c : ascii) (s : string) :
  lstrip (String c s) = String c s <-> is_space c = false.
Proof.
  cbn [lstrip]. destruct (is_space c); [|done].
  split; [|done]. intros H. pose proof (length_lstrip s) as Hlen.
  rewrite H in Hlen. simpl in Hlen. lia.
Qed.

Lemma lstrip_idempotent (s : string) : lstrip (lstrip s) = lstrip s.
Proof.
  induction s as [|c s IH]; [done|].
  cbn [lstrip]. destruct (is_space c) eqn:Hc; [done|]. by apply lstrip_fixed.
Qed.

Lemma lstrip_rstrip (s : string) : lstrip s = s -> lstrip (rstrip s) = rstrip s.
Proof.
  destruct s as [|c s]; [done|]. intros Hc. apply lstrip_fixed in Hc.
  cbn [rstrip]. destruct (rstrip s); [rewrite Hc|]; by apply lstrip_fixed.
Qed.

Lemma rstrip_idempotent (s : string) : rstrip (rstrip s) = rstrip s.
Proof.
  induction s as [|c s IH]; [done|].
  cbn [rstrip]. destruct (rstrip s) as [|c' r] eqn:Hr.
  - destruct (is_space c) eqn:Hc; [done|]. cbn [rstrip]. by rewrite Hc.
  - cbn [rstrip] in *. by rewrite IH.
Qed.

Lemma strip_idempotent (s : string) : strip (strip s) = strip s.
Proof.
  unfold strip.
  rewrite (lstrip_rstrip (lstrip s)) by apply lstrip_idempotent.
  apply rstrip_idempotent.
Qed.

Lemma lstrip_lower (s : string) : lstrip (lower s) = lower (lstrip s).
Proof.
  unfold lower. induction s as [|c s IH]; [done|].
  cbn [map_str lstrip]. rewrite is_space_lower.
  by destruct (is_space c).
Qed.

Lemma rstrip_lower (s : string) : rstrip (lower s) = lower (rstrip s).
Proof.
  unfold lower. induction s as [|c s IH]; [done|].
  cbn [map_str rstrip]. rewrite IH, is_space_lower.
  destruct (rstrip s) as [|c' r]; cbn [map_str]; [|done].
  by destruct (is_space c).
Qed.

Lemma strip_lower (s : string) : strip (lower s) = lower (strip s).
Proof. unfold strip. by rewrite lstrip_lower, rstrip_lower. Qed.

(** What [x.strip().lower()] gives is stripped and in lower case. *)
Lemma normal_form (s : string) :
  strip (lower (strip s)) = lower (strip s)
  /\ lower (lower (strip s)) = lower (strip s).
Proof.
  split; [|apply ValidatorFacts.lower_idempotent].
  by rewrite strip_lower, strip_idempotent.
Qed.

(** Words are not empty and white space stands between two of them. *)
Lemma words_bound_from (s : string) :
  forall cur,
    (2 * List.length (split_from cur s)
     <= String.length s + 1 + (if cur is [] then 0 else 1))%nat.
Proof.
  induction s as [|c s IH]; intros cur.
  - destruct cur; simpl; lia.
  - cbn [split_from String.length]. destruct (is_space c).
    + rewrite length_app. specialize (IH []). simpl in IH.
      destruct cur; simpl; lia.
    + specialize (IH (c :: cur)). simpl in IH. destruct cur; lia.
Qed.

Lemma words_bound (s : string) :
  2 * Z.of_nat (List.length (split s)) <= Z.of_nat (String.length s) + 1.
Proof. pose proof (words_bound_from s []) as H. unfold split. simpl in H. lia. Qed.

Lemma no_words_from (s : string) :
  forall cur,
    split_from cur s = [] <-> cur = [] /\ forallb_str is_space s = true.
Proof.
  induction s as [|c s IH]; intros cur.
  - destruct cur; simpl; split; try done. by intros [? _].
  - cbn [split_from forallb_str]. destruct (is_space c); cbn [andb].
    + split.
      * intros H. apply app_eq_nil in H as [Hf Hs].
        apply IH in Hs as [_ Hs]. split; [|done]. by destruct cur.
      * intros [-> Hs]. simpl. apply IH. by split.
    + rewrite IH. split; [by intros [? _] | by intros [_ ?]].
Qed.

Lemma count_three (a b c : ascii) (s : string) :
  a <> b -> a <> c -> b <> c ->
  0 <= count_char a s + count_char b s + count_char c s
    <= Z.of_nat (String.length s).
Proof.
  intros Hab Hac Hbc. induction s as [|x s IH]; [simpl; lia|].
  cbn [count_char String.length].
  destruct (Ascii.eqb x a) eqn:Ha; destruct (Ascii.eqb x b) eqn:Hb;
    destruct (Ascii.eqb x c) eqn:Hc;
    try apply Ascii.eqb_eq in Ha; try apply Ascii.eqb_eq in Hb;
    try apply Ascii.eqb_eq in Hc; try congruence; lia.
Qed.

Lemma has_ext (op : string) (ops1 ops2 : list string) :
  (forall o, In o ops1 <-> In o ops2) ->
  TextProcessor.has op (TextProcessor.mkProcessor ops1)
  = TextProcessor.has op (TextProcessor.mkProcessor ops2).
Proof.
  intros Hsame. unfold TextProcessor.has. cbn.
  apply eq_true_iff_eq. rewrite !existsb_exists.
  split; intros (o & Ho & Heq); exists o; (split; [by apply Hsame | done]).
Qed.

End StripFacts.

(** X21: Texts brought to a normal form stay in it.  What the last stage of
    [intent_classifier] returns is stripped and in lower case, and the
    stage returns it unchanged when it gets it again; the [topic] that
    [prepare_input] gives is a topic that [prepare_input] leaves as it is,
    and [original_topic] is the topic as it came. *)
Theorem normalized_text_is_stable :
  (forall x n,
      IntentRouting.normalize x = Ok n ->
      IntentRouting.normalize (VStr n) = Ok n
      /\ PyText.strip n = n /\ PyStr.lower n = n)
  /\ (forall x y,
         Lcel.prepare_input x = Ok y ->
         exists topic,
           dict_lookup y "topic" = Some (VStr topic)
           /\ dict_lookup y "original_topic" = dict_lookup x "topic"
           /\ Lcel.prepare_input [("topic", VStr topic)]
              = Ok [("topic", VStr topic); ("original_topic", VStr topic)]).
Proof.
  split.
  - intros x n. unfold IntentRouting.normalize.
    destruct x as [| | |s| |]; try discriminate.
    cbn [py_strip bind]. intros [= <-].
    destruct (StripFacts.normal_form s) as [Hstrip Hlower].
    by rewrite Hstrip, Hlower.
  - intros x y. unfold Lcel.prepare_input, dict_getitem.
    destruct (dict_lookup x "topic") as [v|]; [|discriminate].
    cbn [bind]. destruct v as [| | |s| |]; try discriminate.
    cbn [py_strip bind]. intros [= <-].
    exists (PyStr.lower (PyText.strip s)). split; [done|]. split; [done|].
    cbn [dict_lookup String.eqb Ascii.eqb Bool.eqb bind py_strip].
    destruct (StripFacts.normal_form s) as [Hstrip Hlower].
    by rewrite Hstrip, Hlower.
Qed.

(** X22: From the answer of the model to the handler.  Whatever the model
    answers, [route_by_intent] after the last stage of the classifier
    raises nothing and hands the query of the input, unchanged, to one of
    the four handlers: to the general one unless the answer, stripped and
    in lower case, names another. *)
Theorem every_answer_finds_a_handler (x : pydict) (answer : string) :
  exists h,
    (intent <- IntentRouting.normalize (VStr answer) ;;
     IntentRouting.route_by_intent (dict_set x "intent" (VStr intent)))
    = Ok (h, [("query", dict_get x "query" (VStr ""))])
    /\ (h = IntentRouting.support_handler <->
        PyStr.lower (PyText.strip answer) = "support")
    /\ (h = IntentRouting.sales_handler <->
        PyStr.lower (PyText.strip answer) = "sales")
    /\ (h = IntentRouting.feedback_handler <->
        PyStr.lower (PyText.strip answer) = "feedback").
Proof.
  unfold IntentRouting.normalize, IntentRouting.route_by_intent.
  cbn [py_strip bind].
  rewrite ConditionalFacts.get_set_eq, DictFacts.get_set_ne by done.
  eexists. split; [reflexivity|].
  destruct (String.eqb (PyStr.lower (PyText.strip answer)) "support") eqn:E1.
  { apply String.eqb_eq in E1. rewrite E1. by repeat split. }
  destruct (String.eqb (PyStr.lower (PyText.strip answer)) "sales") eqn:E2.
  { apply String.eqb_eq in E2. rewrite E2. by repeat split. }
  destruct (String.eqb (PyStr.lower (PyText.strip answer)) "feedback") eqn:E3.
  { apply String.eqb_eq in E3. rewrite E3. by repeat split. }
  apply String.eqb_neq in E1, E2, E3. by repeat split.
Qed.

(** X23: The counts of a text fit together.  [word_counter] and [add_metadata]
    of [chains/01_lcel_basics.py] and the [stats] of [TextProcessor] count
    at most one word for two characters (rounded up), no word exactly for
    a text of white space, and no more sentence marks than characters. *)
Theorem text_counts_fit_together (s : string) :
  (exists words chars,
      Lcel.word_counter (VStr s)
      = Ok [("text", VStr s); ("word_count", VInt words); ("char_count", VInt chars)]
      /\ Lcel.add_metadata (VStr s)
         = Ok [("content", VStr s); ("length", VInt chars); ("words", VInt words)]
      /\ 0 <= 2 * words <= chars + 1
      /\ (words = 0 <-> PyStr.forallb_str PyStr.is_space s = true))
  /\ (forall py_title input,
         dict_get input "text" (VStr "") = VStr s ->
         exists results words sentences,
           TextProcessor.invoke py_title (TextProcessor.init (Some ["analyze"])) input
           = Ok results
           /\ dict_lookup results "stats"
              = Some (VDict [("words", VInt words);
                             ("chars", VInt (Z.of_nat (String.length s)));
                             ("sentences", VInt sentences)])
           /\ 0 <= 2 * words <= Z.of_nat (String.length s) + 1
           /\ 0 <= sentences <= Z.of_nat (String.length s)).
Proof.
  split.
  - exists (Z.of_nat (List.length (PyStr.split s))), (Z.of_nat (String.length s)).
    split; [done|]. split; [done|].
    pose proof (StripFacts.words_bound s). split; [lia|].
    unfold PyStr.split. split; intros Hw.
    + assert (PyStr.split_from [] s = []) as Hnil
        by (destruct (PyStr.split_from [] s); [done | simpl in Hw; lia]).
      by apply StripFacts.no_words_from in Hnil as [_ ?].
    + assert (PyStr.split_from [] s = []) as ->
        by (by apply StripFacts.no_words_from).
      done.
  - intros py_title input Htext.
    unfold TextProcessor.invoke. rewrite Htext.
    cbn [TextProcessor.init TextProcessor.has TextProcessor.operations existsb
         String.eqb Ascii.eqb Bool.eqb orb bind py_split py_len
         TextProcessor.py_count].
    eexists _, _, _. split; [reflexivity|]. split; [reflexivity|].
    pose proof (StripFacts.words_bound s).
    pose proof (StripFacts.count_three "." "!" "?" s) as Hc.
    split; [lia|]. apply Hc; discriminate.
Qed.

(** X24: Which operations a [TextProcessor] runs depends on the names in its
    list only: neither their order nor repetitions matter, and names it
    does not know are passed over.  An empty list stands for all three
    operations, not for none. *)
Theorem operations_are_a_set (py_title : string -> string) (input : pydict) :
  (forall ops1 ops2,
      ops1 <> [] -> ops2 <> [] ->
      (forall op, In op ops1 <-> In op ops2) ->
      TextProcessor.invoke py_title (TextProcessor.init (Some ops1)) input
      = TextProcessor.invoke py_title (TextProcessor.init (Some ops2)) input)
  /\ TextProcessor.invoke py_title (TextProcessor.init (Some [])) input
     = TextProcessor.invoke py_title
         (TextProcessor.init (Some ["enhance"; "analyze"; "clean"])) input
  /\ (forall ops,
         ops <> [] -> ~ In "clean" ops -> ~ In "analyze" ops -> ~ In "enhance" ops ->
         TextProcessor.invoke py_title (TextProcessor.init (Some ops)) input
         = Ok [("original", dict_get input "text" (VStr ""))]).
Proof.
  split; [|split].
  - intros ops1 ops2 H1 H2 Hsame.
    destruct ops1 as [|o1 ops1], ops2 as [|o2 ops2]; try done.
    unfold TextProcessor.invoke. cbn [TextProcessor.init].
    by rewrite !(StripFacts.has_ext _ (o1 :: ops1) (o2 :: ops2) Hsame).
  - reflexivity.
  - intros ops Hne Hc Ha He. destruct ops as [|o ops]; [done|].
    unfold TextProcessor.invoke. cbn [TextProcessor.init].
    assert (forall op, ~ In op (o :: ops) ->
                       TextProcessor.has op (TextProcessor.mkProcessor (o :: ops))
                       = false) as Hno.
    { intros op Hop. unfold TextProcessor.has. cbn [TextProcessor.operations].
      apply not_true_is_false. rewrite existsb_exists.
      intros (o' & Ho' & Heq). apply String.eqb_eq in Heq as ->. done. }
    by rewrite !Hno.
Qed.

(** ** The history of a [StreamingChat] *)

Module ChatFacts.
Import StreamingChat.

Lemma length_entries (exchanges : list (pyval * string)) :
  List.length (flat_map exchange_entries exchanges)
  = (2 * List.length exchanges)%nat.
Proof. induction exchanges as [|e l IH]; simpl; [done|]. rewrite IH. lia. Qed.

Lemma drop_entries (exchanges : list (pyval * string)) :
  forall k,
    drop (2 * k) (flat_map exchange_entries exchanges)
    = flat_map exchange_entries (drop k exchanges).
Proof.
  induction exchanges as [|e l IH]; intros k.
  - cbn [flat_map]. by rewrite !drop_nil.
  - destruct k as [|k]; [done|].
    replace (2 * S k)%nat with (S (S (2 * k))) by lia. simpl. apply IH.
Qed.

(** The last four entries are the last two exchanges. *)
Lemma last4_entries (exchanges : list (pyval * string)) :
  last4 (flat_map exchange_entries exchanges)
  = flat_map exchange_entries (drop (List.length exchanges - 2) exchanges).
Proof.
  unfold last4. rewrite length_entries, <- drop_entries. f_equal. lia.
Qed.

(** In a list of whole exchanges the even places hold the messages. *)
Lemma speakers_entries (exchanges : list (pyval * string)) :
  forall f : nat -> pyval -> string,
    (forall i msg, f (S (S i)) msg = f i msg) ->
    imap f (flat_map exchange_entries exchanges)
    = flat_map (fun e => [f 0%nat e.1; f 1%nat (VStr e.2)]) exchanges.
Proof.
  induction exchanges as [|e l IH]; intros f Hf; [done|].
  simpl. do 2 f_equal. rewrite <- IH by done.
  apply imap_ext. intros i x _. apply Hf.
Qed.

Lemma context_entries (exchanges : list (pyval * string)) :
  context (mkChat (flat_map exchange_entries exchanges))
  = String.concat nl
      (flat_map exchange_lines (drop (List.length exchanges - 2) exchanges)).
Proof.
  unfold context. cbn [history]. rewrite last4_entries.
  by rewrite speakers_entries.
Qed.

Lemma entries_snoc (before : list (pyval * string)) (m : pyval) (r : string) :
  flat_map exchange_entries (before ++ [(m, r)])
  = flat_map exchange_entries before ++ [m; VStr r].
Proof. by rewrite flat_map_app. Qed.

Lemma stream_all_entries (chat_stream : nat -> string -> list string)
    (inputs : list pydict) :
  forall k (before : list (pyval * string)),
    exists exchanges,
      map fst exchanges = map (fun input => dict_get input "message" (VStr "")) inputs
      /\ map snd exchanges
         = map (String.concat "")
               (stream_all chat_stream k (mkChat (flat_map exchange_entries before))
                  inputs).1
      /\ (stream_all chat_stream k (mkChat (flat_map exchange_entries before))
            inputs).2
         = mkChat (flat_map exchange_entries (before ++ exchanges)).
Proof.
  induction inputs as [|input rest IH]; intros k before.
  - exists []. by rewrite app_nil_r.
  - cbn [stream_all stream history].
    set (message := dict_get input "message" (VStr "")).
    set (chunks := chat_stream k _).
    destruct (IH (S k) (before ++ [(message, String.concat "" chunks)]))
      as (exchanges & Hfst & Hsnd & Hhist).
    rewrite entries_snoc in Hhist, Hsnd.
    destruct (stream_all chat_stream (S k) _ rest) as [outs self2].
    cbn [fst snd] in *.
    exists ((message, String.concat "" chunks) :: exchanges).
    split; [cbn; by rewrite Hfst|]. split; [cbn; by rewrite Hsnd|].
    by rewrite Hhist, <- app_assoc.
Qed.

End ChatFacts.

(** X25: The prompts of a [StreamingChat] name the speakers rightly.  After
    any series of messages streamed to the end, the history holds every
    message followed by its response, and the context of the next prompt
    is made of the last two exchanges, each message marked [User:] and each
    response [Assistant:]; with no exchange yet, the prompt starts with an
    empty line. *)
Theorem chat_context_names_the_speakers
    (chat_stream : nat -> string -> list string) (inputs : list pydict) :
  exists exchanges,
    map fst exchanges = map (fun input => dict_get input "message" (VStr "")) inputs
    /\ map snd exchanges
       = map (String.concat "")
             (StreamingChat.stream_all chat_stream 0 StreamingChat.init inputs).1
    /\ StreamingChat.history
         (StreamingChat.stream_all chat_stream 0 StreamingChat.init inputs).2
       = flat_map StreamingChat.exchange_entries exchanges
    /\ StreamingChat.context
         (StreamingChat.stream_all chat_stream 0 StreamingChat.init inputs).2
       = String.concat StreamingChat.nl
           (flat_map StreamingChat.exchange_lines
              (drop (List.length exchanges - 2) exchanges))
    /\ (inputs = [] ->
        forall message,
          StreamingChat.prompt
            (StreamingChat.stream_all chat_stream 0 StreamingChat.init inputs).2
            message
          = StreamingChat.nl +:+ "User: " +:+ py_str message
              +:+ StreamingChat.nl +:+ "Assistant:")
    /\ (forall chat self input,
          (StreamingChat.invoke chat self input).2
          = (StreamingChat.stream (fun prompt => [chat prompt]) self input).2).
Proof.
  destruct (ChatFacts.stream_all_entries chat_stream inputs 0 [])
    as (exchanges & Hfst & Hsnd & Hhist).
  cbn [flat_map app] in *. fold StreamingChat.init in Hhist, Hsnd.
  exists exchanges. split; [done|]. split; [done|].
  rewrite Hhist. split; [done|].
  split; [apply ChatFacts.context_entries|].
  split; [|done].
  intros -> message. destruct exchanges; [|discriminate]. reflexivity.
Qed.

(** ** The metrics of a [MonitoredRunnable] *)

Module MonitorFacts.
Import MonitoredRunnable.

Lemma py_max_l (m d : Q) : (m <= py_max m d)%Q.
Proof.
  unfold py_max. destruct (Qle_bool d m) eqn:H; [apply Qle_refl|].
  apply Qlt_le_weak, Qnot_le_lt. intros Hle. apply Qle_bool_iff in Hle. congruence.
Qed.

Lemma py_max_r (m d : Q) : (d <= py_max m d)%Q.
Proof.
  unfold py_max. destruct (Qle_bool d m) eqn:H; [|apply Qle_refl].
  by apply Qle_bool_iff.
Qed.

Lemma py_min_l (m d : Q) : (py_min (Some m) d <= m)%Q.
Proof.
  unfold py_min. destruct (Qle_bool m d) eqn:H; [apply Qle_refl|].
  apply Qlt_le_weak, Qnot_le_lt. intros Hle. apply Qle_bool_iff in Hle. congruence.
Qed.

Lemma py_min_r (m d : Q) : (py_min (Some m) d <= d)%Q.
Proof.
  unfold py_min. destruct (Qle_bool m d) eqn:H; [|apply Qle_refl].
  by apply Qle_bool_iff.
Qed.

Lemma py_min_is (m d : Q) : py_min (Some m) d = m \/ py_min (Some m) d = d.
Proof. unfold py_min. destruct (Qle_bool m d); auto. Qed.

Lemma invoke_all_snoc {R} (float_add : Q -> Q -> Q) (m : metrics_t)
    (calls : list (call R)) (c : call R) :
  invoke_all float_add m (calls ++ [c])
  = (invoke float_add (invoke_all float_add m calls) c).2.
Proof. unfold invoke_all. by rewrite foldl_app. Qed.

Lemma returned_snoc {R} (calls : list (call R)) (c : call R) :
  returned (calls ++ [c])
  = returned calls ++ match outcome c with
                      | Ok _ => [duration c]
                      | Raise _ => []
                      end.
Proof.
  unfold returned. rewrite omap_app. f_equal. cbn.
  by destruct (outcome c).
Qed.

End MonitorFacts.

(** X26: The metrics of a [MonitoredRunnable] add up.  After any series of
    invocations, [total_calls] counts them all, [successes] those that
    returned and [failures] those that raised an [Exception], one entry of
    [errors] each; a call is in neither count exactly when its exception
    was not an [Exception].  [max_time] is never negative and no call that
    returned took longer.  [min_time] stays infinite until a call returns;
    from then on it is the duration of one of these calls, none of which
    was shorter, and it is not above [max_time]. *)
Theorem monitored_metrics_add_up
    (float_add : Q -> Q -> Q) (R : Type) (calls : list (MonitoredRunnable.call R)) :
  MonitoredRunnable.total_calls
    (MonitoredRunnable.invoke_all float_add MonitoredRunnable.init calls)
  = Z.of_nat (List.length calls)
  /\ MonitoredRunnable.successes
       (MonitoredRunnable.invoke_all float_add MonitoredRunnable.init calls)
     = Z.of_nat (List.length (MonitoredRunnable.returned calls))
  /\ MonitoredRunnable.failures
       (MonitoredRunnable.invoke_all float_add MonitoredRunnable.init calls)
     = Z.of_nat (List.length (List.filter MonitoredRunnable.caught calls))
  /\ List.length
       (MonitoredRunnable.errors
          (MonitoredRunnable.invoke_all float_add MonitoredRunnable.init calls))
     = List.length (List.filter MonitoredRunnable.caught calls)
  /\ Z.of_nat (List.length calls)
     = Z.of_nat (List.length (MonitoredRunnable.returned calls))
       + Z.of_nat (List.length (List.filter MonitoredRunnable.caught calls))
       + Z.of_nat (List.length (List.filter MonitoredRunnable.passed calls))
  /\ (0 <= MonitoredRunnable.max_time
             (MonitoredRunnable.invoke_all float_add MonitoredRunnable.init calls))%Q
  /\ Forall (fun d =>
               (d <= MonitoredRunnable.max_time
                       (MonitoredRunnable.invoke_all float_add MonitoredRunnable.init
                          calls))%Q)
            (MonitoredRunnable.returned calls)
  /\ match MonitoredRunnable.min_time
             (MonitoredRunnable.invoke_all float_add MonitoredRunnable.init calls)
     with
     | None =>
         MonitoredRunnable.returned calls = []
         /\ MonitoredRunnable.max_time
              (MonitoredRunnable.invoke_all float_add MonitoredRunnable.init calls)
            = 0%Q
     | Some lo =>
         lo ∈ MonitoredRunnable.returned calls
         /\ Forall (fun d => (lo <= d)%Q) (MonitoredRunnable.returned calls)
         /\ (lo <= MonitoredRunnable.max_time
                     (MonitoredRunnable.invoke_all float_add MonitoredRunnable.init
                        calls))%Q
     end.
Proof.
  induction calls as [|c calls IH] using rev_ind.
  - cbn. repeat split; try done; try constructor.
  - destruct IH as (Hcalls & Hsucc & Hfail & Herr & Hsum & Hmax0 & Hmax & Hmin).
    rewrite MonitorFacts.invoke_all_snoc, MonitorFacts.returned_snoc.
    rewrite !List.filter_app, !length_app. cbn [List.filter].
    set (m := MonitoredRunnable.invoke_all float_add MonitoredRunnable.init calls) in *.
    unfold MonitoredRunnable.invoke.
    destruct c as [[r|e] d t];
      cbn [MonitoredRunnable.outcome MonitoredRunnable.duration
           MonitoredRunnable.now MonitoredRunnable.caught MonitoredRunnable.passed].
    + cbn [snd MonitoredRunnable.total_calls MonitoredRunnable.successes
           MonitoredRunnable.failures MonitoredRunnable.errors
           MonitoredRunnable.max_time MonitoredRunnable.min_time
           List.length app].
      rewrite !Nat.add_0_r.
      split; [lia|]. split; [lia|]. split; [lia|]. split; [done|]. split; [lia|].
      split; [eapply Qle_trans; [exact Hmax0 | apply MonitorFacts.py_max_l]|].
      split.
      { apply Forall_app. split.
        - eapply Forall_impl; [exact Hmax|]. intros x Hx. cbn in Hx.
          eapply Qle_trans; [exact Hx | apply MonitorFacts.py_max_l].
        - constructor; [apply MonitorFacts.py_max_r | constructor]. }
      destruct (MonitoredRunnable.min_time m) as [lo|].
      * destruct Hmin as (Hin & Hall & Hle).
        split.
        { destruct (MonitorFacts.py_min_is lo d) as [-> | ->].
          - apply elem_of_app. by left.
          - apply elem_of_app. right. by apply list_elem_of_singleton. }
        split.
        { apply Forall_app. split.
          - eapply Forall_impl; [exact Hall|]. intros x Hx. cbn in Hx.
            eapply Qle_trans; [apply MonitorFacts.py_min_l | exact Hx].
          - constructor; [apply MonitorFacts.py_min_r | constructor]. }
        eapply Qle_trans; [apply MonitorFacts.py_min_r | apply MonitorFacts.py_max_r].
      * destruct Hmin as [-> Hzero]. cbn.
        split; [by apply list_elem_of_singleton|].
        split; [constructor; [apply Qle_refl | constructor]|].
        apply MonitorFacts.py_max_r.
    + destruct (is_Exception (exc_cls e));
        cbn [snd MonitoredRunnable.total_calls MonitoredRunnable.successes
             MonitoredRunnable.failures MonitoredRunnable.errors
             MonitoredRunnable.max_time MonitoredRunnable.min_time
             List.length app negb];
        rewrite ?length_app, ?app_nil_r, ?Nat.add_0_r; cbn [List.length];
        (split; [lia|]); (split; [lia|]); (split; [lia|]); (split; [lia|]);
        (split; [lia|]); (split; [done|]); (split; [done|]); done.
Qed.

(** ** [KeyValueParser] *)

Module ParseFacts.
Import PyStr PyText KeyValueParser ParsedDict.

Lemma append_nil_l (s : string) : "" +:+ s = s.
Proof. reflexivity. Qed.

Lemma append_nil_r (s : string) : s +:+ "" = s.
Proof.
  induction s as [|c s IH]; [done|]. by rewrite TextFacts.append_cons, IH.
Qed.

(** *** Characters of a string *)

Lemma contains_char_app (c : ascii) (a b : string) :
  contains_char c (a +:+ b) = contains_char c a || contains_char c b.
Proof.
  unfold contains_char. induction a as [|x a IH]; [done|].
  rewrite TextFacts.append_cons. cbn [existsb_str]. by rewrite IH, orb_assoc.
Qed.

Lemma lstrip_suffix (s : string) : exists a, s = a +:+ lstrip s.
Proof.
  induction s as [|c s [a Ha]]; [by exists ""|].
  cbn [lstrip]. destruct (is_space c).
  - exists (String c a). by rewrite TextFacts.append_cons, <- Ha.
  - by exists "".
Qed.

Lemma rstrip_prefix (s : string) : exists b, s = rstrip s +:+ b.
Proof.
  induction s as [|c s [b Hb]]; [by exists ""|].
  cbn [rstrip]. destruct (rstrip s) as [|c' r] eqn:Hr.
  - destruct (is_space c).
    + by exists (String c s).
    + exists s. by rewrite TextFacts.append_cons.
  - exists b. by rewrite TextFacts.append_cons, <- Hb.
Qed.

(** Stripping adds no character. *)
Lemma contains_char_strip (c : ascii) (s : string) :
  contains_char c s = false -> contains_char c (strip s) = false.
Proof.
  intros Hs. unfold strip.
  destruct (lstrip_suffix s) as [a Ha].
  destruct (rstrip_prefix (lstrip s)) as [b Hb].
  rewrite Ha, Hb, !contains_char_app in Hs.
  apply orb_false_iff in Hs as [_ Hs]. by apply orb_false_iff in Hs as [Hs _].
Qed.

Lemma blank_no_colon (s : string) : blank s = true -> contains_char ":" s = false.
Proof.
  unfold blank, contains_char. induction s as [|c s IH]; [done|].
  cbn [forallb_str existsb_str]. intros H. apply andb_true_iff in H as [Hc Hs].
  rewrite IH by done. rewrite orb_false_r.
  destruct c as [[] [] [] [] [] [] [] []]; done.
Qed.

Lemma space_not_colon (c : ascii) : is_space c = true -> Ascii.eqb c ":" = false.
Proof. destruct c as [[] [] [] [] [] [] [] []]; done. Qed.

Lemma rstrip_blank (s : string) : rstrip s = "" <-> blank s = true.
Proof.
  unfold blank. induction s as [|c s IH]; [done|].
  cbn [rstrip forallb_str]. destruct (rstrip s) as [|c' r].
  - destruct (is_space c); cbn [andb]; [|done].
    split; [intros _; by apply IH | done].
  - split; [done|]. intros H. apply andb_true_iff in H as [_ Hs].
    by apply IH in Hs.
Qed.

Lemma rstrip_cons (c : ascii) (s : string) :
  rstrip s <> "" -> rstrip (String c s) = String c (rstrip s).
Proof. cbn [rstrip]. by destruct (rstrip s). Qed.

Lemma rstrip_cons_clean (c : ascii) (s : string) :
  is_space c = false -> rstrip (String c s) = String c (rstrip s).
Proof. cbn [rstrip]. intros ->. by destruct (rstrip s). Qed.

Lemma lstrip_rstrip_comm (s : string) : lstrip (rstrip s) = rstrip (lstrip s).
Proof.
  induction s as [|c s IH]; [done|].
  destruct (is_space c) eqn:Hc.
  - cbn [lstrip rstrip]. rewrite Hc, <- IH.
    destruct (rstrip s) as [|c' r]; [done|]. cbn [lstrip]. by rewrite Hc.
  - assert (lstrip (String c s) = String c s) as -> by (by apply StripFacts.lstrip_fixed).
    rewrite rstrip_cons_clean by done. by apply StripFacts.lstrip_fixed.
Qed.

Lemma strip_lstrip (s : string) : strip (lstrip s) = strip s.
Proof. unfold strip. by rewrite StripFacts.lstrip_idempotent. Qed.

Lemma strip_rstrip (s : string) : strip (rstrip s) = strip s.
Proof.
  unfold strip. by rewrite lstrip_rstrip_comm, StripFacts.rstrip_idempotent.
Qed.

Lemma strip_space_cons (c : ascii) (s : string) :
  is_space c = true -> strip (String c s) = strip s.
Proof. intros Hc. unfold strip. cbn [lstrip]. by rewrite Hc. Qed.

(** *** Cutting at the first colon *)

Lemma split_once_found (c : ascii) (s : string) :
  contains_char c s = true ->
  exists k v,
    split_once c s = [k; v] /\ s = k +:+ String c v /\ contains_char c k = false.
Proof.
  unfold contains_char. induction s as [|a s IH]; [discriminate|].
  cbn [existsb_str split_once]. rewrite (Ascii.eqb_sym c a).
  destruct (Ascii.eqb a c) eqn:Hac.
  - intros _. apply Ascii.eqb_eq in Hac as ->. by exists "", s.
  - cbn [orb]. intros Hs. destruct (IH Hs) as (k & v & -> & Hkv & Hk).
    exists (String a k), v. split; [done|].
    split; [by rewrite TextFacts.append_cons, <- Hkv|].
    cbn [existsb_str]. by rewrite (Ascii.eqb_sym c a), Hac.
Qed.

Lemma split_once_app (c : ascii) (k v : string) :
  contains_char c k = false -> split_once c (k +:+ String c v) = [k; v].
Proof.
  unfold contains_char. induction k as [|a k IH].
  - intros _. rewrite append_nil_l. cbn [split_once]. by rewrite Ascii.eqb_refl.
  - cbn [existsb_str]. intros H. apply orb_false_iff in H as [Hac Hk].
    rewrite TextFacts.append_cons. cbn [split_once].
    rewrite (Ascii.eqb_sym a c), Hac. by rewrite IH.
Qed.

(** *** One line *)

Lemma contains_colon (s : string) : contains ":" s = contains_char ":" s.
Proof. apply ConditionalFacts.contains_single. Qed.

(** What [parse_line] does with a line: nothing, or one assignment. *)
Lemma parse_line_cases (res : pydict) (line : string) :
  (contains_char ":" line = false /\ parse_line res line = Ok res)
  \/ (exists k v,
         line = k +:+ String ":" v
         /\ contains_char ":" k = false
         /\ parse_line res line = Ok (dict_set res (strip k) (VStr (strip v)))).
Proof.
  unfold parse_line. rewrite contains_colon.
  destruct (contains_char ":" line) eqn:Hc; [|by left].
  right. destruct (split_once_found ":" line Hc) as (k & v & Hsplit & Hline & Hk).
  exists k, v. by rewrite Hsplit.
Qed.

Lemma parse_line_colon (res : pydict) (k v : string) :
  contains_char ":" k = false ->
  parse_line res (k +:+ String ":" v)
  = Ok (dict_set res (strip k) (VStr (strip v))).
Proof.
  intros Hk. unfold parse_line. rewrite contains_colon, contains_char_app.
  replace (contains_char ":" (String ":" v)) with true by done.
  rewrite orb_true_r. by rewrite split_once_app.
Qed.

Lemma parse_line_blank (res : pydict) (line : string) :
  blank line = true -> parse_line res line = Ok res.
Proof.
  intros Hb. unfold parse_line. by rewrite contains_colon, blank_no_colon.
Qed.

Lemma parse_line_space_cons (res : pydict) (c : ascii) (line : string) :
  is_space c = true -> parse_line res (String c line) = parse_line res line.
Proof.
  intros Hc. destruct (parse_line_cases res line) as [[Hno ->] | (k & v & -> & Hk & ->)].
  - unfold parse_line. rewrite contains_colon. unfold contains_char in *.
    cbn [existsb_str]. rewrite Hno, orb_false_r.
    by rewrite (Ascii.eqb_sym ":" c), space_not_colon.
  - rewrite <- TextFacts.append_cons. rewrite parse_line_colon.
    + by rewrite strip_space_cons.
    + unfold contains_char in *. cbn [existsb_str]. rewrite Hk, orb_false_r.
      by rewrite (Ascii.eqb_sym ":" c), space_not_colon.
Qed.

Lemma rstrip_app_colon (k v : string) :
  rstrip (k +:+ String ":" v) = k +:+ String ":" (rstrip v).
Proof.
  induction k as [|c k IH].
  - rewrite !append_nil_l. by apply rstrip_cons_clean.
  - rewrite !TextFacts.append_cons. rewrite rstrip_cons; [by rewrite IH|].
    rewrite IH. by destruct k.
Qed.

Lemma parse_line_rstrip (res : pydict) (line : string) :
  parse_line res (rstrip line) = parse_line res line.
Proof.
  destruct (parse_line_cases res line) as [[Hno ->] | (k & v & -> & Hk & ->)].
  - unfold parse_line. rewrite contains_colon.
    destruct (rstrip_prefix line) as [b Hb].
    rewrite Hb, contains_char_app in Hno. apply orb_false_iff in Hno as [-> _].
    done.
  - rewrite rstrip_app_colon, parse_line_colon by done. by rewrite strip_rstrip.
Qed.

(** *** The lines *)

Lemma parse_lines_blank (lines : list string) :
  forall res, forallb blank lines = true -> parse_lines res lines = Ok res.
Proof.
  induction lines as [|l lines IH]; intros res H; [done|].
  cbn [forallb] in H. apply andb_true_iff in H as [Hl Hls].
  cbn [parse_lines]. rewrite parse_line_blank by done. cbn [bind]. by apply IH.
Qed.

Lemma parse_lines_rstrip (lines : list string) :
  forall res, parse_lines res (rstrip_lines lines) = parse_lines res lines.
Proof.
  induction lines as [|l lines IH]; intros res; [done|].
  cbn [rstrip_lines]. destruct (forallb blank lines) eqn:Hb.
  - cbn [parse_lines]. rewrite parse_line_rstrip.
    destruct (parse_line res l) as [res'|e]; [|done]. cbn [bind].
    by rewrite parse_lines_blank.
  - cbn [parse_lines]. destruct (parse_line res l) as [res'|e]; [|done].
    cbn [bind]. apply IH.
Qed.

Lemma split_char_nonempty (c : ascii) (s : string) : split_char c s <> [].
Proof.
  destruct s as [|a s]; [done|]. cbn [split_char].
  destruct (Ascii.eqb a c); [done|]. by destruct (split_char c s).
Qed.

Lemma split_char_cons (c a : ascii) (s : string) :
  Ascii.eqb a c = false ->
  exists hd tl,
    split_char c s = hd :: tl /\ split_char c (String a s) = String a hd :: tl.
Proof.
  intros Hac. cbn [split_char]. rewrite Hac.
  destruct (split_char c s) as [|hd tl] eqn:Hs.
  - by apply split_char_nonempty in Hs.
  - by exists hd, tl.
Qed.

Lemma blank_lines (s : string) :
  forallb blank (split_char "010" s) = blank s.
Proof.
  unfold blank. induction s as [|a s IH]; [done|].
  destruct (Ascii.eqb a "010") eqn:Ha.
  - apply Ascii.eqb_eq in Ha as ->. cbn [split_char Ascii.eqb Bool.eqb].
    cbn [forallb forallb_str]. by rewrite IH.
  - destruct (split_char_cons "010" a s Ha) as (hd & tl & Hs & ->).
    rewrite Hs in IH. cbn [forallb forallb_str] in *.
    by rewrite <- IH, andb_assoc.
Qed.

Lemma space_not_newline (c : ascii) :
  is_space c = false -> Ascii.eqb c "010" = false.
Proof. destruct c as [[] [] [] [] [] [] [] []]; done. Qed.

(** The lines of a text without its trailing white space. *)
Lemma lines_rstrip (s : string) :
  split_char "010" (rstrip s) = rstrip_lines (split_char "010" s).
Proof.
  induction s as [|c s IH]; [done|].
  destruct (Ascii.eqb c "010") eqn:Hnl.
  - apply Ascii.eqb_eq in Hnl as ->.
    change (split_char "010" (String "010" s)) with ("" :: split_char "010" s).
    cbn [rstrip_lines]. rewrite blank_lines.
    destruct (blank s) eqn:Hb.
    + apply rstrip_blank in Hb. cbn [rstrip]. by rewrite Hb.
    + assert (rstrip s <> "") as Hr by (intros H; apply rstrip_blank in H; congruence).
      rewrite rstrip_cons by done.
      change (split_char "010" (String "010" (rstrip s)))
        with ("" :: split_char "010" (rstrip s)).
      by rewrite IH.
  - destruct (split_char_cons "010" c s Hnl) as (hd & tl & Hs & ->).
    rewrite Hs in IH. cbn [rstrip_lines] in *.
    pose proof (blank_lines s) as Hbl. rewrite Hs in Hbl. cbn [forallb] in Hbl.
    destruct (blank s) eqn:Hb.
    + apply andb_true_iff in Hbl as [Hhd Htl]. rewrite Htl in *.
      apply rstrip_blank in Hb. apply rstrip_blank in Hhd.
      cbn [rstrip]. rewrite Hb, Hhd.
      destruct (is_space c) eqn:Hc; [done|].
      cbn [split_char]. by rewrite Hnl.
    + assert (rstrip s <> "") as Hr by (intros H; apply rstrip_blank in H; congruence).
      rewrite rstrip_cons by done.
      destruct (split_char_cons "010" c (rstrip s) Hnl) as (hd' & tl' & Hs' & ->).
      rewrite Hs' in IH.
      destruct (forallb blank tl) eqn:Htl.
      * injection IH as -> ->. rewrite andb_true_r in Hbl.
        assert (rstrip hd <> "") as Hhd
          by (intros H; apply rstrip_blank in H; congruence).
        by rewrite rstrip_cons.
      * by injection IH as -> ->.
Qed.

(** Leading white space makes no difference to what is parsed. *)
Lemma parse_lines_lstrip (s : string) :
  forall res,
    parse_lines res (split_char "010" (lstrip s))
    = parse_lines res (split_char "010" s).
Proof.
  induction s as [|c s IH]; intros res; [done|].
  cbn [lstrip]. destruct (is_space c) eqn:Hc; [|done].
  rewrite IH. destruct (Ascii.eqb c "010") eqn:Hnl.
  - apply Ascii.eqb_eq in Hnl as ->.
    change (split_char "010" (String "010" s)) with ("" :: split_char "010" s).
    done.
  - destruct (split_char_cons "010" c s Hnl) as (hd & tl & -> & ->).
    cbn [parse_lines]. by rewrite parse_line_space_cons.
Qed.

Lemma parse_unstripped (text : string) :
  parse text = parse_lines [] (split_char "010" text).
Proof.
  unfold parse, strip.
  by rewrite lines_rstrip, parse_lines_rstrip, parse_lines_lstrip.
Qed.

End ParseFacts.

Module ParsedFacts.
Import PyStr PyText KeyValueParser ParsedDict.

Lemma dict_contains_keys (d : pydict) (k : string) :
  dict_contains d k = true <-> k ∈ map fst d.
Proof.
  induction d as [|[k' v'] d IH]; cbn [dict_contains map fst].
  - split; [discriminate | intros H; by apply elem_of_nil in H].
  - rewrite elem_of_cons. destruct (String.eqb k k') eqn:Hk.
    + apply String.eqb_eq in Hk. split; [by left | done].
    + apply String.eqb_neq in Hk. rewrite IH. split; [by right | by intros [?|?]].
Qed.

Lemma dict_set_fresh (d : pydict) (k : string) (v : pyval) :
  k ∉ map fst d -> dict_set d k v = d ++ [(k, v)].
Proof.
  induction d as [|[k' v'] d IH]; [done|].
  cbn [map fst dict_set app]. rewrite not_elem_of_cons. intros [Hne Hk].
  apply String.eqb_neq in Hne. rewrite Hne. by rewrite IH.
Qed.

Lemma dict_set_Forall (P : string * pyval -> Prop) (d : pydict)
    (k : string) (v : pyval) :
  Forall P d -> P (k, v) -> Forall P (dict_set d k v).
Proof.
  intros Hd Hkv. induction Hd as [|[k' v'] d Hx Hd IH]; cbn [dict_set].
  - by constructor.
  - destruct (String.eqb k k') eqn:Hk.
    + apply String.eqb_eq in Hk as <-. by constructor.
    + by constructor.
Qed.

Lemma dict_set_NoDup (d : pydict) (k : string) (v : pyval) :
  NoDup (map fst d) -> NoDup (map fst (dict_set d k v)).
Proof.
  intros Hd. rewrite DictFacts.keys_set.
  destruct (dict_contains d k) eqn:Hk; [done|].
  apply NoDup_app. split; [done|]. split; [|apply NoDup_singleton].
  intros x Hx Hx'. apply list_elem_of_singleton in Hx' as ->.
  apply dict_contains_keys in Hx. congruence.
Qed.

Lemma dict_set_well_formed (d : pydict) (k : string) (v : pyval) :
  well_formed d -> tidy (k, v) -> well_formed (dict_set d k v).
Proof.
  intros [Hnd Hall] Hkv. split; [by apply dict_set_NoDup | by apply dict_set_Forall].
Qed.

(** No line has a line feed. *)
Lemma lines_one_line (s : string) :
  Forall (fun line => contains_char "010" line = false) (split_char "010" s).
Proof.
  unfold contains_char. induction s as [|a s IH]; [by repeat constructor|].
  destruct (Ascii.eqb a "010") eqn:Ha.
  - apply Ascii.eqb_eq in Ha as ->.
    change (split_char "010" (String "010" s)) with ("" :: split_char "010" s).
    by constructor.
  - destruct (ParseFacts.split_char_cons "010" a s Ha) as (hd & tl & Hs & ->).
    rewrite Hs in IH. apply Forall_cons in IH as [Hhd Htl].
    constructor; [|done]. cbn [existsb_str].
    by rewrite (Ascii.eqb_sym "010" a), Ha, Hhd.
Qed.

Lemma parse_line_well_formed (res : pydict) (line : string) :
  well_formed res -> contains_char "010" line = false ->
  exists res', parse_line res line = Ok res' /\ well_formed res'.
Proof.
  intros Hres Hline.
  destruct (ParseFacts.parse_line_cases res line)
    as [[_ ->] | (k & v & -> & Hk & ->)]; [by exists res|].
  eexists. split; [done|]. apply dict_set_well_formed; [done|].
  rewrite ParseFacts.contains_char_app in Hline.
  apply orb_false_iff in Hline as [Hknl Hvnl].
  unfold contains_char in Hvnl. cbn [existsb_str] in Hvnl.
  apply orb_false_iff in Hvnl as [_ Hvnl].
  split; [apply StripFacts.strip_idempotent|].
  split; [by apply ParseFacts.contains_char_strip|].
  split; [by apply ParseFacts.contains_char_strip|].
  exists (strip v). split; [done|].
  split; [apply StripFacts.strip_idempotent | by apply ParseFacts.contains_char_strip].
Qed.

Lemma parse_lines_well_formed (lines : list string) :
  forall res,
    well_formed res ->
    Forall (fun line => contains_char "010" line = false) lines ->
    exists res', parse_lines res lines = Ok res' /\ well_formed res'.
Proof.
  induction lines as [|line lines IH]; intros res Hres Hlines; [by exists res|].
  apply Forall_cons in Hlines as [Hline Hlines].
  destruct (parse_line_well_formed res line Hres Hline) as (res1 & Hp & Hres1).
  cbn [parse_lines]. rewrite Hp. cbn [bind]. by apply IH.
Qed.

(** *** Printing and parsing again *)

Lemma parse_lines_app (l1 l2 : list string) :
  forall res,
    parse_lines res (l1 ++ l2)
    = (res' <- parse_lines res l1 ;; parse_lines res' l2).
Proof.
  induction l1 as [|l l1 IH]; intros res; [done|].
  cbn [app parse_lines]. destruct (parse_line res l) as [res1|e]; [|done].
  cbn [bind]. apply IH.
Qed.

Lemma lines_line (line rest : string) :
  contains_char "010" line = false ->
  split_char "010" (line +:+ StreamingChat.nl +:+ rest)
  = line :: split_char "010" rest.
Proof.
  unfold contains_char. induction line as [|a line IH]; [done|].
  cbn [existsb_str]. intros H. apply orb_false_iff in H as [Ha Hline].
  rewrite TextFacts.append_cons. cbn [split_char].
  rewrite (Ascii.eqb_sym a "010"), Ha. by rewrite IH.
Qed.

Lemma lines_printed (lines : list string) :
  Forall (fun line => contains_char "010" line = false) lines ->
  split_char "010"
    (String.concat "" (map (fun line => line +:+ StreamingChat.nl) lines))
  = lines ++ [""].
Proof.
  induction 1 as [|line lines Hline _ IH]; [done|].
  cbn [map]. rewrite PrintedFacts.concat_empty_cons, TextFacts.append_assoc.
  rewrite lines_line by done. by rewrite IH.
Qed.

Lemma printed_line_shape (k v : string) :
  printed_line (k, VStr v) = ("   " +:+ k) +:+ String ":" (" " +:+ v).
Proof. unfold printed_line. cbn [fst snd py_str]. by rewrite TextFacts.append_assoc. Qed.

Lemma parse_printed_line (res : pydict) (item : string * pyval) :
  tidy item -> parse_line res (printed_line item) = Ok (dict_set res item.1 item.2).
Proof.
  destruct item as [k v0]. intros (Hk & Hcolon & _ & v & Hv0 & Hv & _).
  cbn [fst snd] in *. subst v0. rewrite printed_line_shape.
  rewrite ParseFacts.parse_line_colon.
  - rewrite !TextFacts.append_cons, !ParseFacts.append_nil_l.
    rewrite !ParseFacts.strip_space_cons by done. by rewrite Hk, Hv.
  - by rewrite ParseFacts.contains_char_app, Hcolon.
Qed.

Lemma printed_line_one_line (item : string * pyval) :
  tidy item -> contains_char "010" (printed_line item) = false.
Proof.
  destruct item as [k v0]. intros (_ & _ & Hk & v & Hv0 & _ & Hv).
  cbn [fst snd] in *. subst v0. rewrite printed_line_shape.
  rewrite !ParseFacts.contains_char_app, Hk.
  unfold contains_char in *. cbn [existsb_str].
  rewrite !TextFacts.append_cons, ParseFacts.append_nil_l. cbn [existsb_str].
  by rewrite Hv.
Qed.

Lemma parse_printed_lines (d : pydict) :
  forall res,
    NoDup (map fst (res ++ d)) -> Forall tidy d ->
    parse_lines res (map printed_line d) = Ok (res ++ d).
Proof.
  induction d as [|[k v] d IH]; intros res Hnd Hd.
  - by rewrite app_nil_r.
  - apply Forall_cons in Hd as [Hkv Hd].
    cbn [map parse_lines]. rewrite parse_printed_line by done. cbn [bind fst snd].
    rewrite dict_set_fresh.
    + rewrite IH; [by rewrite <- app_assoc | by rewrite <- app_assoc | done].
    + rewrite map_app in Hnd. apply NoDup_app in Hnd as (_ & Hdisj & _).
      intros Hin. apply (Hdisj k Hin). cbn. apply elem_of_cons. by left.
Qed.

End ParsedFacts.

(** X27: [KeyValueParser.parse] raises nothing, whatever the text: the
    unpacking of [line.split(':', 1)] is never short of a value.  In the
    dict it returns the keys are distinct, every key and every value is
    stripped and on one line, and no key has a colon. *)
Theorem parse_never_fails_and_is_tidy (text : string) :
  exists res,
    KeyValueParser.parse text = Ok res /\ ParsedDict.well_formed res.
Proof.
  rewrite ParseFacts.parse_unstripped.
  apply ParsedFacts.parse_lines_well_formed.
  - split; constructor.
  - apply ParsedFacts.lines_one_line.
Qed.

(** X28: The [strip] of the whole text in [parse] makes no difference: the
    same dict comes from the lines of the text as it is, since every line
    is stripped on both sides of its first colon and a line of white space
    has no colon.  So white space around a text does not matter. *)
Theorem stripping_the_text_is_redundant (text : string) :
  KeyValueParser.parse text
  = KeyValueParser.parse_lines [] (PyText.split_char "010" text)
  /\ KeyValueParser.parse (PyText.strip text) = KeyValueParser.parse text
  /\ (forall c, PyStr.is_space c = true ->
                KeyValueParser.parse (String c text) = KeyValueParser.parse text
                /\ KeyValueParser.parse (text +:+ String c "")
                   = KeyValueParser.parse text).
Proof.
  split; [apply ParseFacts.parse_unstripped|].
  split.
  { unfold KeyValueParser.parse. by rewrite StripFacts.strip_idempotent. }
  intros c Hc. unfold KeyValueParser.parse. split.
  - by rewrite ParseFacts.strip_space_cons.
  - f_equal. f_equal. unfold PyText.strip.
    rewrite <- !ParseFacts.lstrip_rstrip_comm. f_equal.
    induction text as [|a text IH].
    + rewrite ParseFacts.append_nil_l. cbn [PyText.rstrip]. by rewrite Hc.
    + rewrite TextFacts.append_cons. cbn [PyText.rstrip]. by rewrite IH.
Qed.

(** X29: What [custom_output_parser] prints of a parsed dict parses back to
    that dict: the lines [key: value], each indented by three blanks,
    give the same keys with the same values in the same order. *)
Theorem printed_dict_parses_back (res : pydict) :
  ParsedDict.well_formed res ->
  KeyValueParser.parse (KeyValueParser.printed res) = Ok res.
Proof.
  intros [Hnd Htidy]. rewrite ParseFacts.parse_unstripped.
  unfold KeyValueParser.printed.
  rewrite <- (map_map KeyValueParser.printed_line
                (fun line => line +:+ StreamingChat.nl)).
  rewrite ParsedFacts.lines_printed.
  - rewrite ParsedFacts.parse_lines_app.
    by rewrite (ParsedFacts.parse_printed_lines res []).
  - apply Forall_forall. intros line Hline.
    apply list_elem_of_fmap in Hline as (item & -> & Hitem).
    apply ParsedFacts.printed_line_one_line.
    by apply (proj1 (Forall_forall _ _) Htidy).
Qed.

(** The answer of the script for [Sarah Johnson], as the format
    instructions ask for it. *)
Lemma printed_dict_parses_back_witness :
  ParsedDict.well_formed
    [("name", VStr "Sarah Johnson"); ("age", VStr "28");
     ("city", VStr "Seattle, Washington")]
  /\ KeyValueParser.parse
       (KeyValueParser.printed
          [("name", VStr "Sarah Johnson"); ("age", VStr "28");
           ("city", VStr "Seattle, Washington")])
     = Ok [("name", VStr "Sarah Johnson"); ("age", VStr "28");
           ("city", VStr "Seattle, Washington")].
Proof.
  assert (ParsedDict.well_formed
            [("name", VStr "Sarah Johnson"); ("age", VStr "28");
             ("city", VStr "Seattle, Washington")]) as Hwf.
  { split.
    - cbn. repeat constructor; rewrite ?elem_of_cons, ?elem_of_nil;
        intros H; repeat (destruct H as [H|H]; try discriminate); done.
    - repeat constructor; cbn; try reflexivity; eexists; repeat split;
        reflexivity. }
  split; [exact Hwf|].
  exact (printed_dict_parses_back _ Hwf).
Defined.

(** ** The validation of extracted contacts *)

Module ContactFacts.
Import PyStr PyText ContactValidation.

(** A string with the separator splits into two pieces at least. *)
Lemma split_char_found (c : ascii) (s : string) :
  contains_char c s = true ->
  exists a b rest, split_char c s = a :: b :: rest.
Proof.
  unfold contains_char. induction s as [|x s IH]; [discriminate|].
  cbn [existsb_str split_char]. rewrite (Ascii.eqb_sym c x).
  destruct (Ascii.eqb x c) eqn:Hx.
  - intros _. destruct (split_char c s) as [|b rest] eqn:Hs.
    + by apply ParseFacts.split_char_nonempty in Hs.
    + by exists "", b, rest.
  - cbn [orb]. intros Hs. destruct (IH Hs) as (a & b & rest & ->).
    by exists (String x a), b, rest.
Qed.

(** A piece has no character that the string does not have. *)
Lemma split_char_piece (c d : ascii) (s : string) :
  forall piece,
    piece ∈ split_char c s -> contains_char d piece = true ->
    contains_char d s = true.
Proof.
  unfold contains_char. induction s as [|x s IH]; intros piece Hin Hd.
  - cbn in Hin. apply list_elem_of_singleton in Hin as ->. done.
  - cbn [split_char] in Hin. cbn [existsb_str].
    destruct (Ascii.eqb x c).
    + apply elem_of_cons in Hin as [->|Hin]; [done|].
      rewrite (IH piece Hin Hd). apply orb_true_r.
    + destruct (split_char c s) as [|hd tl] eqn:Hs.
      * by apply ParseFacts.split_char_nonempty in Hs.
      * apply elem_of_cons in Hin as [->|Hin].
        -- cbn [existsb_str] in Hd. apply orb_true_iff in Hd as [->|Hd]; [done|].
           rewrite (IH hd); [apply orb_true_r | apply elem_of_cons; by left | done].
        -- rewrite (IH piece); [apply orb_true_r | apply elem_of_cons; by right | done].
Qed.

Lemma validate_email_str (s : string) :
  exists valid,
    validate_email (VStr s) = Ok valid
    /\ (valid = true ->
        contains_char "@" s = true /\ contains_char "." s = true).
Proof.
  unfold validate_email. cbn [py_in bind].
  rewrite ConditionalFacts.contains_single.
  destruct (contains_char "@" s) eqn:Hat; [|by exists false].
  destruct (split_char_found "@" s Hat) as (a & domain & rest & Hs).
  rewrite Hs. eexists. split; [reflexivity|].
  rewrite ConditionalFacts.contains_single. intros Hdot. split; [done|].
  apply (split_char_piece "@" "." s domain); [|done].
  rewrite Hs. apply elem_of_cons. right. apply elem_of_cons. by left.
Qed.

End ContactFacts.

(** X30: [validate_data] reports every problem of a contact.  When it returns,
    [errors] lists what is wrong, in the order name, email, phone,
    [is_valid] is true exactly when nothing is, and the other fields are
    those of the input.  [validate_email] never runs past the pieces of
    [email.split("@")], and an email it accepts is one that
    [UserRegistration] accepts.  An email that is present but [None]
    is not reported: a [TypeError] comes out. *)
Theorem contact_validation_reports_every_problem (x : pydict) :
  (forall y,
      ContactValidation.validate_data x = Ok y ->
      exists valid,
        ContactValidation.validate_email (dict_get x "email" (VStr "")) = Ok valid
        /\ dict_lookup y "errors"
           = Some (VList
                     (map VStr
                        ((if ContactValidation.truthy (dict_get_none x "name")
                          then [] else ["Missing name"])
                         ++ (if valid then [] else ["Invalid email"])
                         ++ (if ContactValidation.truthy (dict_get_none x "phone")
                             then [] else ["Missing phone"]))))
        /\ dict_lookup y "is_valid"
           = Some (VBool (ContactValidation.truthy (dict_get_none x "name")
                          && valid
                          && ContactValidation.truthy (dict_get_none x "phone")))
        /\ (forall k, k <> "is_valid" -> k <> "errors" ->
                      dict_lookup y k = dict_lookup x k))
  /\ (forall s,
         exists valid,
           ContactValidation.validate_email (VStr s) = Ok valid
           /\ (valid = true -> UserRegistration.email_valid s = Ok (PyStr.lower s)))
  /\ (dict_lookup x "email" = Some VNone ->
      ContactValidation.validate_data x
      = raise TypeError "argument of type 'NoneType' is not iterable").
Proof.
  split; [|split].
  - intros y. unfold ContactValidation.validate_data.
    destruct (ContactValidation.validate_email (dict_get x "email" (VStr "")))
      as [valid|e]; [|discriminate].
    cbn [bind]. intros [= <-]. exists valid. split; [done|].
    split; [|split].
    + rewrite DictFacts.lookup_set_eq.
      by destruct (ContactValidation.truthy (dict_get_none x "name")), valid,
        (ContactValidation.truthy (dict_get_none x "phone")).
    + rewrite DictFacts.lookup_set_ne, DictFacts.lookup_set_eq by done.
      by destruct (ContactValidation.truthy (dict_get_none x "name")), valid,
        (ContactValidation.truthy (dict_get_none x "phone")).
    + intros k H1 H2. by rewrite !DictFacts.lookup_set_ne.
  - intros s. destruct (ContactFacts.validate_email_str s) as (valid & Hv & Hvalid).
    exists valid. split; [done|]. intros Htrue.
    destruct (Hvalid Htrue) as [Hat Hdot].
    unfold UserRegistration.email_valid. by rewrite Hat, Hdot.
  - intros Hnone. unfold ContactValidation.validate_data, dict_get.
    by rewrite Hnone.
Qed.
